(** * FinancialFileFetcher: the table index resolver and the table scraper

    A shallow embedding of [get_table_info], [get_table_url] and
    [display_table] of [FinancialFileFetcher.py], with the parts of [re],
    [str], [float] and pandas they call.

    Conventions.
    - Text is [string]; a character is a code point below 256.
    - A Python call either returns a value or raises: [outcome].
    - [print] is modelled by the list of printed lines, oldest first.
    - The transport and the markup parser are collaborators: a [World] gives,
      for a URL, the parsed view of the page the code navigates. *)

From Stdlib Require Import List String Ascii ZArith Lia Bool Arith.
From Stdlib Require Import QArith Qcanon.
From Stdlib Require Import Sorting.Sorted Sorting.Permutation.
From Stdlib Require Import Floats.SpecFloat.
Import ListNotations.

Local Close Scope Q_scope.
Local Open Scope string_scope.
Local Open Scope list_scope.
Local Open Scope nat_scope.

(** ** Python strings *)

Module PyStr.

Definition code (c : ascii) : nat := nat_of_ascii c.

(** [str.isspace] on one character: TAB, LF, VT, FF, CR, the four
    separators FS GS RS US, the space, the next line U+0085 and the
    no-break space U+00A0. *)
Definition is_space (c : ascii) : bool :=
  let n := code c in
  ((9 <=? n) && (n <=? 13)) || ((28 <=? n) && (n <=? 32))
  || (n =? 133) || (n =? 160).

Fixpoint lstrip (s : string) : string :=
  match s with
  | String c r => if is_space c then lstrip r else s
  | EmptyString => EmptyString
  end.

(** [rstrip] keeps a character when it is not a space or when something
    survives after it. *)
Fixpoint rstrip (s : string) : string :=
  match s with
  | String c r =>
      match rstrip r with
      | EmptyString => if is_space c then EmptyString else String c EmptyString
      | r' => String c r'
      end
  | EmptyString => EmptyString
  end.

(** [s.strip()] *)
Definition strip (s : string) : string := rstrip (lstrip s).

(** [sep.join(l)] *)
Fixpoint join (sep : string) (l : list string) : string :=
  match l with
  | [] => EmptyString
  | [x] => x
  | x :: r => (x ++ sep ++ join sep r)%string
  end.

Fixpoint drop (n : nat) (s : string) : string :=
  match n, s with
  | S k, String _ r => drop k r
  | _, _ => s
  end.

(** [s.replace(old, new)] for a non-empty [old]: every occurrence, scanning
    from the left, occurrences taken greedily and never overlapping.  [skip]
    counts the characters of a replaced occurrence still to be passed. *)
Fixpoint replace_from (skip : nat) (old new s : string) : string :=
  match s with
  | EmptyString => EmptyString
  | String c r =>
      match skip with
      | S k => replace_from k old new r
      | O =>
          if prefix old s
          then (new ++ replace_from (Nat.pred (String.length old)) old new r)%string
          else String c (replace_from 0 old new r)
      end
  end.

Definition replace (old new s : string) : string := replace_from 0 old new s.

(** [re.sub(cls, repl, s)] where pattern [cls] is a one-character class. *)
Fixpoint re_sub_class (cls : ascii -> bool) (repl s : string) : string :=
  match s with
  | EmptyString => EmptyString
  | String c r =>
      if cls c then (repl ++ re_sub_class cls repl r)%string
      else String c (re_sub_class cls repl r)
  end.

Definition lower (c : ascii) : ascii :=
  let n := code c in
  if (65 <=? n) && (n <=? 90) then ascii_of_nat (n + 32) else c.

Fixpoint lowercase (s : string) : string :=
  match s with
  | EmptyString => EmptyString
  | String c r => String (lower c) (lowercase r)
  end.

End PyStr.

(** ** Python floats: IEEE 754 binary64, as [spec_float] *)

Module PyFloat.

Definition float := spec_float.

Definition prec : Z := 53.
Definition emax : Z := 1024.

Definition nan : float := S754_nan.

(** The binary64 nearest to the integer [m], ties to even. *)
Definition of_Z (neg : bool) (m : positive) : float :=
  binary_round prec emax neg m 0.

(** The binary64 nearest to [n / d], ties to even.  The quotient is taken
    with at least 56 significant bits and a sticky last bit, so that the
    one rounding of [binary_round] is the rounding of the exact quotient. *)
Definition of_ratio (neg : bool) (n d : positive) : float :=
  let s := Z.max 0 (56 + Z.log2 (Zpos d) - Z.log2 (Zpos n)) in
  let (q, r) := Z.div_eucl (Z.shiftl (Zpos n) s) (Zpos d) in
  let sticky := if Z.eqb r 0 then 0%Z else 1%Z in
  match (2 * q + sticky)%Z with
  | Zpos m => binary_round prec emax neg m (- s - 1)
  | _ => S754_zero neg
  end.

(** The binary64 nearest to [m * 10^k]. *)
Definition of_decimal (neg : bool) (m k : Z) : float :=
  match m with
  | Zpos p =>
      match k with
      | Zneg _ =>
          match (10 ^ (- k))%Z with
          | Zpos d => of_ratio neg p d
          | _ => S754_nan
          end
      | _ =>
          match (m * 10 ^ k)%Z with
          | Zpos n => of_Z neg n
          | _ => S754_nan
          end
      end
  | _ => S754_zero neg
  end.

(** The exact value of a finite float. *)
Definition to_Q (f : float) : option Q :=
  match f with
  | S754_zero _ => Some 0%Q
  | S754_finite s m e =>
      let v := match e with
               | Zneg p => Qmake (Zpos m) (2 ^ p)%positive
               | _ => inject_Z (Zpos m * 2 ^ e)
               end in
      Some (if s then Qopp v else v)
  | _ => None
  end.

(** The float [f] is finite and its value is the rational [q]. *)
Definition represents (f : float) (q : Q) : Prop :=
  match to_Q f with
  | Some v => Qeq v q
  | None => False
  end.

Definition digit_of (c : ascii) : option Z :=
  let n := PyStr.code c in
  if (48 <=? n) && (n <=? 57) then Some (Z.of_nat (n - 48)) else None.

(** digitpart ::= digit (["_"] digit)*  : the digits read, and the rest. *)
Fixpoint scan_digits (s : string) : list Z * string :=
  match s with
  | String c r =>
      match digit_of c with
      | Some d =>
          match r with
          | String "_"%char ((String c2 _) as r') =>
              match digit_of c2 with
              | Some _ => let (ds, rest) := scan_digits r' in (d :: ds, rest)
              | None => ([d], r)
              end
          | _ => let (ds, rest) := scan_digits r in (d :: ds, rest)
          end
      | None => ([], s)
      end
  | EmptyString => ([], s)
  end.

Definition Z_of_digits (ds : list Z) : Z :=
  fold_left (fun acc d => (10 * acc + d)%Z) ds 0%Z.

(** An optional sign: is it negative, and the rest. *)
Definition scan_sign (s : string) : bool * string :=
  match s with
  | String "-"%char r => (true, r)
  | String "+"%char r => (false, r)
  | _ => (false, s)
  end.

(** exponent ::= ("e" | "E") ["+" | "-"] digitpart, up to the end. *)
Definition scan_exponent (s : string) : option Z :=
  match s with
  | EmptyString => Some 0%Z
  | String c r =>
      if (Ascii.eqb c "e" || Ascii.eqb c "E")%bool then
        let (neg, r1) := scan_sign r in
        match scan_digits r1 with
        | ((_ :: _) as ds, EmptyString) =>
            Some (if neg then (- Z_of_digits ds)%Z else Z_of_digits ds)
        | _ => None
        end
      else None
  end.

(** floatnumber ::= digitpart ["." [digitpart]] [exponent]
                  | "." digitpart [exponent]
    as the mantissa and the power of ten. *)
Definition scan_number (s : string) : option (Z * Z) :=
  let (ip, r1) := scan_digits s in
  let (fp, r2) := match r1 with
                  | String "."%char r => scan_digits r
                  | _ => ([], r1)
                  end in
  match ip ++ fp with
  | [] => None
  | ds =>
      match scan_exponent r2 with
      | Some e => Some (Z_of_digits ds, (e - Z.of_nat (List.length fp))%Z)
      | None => None
      end
  end.

(** The white space of C, which [float] strips: TAB, LF, VT, FF, CR and
    the space. *)
Definition is_space (c : ascii) : bool :=
  let n := PyStr.code c in
  ((9 <=? n) && (n <=? 13)) || (n =? 32).

Fixpoint lstrip (s : string) : string :=
  match s with
  | String c r => if is_space c then lstrip r else s
  | EmptyString => EmptyString
  end.

Fixpoint rstrip (s : string) : string :=
  match s with
  | String c r =>
      match rstrip r with
      | EmptyString => if is_space c then EmptyString else String c EmptyString
      | r' => String c r'
      end
  | EmptyString => EmptyString
  end.

Definition strip (s : string) : string := rstrip (lstrip s).

Fixpoint is_ascii (s : string) : bool :=
  match s with
  | EmptyString => true
  | String c r => (PyStr.code c <? 128) && is_ascii r
  end.

(** What [float] makes of a text that is not ASCII before it reads it: a
    white space of [str] beyond the ASCII ones becomes a space, and the
    text ends in a question mark at the first other character that is not
    ASCII. *)
Fixpoint transform (s : string) : string :=
  match s with
  | EmptyString => EmptyString
  | String c r =>
      if PyStr.code c <? 127 then String c (transform r)
      else if PyStr.is_space c then String " " (transform r)
      else "?"
  end.

Definition to_ascii (s : string) : string :=
  if is_ascii s then s else transform s.

(** [float(s)] on a string: [None] is [ValueError]. *)
Definition of_string (s : string) : option float :=
  let (neg, body) := scan_sign (strip (to_ascii s)) in
  let low := PyStr.lowercase body in
  if (String.eqb low "inf" || String.eqb low "infinity")%bool
  then Some (S754_infinity neg)
  else if String.eqb low "nan" then Some S754_nan
  else match scan_number body with
       | Some (m, k) => Some (of_decimal neg m k)
       | None => None
       end.

End PyFloat.

(** ** Calls that may raise, and what they print *)

Inductive exn : Type :=
| IndexError | KeyError | AttributeError | ValueError | TypeError
| RequestException.

Inductive outcome (A : Type) : Type :=
| Return (a : A)
| Raise (e : exn).
Arguments Return {A} a.
Arguments Raise {A} e.

(** A computation: the lines printed, then how it ended. *)
Definition Py (A : Type) : Type := list string * outcome A.

Definition ret {A} (a : A) : Py A := ([], Return a).
Definition raise {A} (e : exn) : Py A := ([], Raise e).
Definition print (line : string) : Py unit := ([line], Return tt).
Definition lift {A} (o : outcome A) : Py A := ([], o).

Definition bind {A B} (m : Py A) (k : A -> Py B) : Py B :=
  match m with
  | (out, Return a) => let (out', r) := k a in (out ++ out', r)
  | (out, Raise e) => (out, Raise e)
  end.

(** [try: body  except: handler], with the bare [except] of the source. *)
Definition try_except {A} (body : Py A) (handler : Py A) : Py A :=
  match body with
  | (out, Return a) => (out, Return a)
  | (out, Raise _) => let (out', r) := handler in (out ++ out', r)
  end.

Declare Scope py_scope.
Delimit Scope py_scope with py.
Notation "x <- m ;; k" := (bind m (fun x => k))
  (at level 61, m at next level, right associativity) : py_scope.
Notation "m ;;; k" := (bind m (fun _ => k))
  (at level 61, right associativity) : py_scope.

(** ** The part of pandas the module uses *)

Module Pandas.

(** What a cell or a label can hold. *)
Inductive value : Type :=
| VInt (n : Z)
| VStr (s : string)
| VFloat (f : PyFloat.float).

(** The filler of a cell that reindexing creates. *)
Definition NaN : value := VFloat PyFloat.nan.

Definition float_eqb (a b : PyFloat.float) : bool :=
  match a, b with
  | S754_zero s, S754_zero s' => Bool.eqb s s'
  | S754_infinity s, S754_infinity s' => Bool.eqb s s'
  | S754_nan, S754_nan => true
  | S754_finite s m e, S754_finite s' m' e' =>
      Bool.eqb s s' && Pos.eqb m m' && Z.eqb e e'
  | _, _ => false
  end.

(** Label identity, as an [Index] looks a label up. *)
Definition label_eqb (a b : value) : bool :=
  match a, b with
  | VInt n, VInt m => Z.eqb n m
  | VStr s, VStr t => String.eqb s t
  | VFloat f, VFloat g => float_eqb f g
  | _, _ => false
  end.

(** A frame, row by row.  [index] labels the rows and [columns] the cells
    of each row. *)
Record DataFrame : Type := mkDF {
  index : list value;
  index_name : option value;
  columns : list value;
  rows : list (list value)
}.

Definition range (n : nat) : list value :=
  map (fun i => VInt (Z.of_nat i)) (seq 0 n).

(** [pd.DataFrame(d)] for a dict [d] of lists: one column per key, in
    insertion order; lists of different lengths are a [ValueError]. *)
Definition of_dict (d : list (value * list value)) : outcome DataFrame :=
  let n := match d with [] => 0 | (_, v) :: _ => List.length v end in
  if forallb (fun kv => List.length (snd kv) =? n) d
  then Return (mkDF (range n) None (map fst d)
                 (map (fun i => map (fun kv => nth i (snd kv) NaN) d) (seq 0 n)))
  else Raise ValueError.

(** [df.T] *)
Definition T (df : DataFrame) : DataFrame :=
  mkDF (columns df) None (index df)
    (map (fun j => map (fun r => nth j r NaN) (rows df))
       (seq 0 (List.length (columns df)))).

(** [pd.DataFrame(records)] for a list of dicts that all have the keys
    [keys], each record given by its values: no record, no column. *)
Definition of_records (keys : list value) (records : list (list value)) : DataFrame :=
  match records with
  | [] => mkDF [] None [] []
  | _ => mkDF (range (List.length records)) None keys records
  end.

Fixpoint position (l : value) (cols : list value) : option nat :=
  match cols with
  | [] => None
  | c :: r => if label_eqb c l then Some 0
              else option_map S (position l r)
  end.

(** [df[label]]: the cells of one column, and the name the series carries. *)
Definition getitem (df : DataFrame) (label : value) : outcome (list value) :=
  match position label (columns df) with
  | Some j => Return (map (fun r => nth j r NaN) (rows df))
  | None => Raise KeyError
  end.

Fixpoint remove_nth {A} (j : nat) (l : list A) : list A :=
  match j, l with
  | _, [] => []
  | O, _ :: r => r
  | S k, x :: r => x :: remove_nth k r
  end.

(** [df.drop(label, axis = 1)] *)
Definition drop_column (df : DataFrame) (label : value) : outcome DataFrame :=
  match position label (columns df) with
  | Some j => Return (mkDF (index df) (index_name df)
                        (remove_nth j (columns df))
                        (map (remove_nth j) (rows df)))
  | None => Raise KeyError
  end.

(** [df.index = series], the series being a column of [df] named [name]. *)
Definition set_index (df : DataFrame) (name : value) (labels : list value) : DataFrame :=
  mkDF labels (Some name) (columns df) (rows df).

(** [df.index.name = name] *)
Definition set_index_name (df : DataFrame) (name : value) : DataFrame :=
  mkDF (index df) (Some name) (columns df) (rows df).

(** [df.columns = header] *)
Definition set_columns (df : DataFrame) (header : list value) : outcome DataFrame :=
  if List.length header =? List.length (columns df)
  then Return (mkDF (index df) (index_name df) header (rows df))
  else Raise ValueError.

(** [df[df.index == label]] *)
Definition select_index (df : DataFrame) (label : value) : DataFrame :=
  let kept := filter (fun ir => label_eqb (fst ir) label)
                (combine (index df) (rows df)) in
  mkDF (map fst kept) (index_name df) (columns df) (map snd kept).

(** [series.values[0]] *)
Definition first_value (s : list value) : outcome value :=
  match s with
  | v :: _ => Return v
  | [] => Raise IndexError
  end.

(** One row of [a] laid out on the columns [cols]: a column [a] lacks is
    filled with [NaN]. *)
Definition reindex_row (from cols : list value) (r : list value) : list value :=
  map (fun c => match position c from with
                | Some j => nth j r NaN
                | None => NaN
                end) cols.

(** The columns of [a], then those of [b] that [a] lacks. *)
Definition union_columns (a b : list value) : list value :=
  a ++ filter (fun c => match position c a with
                        | Some _ => false
                        | None => true
                        end) b.

(** [pd.concat([a, b])]: the rows of [a], then those of [b], on the union
    of the columns. *)
Definition concat (a b : DataFrame) : DataFrame :=
  let cols := union_columns (columns a) (columns b) in
  mkDF (index a ++ index b) None cols
    (map (reindex_row (columns a) cols) (rows a) ++
     map (reindex_row (columns b) cols) (rows b)).

Definition int_label (v : value) : option Z :=
  match v with VInt n => Some n | _ => None end.

Fixpoint int_labels (l : list value) : option (list Z) :=
  match l with
  | [] => Some []
  | v :: r =>
      match int_label v, int_labels r with
      | Some n, Some ns => Some (n :: ns)
      | _, _ => None
      end
  end.

(** Insertion of a keyed row in a list sorted by key; an equal key stays
    behind the ones already there. *)
Fixpoint insert_by_key {A} (k : Z) (x : A) (l : list (Z * A)) : list (Z * A) :=
  match l with
  | [] => [(k, x)]
  | (k', y) :: r =>
      if (k <? k')%Z then (k, x) :: l else (k', y) :: insert_by_key k x r
  end.

Fixpoint sort_by_key {A} (l : list (Z * A)) : list (Z * A) :=
  match l with
  | [] => []
  | (k, x) :: r => insert_by_key k x (sort_by_key r)
  end.

(** [df.sort_index()], for an index of ints, the only kind the module
    sorts; any other label is outside the model and reported as a
    [TypeError]. *)
Definition sort_index (df : DataFrame) : outcome DataFrame :=
  match int_labels (index df) with
  | Some keys =>
      let sorted := sort_by_key (combine keys (rows df)) in
      Return (mkDF (map (fun kr => VInt (fst kr)) sorted) (index_name df)
                (columns df) (map snd sorted))
  | None => Raise TypeError
  end.

(** [df.iloc[:, 1:] = f(df.iloc[:, 1:])] for an [f] that works cell by
    cell: the first cell of each row stays, the others are rewritten. *)
Definition map_iloc_from_1 (f : value -> value) (df : DataFrame) : DataFrame :=
  mkDF (index df) (index_name df) (columns df)
    (map (fun r => match r with
                   | [] => []
                   | c :: cs => c :: map f cs
                   end) (rows df)).

(** [.replace(pat, repl, regex=True)] on one cell, the pattern being a
    one-character class: only a string is rewritten. *)
Definition replace_class (cls : ascii -> bool) (repl : string) (v : value) : value :=
  match v with
  | VStr s => VStr (PyStr.re_sub_class cls repl s)
  | _ => v
  end.

(** [.replace('', repl, regex=True)] on one cell: pandas does not take the
    empty pattern as a regular expression, and replaces the cells that are
    the empty string. *)
Definition replace_empty (repl : string) (v : value) : value :=
  match v with
  | VStr EmptyString => VStr repl
  | _ => v
  end.

(** [float(v)] of one cell, for [astype(float)]. *)
Definition to_float (v : value) : option PyFloat.float :=
  match v with
  | VStr s => PyFloat.of_string s
  | VFloat f => Some f
  | VInt Z0 => Some (S754_zero false)
  | VInt (Zpos p) => Some (PyFloat.of_Z false p)
  | VInt (Zneg p) => Some (PyFloat.of_Z true p)
  end.

Fixpoint floats_of (l : list value) : option (list value) :=
  match l with
  | [] => Some []
  | v :: r =>
      match to_float v, floats_of r with
      | Some f, Some fs => Some (VFloat f :: fs)
      | _, _ => None
      end
  end.

Fixpoint rows_astype_float (rs : list (list value)) : option (list (list value)) :=
  match rs with
  | [] => Some []
  | r :: rest =>
      match (match r with
             | [] => Some []
             | c :: cs => option_map (cons c) (floats_of cs)
             end), rows_astype_float rest with
      | Some r', Some rest' => Some (r' :: rest')
      | _, _ => None
      end
  end.

(** [df.iloc[:, 1:] = df.iloc[:, 1:].astype(float)]: a cell that is not a
    float literal is a [ValueError], and nothing is assigned. *)
Definition astype_float_from_1 (df : DataFrame) : outcome DataFrame :=
  match rows_astype_float (rows df) with
  | Some rs => Return (mkDF (index df) (index_name df) (columns df) rs)
  | None => Raise ValueError
  end.

End Pandas.

(** ** FinancialFileFetcher.py *)

Module FinancialFileFetcher.

Import Pandas.
Local Open Scope py_scope.

(** *** What the markup parser shows of a page *)

(** A [report] element of the filing summary: the text of its
    [shortname] and [htmlfilename] children, when it has them. *)
Record report : Type := mkReport {
  shortname : option string;
  htmlfilename : option string
}.

(** A [tr] element: the text of the [th] and of the [td] elements below
    it, in document order, and how many [strong] elements it holds. *)
Record tr : Type := mkTr {
  th : list string;
  td : list string;
  strong : nat
}.

(** A parsed page: the [report]s below its first [myreports] element and
    the [tr]s below its first [table] element, when it has one. *)
Record soup : Type := mkSoup {
  myreports : option (list report);
  table : option (list tr)
}.

(** *** [re.findall(r"\/[^\/]+", url)] *)

Definition slash : ascii := "/"%char.

(** A match is open from a slash on; it is kept once a character other
    than a slash has followed. *)
Definition close_match (cur : option string) : list string :=
  match cur with
  | Some m => if 1 <? String.length m then [m] else []
  | None => []
  end.

Fixpoint findall_from (cur : option string) (s : string) : list string :=
  match s with
  | EmptyString => close_match cur
  | String c r =>
      if Ascii.eqb c slash
      then close_match cur ++ findall_from (Some (String slash EmptyString)) r
      else match cur with
           | Some m => findall_from (Some (m ++ String c EmptyString)%string) r
           | None => findall_from None r
           end
  end.

Definition findall_segments (url : string) : list string :=
  findall_from None url.

(** [l[-1]] *)
Definition last_item {A} (l : list A) : outcome A :=
  match rev l with
  | x :: _ => Return x
  | [] => Raise IndexError
  end.

(** [l[:-1]] *)
Definition all_but_last {A} (l : list A) : list A := removelast l.

(** [re.findall(r"\/[^\/]+", url)[-1]] *)
Definition last_segment (url : string) : outcome string :=
  last_item (findall_segments url).

(** [url.replace(lst, '/' + filename)] *)
Definition sibling_url (url lst filename : string) : string :=
  PyStr.replace lst (String slash filename) url.

(** [tag.text] of a child the parser may not have found. *)
Definition text_of (child : option string) : outcome string :=
  match child with
  | Some t => Return t
  | None => Raise AttributeError
  end.

(** The dict of one report, as its values under the keys [name_short] and
    [url]. *)
Definition report_dict (url lst : string) (r : report) : outcome (list value) :=
  match text_of (shortname r) with
  | Raise e => Raise e
  | Return name =>
      match text_of (htmlfilename r) with
      | Raise e => Raise e
      | Return file =>
          Return [VStr name; VStr (sibling_url url lst file)]
      end
  end.

Fixpoint master_reports (url lst : string) (rs : list report) : outcome (list (list value)) :=
  match rs with
  | [] => Return []
  | r :: rest =>
      match report_dict url lst r with
      | Raise e => Raise e
      | Return d =>
          match master_reports url lst rest with
          | Raise e => Raise e
          | Return ds => Return (d :: ds)
          end
      end
  end.

(** The rows a table is split into. *)
Record statement_data : Type := mkSD {
  headers : list (list string);
  sections : list (nat * list string);
  data : list (nat * list string)
}.

(** [d[k] = v] on a dict kept in insertion order. *)
Definition dict_set {V} (k : nat) (v : V) (d : list (nat * V)) : list (nat * V) :=
  if existsb (fun kv => fst kv =? k) d
  then map (fun kv => if fst kv =? k then (k, v) else kv) d
  else d ++ [(k, v)].

Definition texts (cells : list string) : list string := map PyStr.strip cells.

(** The body of the loop over the rows: [None] is the [return None] of its
    last branch. *)
Definition classify (sd : statement_data) (index : nat) (row : tr)
  : Py (option statement_data) :=
  let cols := td row in
  if (List.length (th row) =? 0) && (strong row =? 0) then
    ret (Some (mkSD (headers sd) (sections sd)
                 (dict_set index (texts cols) (data sd))))
  else if (List.length (th row) =? 0) && negb (strong row =? 0) then
    ret (Some (mkSD (headers sd)
                 (dict_set index (texts cols) (sections sd)) (data sd)))
  else if negb (List.length (th row) =? 0) then
    ret (Some (mkSD (headers sd ++ [texts (th row)]) (sections sd) (data sd)))
  else
    print "ERROR!!!We encountered an error in parsing the table!" ;;;
    ret None.

(** [for index, row in enumerate(...)], from [index] on. *)
Fixpoint classify_rows (sd : statement_data) (index : nat) (rs : list tr)
  : Py (option statement_data) :=
  match rs with
  | [] => ret (Some sd)
  | row :: rest =>
      r <- classify sd index row ;;
      match r with
      | Some sd' => classify_rows sd' (S index) rest
      | None => ret None
      end
  end.

Definition frame_dict (d : list (nat * list string)) : list (value * list value) :=
  map (fun kv => (VInt (Z.of_nat (fst kv)), map VStr (snd kv))) d.

(** [pd.DataFrame(d).T] *)
Definition frame_of (d : list (nat * list string)) : outcome DataFrame :=
  match of_dict (frame_dict d) with
  | Return df => Return (T df)
  | Raise e => Raise e
  end.

Definition is_dollar_comma_close (c : ascii) : bool :=
  Ascii.eqb c "$" || Ascii.eqb c "," || Ascii.eqb c ")".

Definition is_open (c : ascii) : bool := Ascii.eqb c "(".

(** The three chained [replace] calls, on one cell. *)
Definition clean (v : value) : value :=
  replace_empty "NaN"
    (replace_class is_open "-"
       (replace_class is_dollar_comma_close "" v)).

(** What the two assignments of the conversion make of one cell text. *)
Definition normalize (cell : string) : option PyFloat.float :=
  to_float (clean (VStr cell)).

(** [str(table_url)], for [print]: the urls of a table index are strings,
    and the other values have no rendering here. *)
Definition str_of_url (u : option value) : string :=
  match u with
  | None => "None"
  | Some (VStr s) => s
  | Some _ => "<value>"
  end.

Section Transport.

(** [requests.get(url, headers = {'User-Agent': email, ...}).content]
    and its parsing, [None] when the request raises. *)
Variable requests_get : string -> string -> option soup.

Definition fetch (url email : string) : outcome soup :=
  match requests_get url email with
  | Some page => Return page
  | None => Raise RequestException
  end.

(** [requests.get] of what [get_table_url] returned: [None] is no url. *)
Definition fetch_value (url : option value) (email : string) : outcome soup :=
  match url with
  | Some (VStr u) => fetch u email
  | _ => Raise RequestException
  end.

Definition get_table_info (url email : string) : Py DataFrame :=
  lst <- lift (last_segment url) ;;
  let xml_summary := sibling_url url lst "FilingSummary.xml" in
  page <- lift (fetch xml_summary email) ;;
  reports <- lift (match myreports page with
                   | Some rs => Return rs
                   | None => Raise AttributeError
                   end) ;;
  records <- lift (master_reports url lst (all_but_last reports)) ;;
  let df_tables := of_records [VStr "name_short"; VStr "url"] records in
  names <- lift (getitem df_tables (VStr "name_short")) ;;
  let df_tables := set_index df_tables (VStr "name_short") names in
  let df_tables := set_index_name df_tables (VStr "Table_name") in
  lift (drop_column df_tables (VStr "name_short")).

Definition display_table_name (url email : string) : Py (list value) :=
  table_info <- get_table_info url email ;;
  ret (index table_info).

(** [table_info[table_info.index == table_name]['url'].values[0]] *)
Definition lookup (table_info : DataFrame) (table_name : string) : outcome value :=
  match getitem (select_index table_info (VStr table_name)) (VStr "url") with
  | Return urls => first_value urls
  | Raise e => Raise e
  end.

Definition get_table_url (fs_url email table_name : string) : Py (option value) :=
  table_info <- get_table_info fs_url email ;;
  try_except
    (ret_url <- lift (lookup table_info table_name) ;;
     ret (Some ret_url))
    (print "ERROR! Please double check the input table name!" ;;;
     ret None).

(** The last [try] of [display_table], on the merged frame. *)
Definition rename (sd : statement_data) (ret_df : DataFrame) : Py (option DataFrame) :=
  match getitem ret_df (VInt 0) with
  | Raise _ =>
      print "ERROR!!!We encountered an error in renaming indices and columns!" ;;;
      ret (Some ret_df)
  | Return labels =>
      let ret_df := set_index ret_df (VInt 0) labels in
      match drop_column ret_df (VInt 0) with
      | Raise _ =>
          print "ERROR!!!We encountered an error in renaming indices and columns!" ;;;
          ret (Some ret_df)
      | Return ret_df =>
          match headers sd with
          | [] =>
              print "ERROR!!!We encountered an error in renaming indices and columns!" ;;;
              ret (Some ret_df)
          | h0 :: _ =>
              let ret_df := set_index_name ret_df (VStr (PyStr.join " - " h0)) in
              let len_header := List.length (headers sd) in
              match (if len_header =? 2 then Some (nth 1 (headers sd) [])
                     else if len_header =? 1 then Some (tl h0)
                     else None) with
              | None =>
                  print "We encountered an error in framing the header" ;;;
                  ret None
              | Some header =>
                  match set_columns ret_df (map VStr header) with
                  | Raise _ =>
                      print "ERROR!!!We encountered an error in renaming indices and columns!" ;;;
                      ret (Some ret_df)
                  | Return ret_df =>
                      print "Renamed indices and columns..." ;;;
                      print "SUCCESS!" ;;;
                      ret (Some ret_df)
                  end
              end
          end
      end
  end.

(** The [try] that merges the two frames. *)
Definition merge (sd : statement_data) (df sections_df : DataFrame) : Py (option DataFrame) :=
  match sort_index (concat df sections_df) with
  | Raise _ =>
      print "ERROR!!!We encountered an error in merging 2 DataFrames!" ;;;
      ret (Some df)
  | Return ret_df =>
      print "Merged 2 DataFrames..." ;;;
      rename sd ret_df
  end.

(** The [try] that converts the cells of the data rows. *)
Definition convert (sd : statement_data) (df sections_df : DataFrame) : Py (option DataFrame) :=
  let df := map_iloc_from_1 clean df in
  match astype_float_from_1 df with
  | Raise _ =>
      print "ERROR!!!We encountered an error in converting string into digit!" ;;;
      ret (Some df)
  | Return df =>
      print "Converted string into digit..." ;;;
      merge sd df sections_df
  end.

(** The [try] that builds the two frames. *)
Definition store (sd : statement_data) : Py (option DataFrame) :=
  match frame_of (data sd), frame_of (sections sd) with
  | Return df, Return sections_df =>
      print "Stored the data and sections into 2 DataFrames..." ;;;
      convert sd df sections_df
  | _, _ =>
      print "ERROR!!!We encountered an error in storing the data and sections into 2 DataFrames!" ;;;
      ret None
  end.

(** [display_table] from the parsed page on. *)
Definition scrape (report_soup : soup) : Py (option DataFrame) :=
  rs <- lift (match table report_soup with
              | Some rs => Return rs
              | None => Raise AttributeError
              end) ;;
  r <- classify_rows (mkSD [] [] []) 0 rs ;;
  match r with
  | None => ret None
  | Some sd =>
      print "Parsed the table..." ;;;
      store sd
  end.

Definition display_table (fs_url table_name email : string) : Py (option DataFrame) :=
  table_url <- get_table_url fs_url email table_name ;;
  print (str_of_url table_url) ;;;
  match fetch_value table_url email with
  | Raise _ =>
      print "ERROR!!!We encountered an error when requesting the web content!" ;;;
      ret None
  | Return report_soup =>
      print "Requested the web content..." ;;;
      scrape report_soup
  end.

End Transport.

End FinancialFileFetcher.


(** ** FinancialFileFetcher.py: the lists of filings *)

(** [get_urls] and [get_latest_files].  The frames here hold the filings
    the API lists.  They are kept column by column; their index is the
    position of the row: the frames are concatenated with [ignore_index], a
    mask or a new column always comes from a column of the frame it is
    applied to, and both functions end on [reset_index(drop = True)]. *)

Module FilingList.

Local Open Scope py_scope.

(** What a cell holds: a string, a [datetime] at midnight, a boolean, or
    the filler of a column a record lacks. *)
Inductive cell : Type :=
| Str (s : string)
| Date (y m d : nat)
| Flag (b : bool)
| Missing.

Record frame : Type := mkFrame {
  nrows : nat;
  cols : list (string * list cell)
}.

(** [pd.DataFrame()] *)
Definition empty : frame := mkFrame 0 [].

(** Every column has one cell per row. *)
Definition wf (df : frame) : Prop :=
  Forall (fun c => List.length (snd c) = nrows df) (cols df).

Fixpoint lookup (name : string) (cs : list (string * list cell)) : option (list cell) :=
  match cs with
  | [] => None
  | (n, v) :: r => if String.eqb n name then Some v else lookup name r
  end.

(** [df[name]] *)
Definition getitem (df : frame) (name : string) : outcome (list cell) :=
  match lookup name (cols df) with
  | Some v => Return v
  | None => Raise KeyError
  end.

Fixpoint assign (name : string) (values : list cell) (cs : list (string * list cell))
  : list (string * list cell) :=
  match cs with
  | [] => [(name, values)]
  | (n, v) :: r =>
      if String.eqb n name then (n, values) :: r
      else (n, v) :: assign name values r
  end.

(** [df[name] = values]: the column is replaced where it stands, or added
    after the others. *)
Definition setitem (df : frame) (name : string) (values : list cell) : frame :=
  mkFrame (nrows df) (assign name values (cols df)).

Definition names (df : frame) : list string := map fst (cols df).

Definition has (l : list string) (n : string) : bool := existsb (String.eqb n) l.

(** The column [name] of [df], made of fillers when [df] has none. *)
Definition column_or_missing (df : frame) (name : string) : list cell :=
  match lookup name (cols df) with
  | Some v => v
  | None => repeat Missing (nrows df)
  end.

(** [pd.concat([a, b], ignore_index = True)]: the columns of [a], then
    those of [b] that [a] lacks; the rows of [a], then those of [b]. *)
Definition concat (a b : frame) : frame :=
  mkFrame (nrows a + nrows b)
    (map (fun n => (n, column_or_missing a n ++ column_or_missing b n))
       (names a ++ filter (fun n => negb (has (names a) n)) (names b))).

(** The items of [l] at which [mask] holds. *)
Fixpoint keep {A} (mask : list bool) (l : list A) : list A :=
  match mask, l with
  | b :: m, x :: r => if b then x :: keep m r else keep m r
  | _, _ => []
  end.

(** [df[mask]] *)
Definition select_rows (mask : list bool) (df : frame) : frame :=
  mkFrame (List.length (filter (fun b : bool => b) mask))
    (map (fun c => (fst c, keep mask (snd c))) (cols df)).

(** [df.iloc[:, :-1]] *)
Definition drop_last_column (df : frame) : frame :=
  mkFrame (nrows df) (removelast (cols df)).

Fixpoint pick (wanted : list string) (cs : list (string * list cell))
  : option (list (string * list cell)) :=
  match wanted with
  | [] => Some []
  | n :: r =>
      match lookup n cs, pick r cs with
      | Some v, Some cs' => Some ((n, v) :: cs')
      | _, _ => None
      end
  end.

(** [df[[n1, n2, ...]]] *)
Definition select_columns (df : frame) (wanted : list string) : outcome frame :=
  match pick wanted (cols df) with
  | Some cs => Return (mkFrame (nrows df) cs)
  | None => Raise KeyError
  end.

(** *** [datetime.strptime(s, '%Y-%m-%d')] *)

Definition digit (c : ascii) : option nat :=
  let n := nat_of_ascii c in
  if (48 <=? n) && (n <=? 57) then Some (n - 48) else None.

Definition in_range (lo hi : nat) (c : ascii) : option nat :=
  match digit c with
  | Some d => if (lo <=? d) && (d <=? hi) then Some d else None
  | None => None
  end.

(** [%Y]: four digits. *)
Definition scan_year (s : string) : option (nat * string) :=
  match s with
  | String a (String b (String c (String d r))) =>
      match digit a, digit b, digit c, digit d with
      | Some a, Some b, Some c, Some d =>
          Some (1000 * a + 100 * b + 10 * c + d, r)
      | _, _, _, _ => None
      end
  | _ => None
  end.

Definition scan_dash (s : string) : option string :=
  match s with
  | String "-"%char r => Some r
  | _ => None
  end.

(** [%m], before the dash that follows it: [1[0-2]], [0[1-9]] or [[1-9]];
    the dash decides between two characters and one. *)
Definition scan_month_dash (s : string) : option (nat * string) :=
  match s with
  | String a (String b (String "-"%char r)) =>
      match in_range 1 1 a, in_range 0 2 b with
      | Some _, Some b => Some (10 + b, r)
      | _, _ =>
          match in_range 0 0 a, in_range 1 9 b with
          | Some _, Some b => Some (b, r)
          | _, _ => None
          end
      end
  | String a (String "-"%char r) =>
      match in_range 1 9 a with
      | Some a => Some (a, r)
      | None => None
      end
  | _ => None
  end.

(** [%d], the last directive: the first of [3[0-1]], [[1-2]\d], [0[1-9]],
    [[1-9]] and [ [1-9]] that matches; what is left of the text. *)
Definition scan_day (s : string) : option (nat * string) :=
  let two :=
    match s with
    | String a (String b r) =>
        match in_range 3 3 a, in_range 0 1 b with
        | Some _, Some b => Some (30 + b, r)
        | _, _ =>
            match in_range 1 2 a, digit b with
            | Some a, Some b => Some (10 * a + b, r)
            | _, _ =>
                match in_range 0 0 a, in_range 1 9 b with
                | Some _, Some b => Some (b, r)
                | _, _ => None
                end
            end
        end
    | _ => None
    end in
  match two with
  | Some res => Some res
  | None =>
      match s with
      | String a r =>
          match in_range 1 9 a with
          | Some a => Some (a, r)
          | None =>
              match r with
              | String b r' =>
                  if Ascii.eqb a " "
                  then match in_range 1 9 b with
                       | Some b => Some (b, r')
                       | None => None
                       end
                  else None
              | EmptyString => None
              end
          end
      | EmptyString => None
      end
  end.

Definition is_leap (y : nat) : bool :=
  (y mod 4 =? 0) && (negb (y mod 100 =? 0) || (y mod 400 =? 0)).

Definition days_in_month (y m : nat) : nat :=
  match m with
  | 2 => if is_leap y then 29 else 28
  | 4 | 6 | 9 | 11 => 30
  | _ => 31
  end.

(** The date read, or [None] for the [ValueError]: of a text that does not
    match, of a text that goes on after the day, of a year 0 and of a day
    the month has not. *)
Definition strptime (s : string) : option (nat * nat * nat) :=
  match scan_year s with
  | Some (y, r1) =>
      match scan_dash r1 with
      | Some r2 =>
          match scan_month_dash r2 with
          | Some (m, r3) =>
              match scan_day r3 with
              | Some (d, EmptyString) =>
                  if (1 <=? y) && (d <=? days_in_month y m)
                  then Some (y, m, d) else None
              | _ => None
              end
          | None => None
          end
      | None => None
      end
  | None => None
  end.

(** [s[:n]] *)
Fixpoint take (n : nat) (s : string) : string :=
  match n, s with
  | S k, String c r => String c (take k r)
  | _, _ => EmptyString
  end.

(** [lambda x: dt.datetime.strptime(x[:10], '%Y-%m-%d')] on one cell: a
    cell that is no string cannot be sliced. *)
Definition parse_date (x : cell) : outcome cell :=
  match x with
  | Str s =>
      match strptime (take 10 s) with
      | Some (y, m, d) => Return (Date y m d)
      | None => Raise ValueError
      end
  | _ => Raise TypeError
  end.

(** [series.map(f)] for an [f] that may raise. *)
Fixpoint map_cells (f : cell -> outcome cell) (l : list cell) : outcome (list cell) :=
  match l with
  | [] => Return []
  | x :: r =>
      match f x with
      | Raise e => Raise e
      | Return y =>
          match map_cells f r with
          | Raise e => Raise e
          | Return ys => Return (y :: ys)
          end
      end
  end.

(** The order of dates. *)
Definition date_leb (a b : nat * nat * nat) : bool :=
  let '(y, m, d) := a in
  let '(y', m', d') := b in
  (y <? y') || ((y =? y') && ((m <? m') || ((m =? m') && (d <=? d')))).

(** [series >= bound]: [None] for the [TypeError] of a cell that is no
    date. *)
Fixpoint not_before (bound : nat * nat * nat) (l : list cell) : option (list bool) :=
  match l with
  | [] => Some []
  | Date y m d :: r =>
      match not_before bound r with
      | Some mask => Some (date_leb bound (y, m, d) :: mask)
      | None => None
      end
  | _ :: _ => None
  end.

(** [try: b = strptime(bound, '%Y-%m-%d'); df = df[df['Date'] >= b]
     except: pass], the code of the start date and of the end date alike.
    [comparable b] tells whether pandas compares a column of dates to [b]:
    it does for the dates its timestamps hold, and raises on the others
    where its timestamps count nanoseconds. *)
Definition filter_from (comparable : nat * nat * nat -> bool)
  (bound : option string) (df : frame) : frame :=
  match bound with
  | None => df
  | Some s =>
      match strptime s with
      | None => df
      | Some b =>
          match getitem df "Date" with
          | Raise _ => df
          | Return dates =>
              if comparable b then
                match not_before b dates with
                | Some mask => select_rows mask df
                | None => df
                end
              else df
          end
      end
  end.

(** [x in l_file_form] on one cell. *)
Definition listed (forms : list string) (x : cell) : bool :=
  match x with
  | Str s => has forms s
  | _ => false
  end.

(** [series.map(lambda x: x in l_file_form)]: without a list the test
    raises, on the first cell. *)
Definition tags (l_file_form : option (list string)) (l : list cell) : option (list cell) :=
  match l_file_form, l with
  | Some forms, _ => Some (map (fun x => Flag (listed forms x)) l)
  | None, [] => Some []
  | None, _ :: _ => None
  end.

(** [series == True] *)
Definition is_true (x : cell) : bool :=
  match x with
  | Flag b => b
  | _ => false
  end.

(** [try: df['Type_tag'] = df['formType'].map(...);
          df = df[df['Type_tag'] == True].iloc[:, :-1]
     except: pass] *)
Definition filter_forms (l_file_form : option (list string)) (df : frame) : frame :=
  match getitem df "formType" with
  | Raise _ => df
  | Return forms =>
      match tags l_file_form forms with
      | None => df
      | Some flags =>
          let df := setitem df "Type_tag" flags in
          match getitem df "Type_tag" with
          | Raise _ => df
          | Return flags => drop_last_column (select_rows (map is_true flags) df)
          end
      end
  end.

Definition wanted_columns : list string :=
  ["identifier"; "Date"; "formType"; "name"; "url"; "accessionNumber"].

(** The answer of the API to one request: its status code, and
    [pd.DataFrame(r.json()['data']['attributes']['result'], dtype = str)]
    or what raises on the way to it. *)
Record response : Type := mkResponse {
  status_code : nat;
  result : outcome frame
}.

Definition filings_url (identifier : string) : string :=
  ("https://services.last10k.com/v1/company/" ++ identifier ++ "/filings")%string.

(** [df.head(n)]: the first [n] rows, and all but the last [-n] for a
    negative [n]. *)
Definition head_rows (n : Z) (df : frame) : frame :=
  let k := match n with
           | Zneg p => nrows df - Pos.to_nat p
           | _ => Nat.min (Z.to_nat n) (nrows df)
           end in
  mkFrame k (map (fun c => (fst c, firstn k (snd c))) (cols df)).

(** The rows of [df] in the order [order] lists their positions. *)
Definition reorder (order : list nat) (df : frame) : frame :=
  mkFrame (nrows df)
    (map (fun c => (fst c, map (fun i => nth i (snd c) Missing) order)) (cols df)).

(** [if l_file_form:] *)
Definition given (l_file_form : option (list string)) : bool :=
  match l_file_form with
  | Some (_ :: _) => true
  | _ => false
  end.

Section Transport.

(** [requests.get(url, headers = {'Ocp-Apim-Subscription-Key': api_key})] *)
Variable requests_get : string -> string -> outcome response.

(** The dates pandas compares a column of dates to. *)
Variable comparable : nat * nat * nat -> bool.

(** [argsort] of a column of dates, latest first: how pandas orders equal
    dates is not fixed. *)
Variable latest_first : list cell -> list nat.

(** The body of the loop over the identifiers. *)
Definition fetch_filings (api_key identifier : string) (ret_df : frame) : Py frame :=
  r <- lift (requests_get (filings_url identifier) api_key) ;;
  if status_code r =? 200 then
    print (identifier ++ " get")%string ;;;
    fs_json_df <- lift (result r) ;;
    let fs_json_df :=
      setitem fs_json_df "identifier"
        (repeat (Str identifier) (nrows fs_json_df)) in
    ret (concat ret_df fs_json_df)
  else
    print (identifier ++ " getting url FAILED!")%string ;;;
    ret ret_df.

Fixpoint fetch_all (api_key : string) (l_identifier : list string) (ret_df : frame)
  : Py frame :=
  match l_identifier with
  | [] => ret ret_df
  | identifier :: rest =>
      ret_df <- fetch_filings api_key identifier ret_df ;;
      fetch_all api_key rest ret_df
  end.

Definition get_urls (l_identifier : list string) (api_key : string)
  (start_date end_date : option string) (l_file_form : option (list string))
  : Py frame :=
  ret_df <- fetch_all api_key l_identifier empty ;;
  filing_dates <- lift (getitem ret_df "filingDate") ;;
  dates <- lift (map_cells parse_date filing_dates) ;;
  let ret_df := setitem ret_df "Date" dates in
  let ret_df := filter_from comparable start_date ret_df in
  let ret_df := filter_from comparable end_date ret_df in
  let ret_df := filter_forms l_file_form ret_df in
  lift (select_columns ret_df wanted_columns).

(** [df.sort_values('Date', ascending = False)] *)
Definition sort_by_date (df : frame) : outcome frame :=
  match getitem df "Date" with
  | Return dates => Return (reorder (latest_first dates) df)
  | Raise e => Raise e
  end.

Definition get_latest_files (l_identifier : list string) (api_key : string)
  (number : option Z) (l_file_form : option (list string)) : Py frame :=
  init_df <- (if given l_file_form
              then get_urls l_identifier api_key None None l_file_form
              else get_urls l_identifier api_key None None None) ;;
  match number with
  | Some n =>
      if Z.eqb n 0 then ret init_df
      else sorted <- lift (sort_by_date init_df) ;;
           ret (head_rows n sorted)
  | None => ret init_df
  end.

End Transport.

End FilingList.


(** ** Reading a table document: the vocabulary of the statements *)

Module Reading.

Import Pandas FinancialFileFetcher.

Definition is_header (r : tr) : bool := negb (List.length (th r) =? 0).

Definition is_section (r : tr) : bool :=
  (List.length (th r) =? 0) && negb (strong r =? 0).

Definition is_data (r : tr) : bool :=
  (List.length (th r) =? 0) && (strong r =? 0).

(** The rows with their position in the document, counted from [i]. *)
Definition enumerate (i : nat) (rs : list tr) : list (nat * tr) :=
  combine (seq i (List.length rs)) rs.

(** The rows that are not header rows, in document order. *)
Definition body_rows (rs : list tr) : list tr :=
  filter (fun r => negb (is_header r)) rs.

(** The label of a row: the stripped text of its first cell; a row
    without a cell gets the filler. *)
Definition row_label (r : tr) : value :=
  match texts (td r) with
  | [] => NaN
  | c :: _ => VStr c
  end.

(** [w] cells from [l], the missing ones filled. *)
Definition pad (w : nat) (l : list value) : list value :=
  map (fun j => nth j l NaN) (seq 0 w).

(** The (name, url) pairs of a table index, in row order. *)
Definition entries (info : DataFrame) : list (value * value) :=
  combine (index info) (map (fun r => nth 0 r NaN) (rows info)).

(** The cell of a frame at a row label and a column label: the first row
    and the first column that carry them. *)
Definition cell (df : DataFrame) (row col : value) : option value :=
  match position row (index df), position col (columns df) with
  | Some i, Some j => Some (nth j (nth i (rows df) []) NaN)
  | _, _ => None
  end.

Definition keys_below {V} (i : nat) (d : list (nat * V)) : Prop :=
  Forall (fun kv => fst kv < i) d.

Definition keyed_texts (l : list (nat * tr)) : list (nat * list string) :=
  map (fun ir => (fst ir, texts (td (snd ir)))) l.

(** What the loop leaves in the three buckets. *)
Definition classified (sd : statement_data) (i : nat) (rs : list tr) : statement_data :=
  mkSD (headers sd ++ map (fun r => texts (th r)) (filter is_header rs))
       (sections sd ++
          keyed_texts (filter (fun ir => is_section (snd ir)) (enumerate i rs)))
       (data sd ++
          keyed_texts (filter (fun ir => is_data (snd ir)) (enumerate i rs))).

(** The rows, the index and the width of the frame a dict makes. *)
Definition dict_rows (d : list (nat * list string)) : list (list value) :=
  map (fun kv => map VStr (snd kv)) d.

Definition dict_index (d : list (nat * list string)) : list value :=
  map (fun kv => VInt (Z.of_nat (fst kv))) d.

(** The common length of the lists of a dict, when they have one. *)
Definition dict_width (d : list (nat * list string)) : nat :=
  match d with
  | [] => 0
  | (_, v) :: _ => List.length v
  end.

Definition rectangular (d : list (nat * list string)) : bool :=
  forallb (fun kv => List.length (snd kv) =? dict_width d) d.

(** The float a data cell becomes; the filler stands for a cell that is
    no float literal, where the conversion as a whole fails. *)
Definition float_or_nan (s : string) : PyFloat.float :=
  match normalize s with
  | Some f => f
  | None => PyFloat.nan
  end.

(** A data row once converted: its label, then floats. *)
Definition converted (cells : list string) : list value :=
  match cells with
  | [] => []
  | c :: cs => VStr c :: map (fun s => VFloat (float_or_nan s)) cs
  end.

(** The cells of a body row when the two frames are merged. *)
Definition body_cells (r : tr) : list value :=
  if is_data r then converted (texts (td r)) else map VStr (texts (td r)).

Definition start : statement_data := mkSD [] [] [].

(** The body rows with their position in the document. *)
Definition positioned_body (rs : list tr) : list (nat * tr) :=
  filter (fun ir => negb (is_header (snd ir))) (enumerate 0 rs).

Definition data_rows (rs : list tr) : list (nat * tr) :=
  filter (fun ir => is_data (snd ir)) (enumerate 0 rs).

Definition section_rows (rs : list tr) : list (nat * tr) :=
  filter (fun ir => is_section (snd ir)) (enumerate 0 rs).

(** A body row with its position, as [sort_index] sees it. *)
Definition keyed_row (w : nat) (ir : nat * tr) : Z * list value :=
  (Z.of_nat (fst ir), pad w (body_cells (snd ir))).

(** The width of the merged frame: the wider of the two buckets. *)
Definition merged_width (rs : list tr) : nat :=
  Nat.max (dict_width (data (classified start 0 rs)))
          (dict_width (sections (classified start 0 rs))).

(** The merged frame: the body rows in document order, labelled by their
    position, each on [merged_width] columns. *)
Definition merged_of (rs : list tr) : DataFrame :=
  mkDF (map (fun ir => VInt (Z.of_nat (fst ir))) (positioned_body rs))
       None
       (range (merged_width rs))
       (map (fun ir => pad (merged_width rs) (body_cells (snd ir)))
          (positioned_body rs)).

(** The frame [display_table] returns on success, read off the document:
    the body rows in document order, each labelled by its first cell,
    under the index name [name] and the column labels [header]. *)
Definition final_of (rs : list tr) (name : string) (header : list string) : DataFrame :=
  mkDF (map row_label (body_rows rs))
       (Some (VStr name))
       (map VStr header)
       (map (fun r => tl (pad (merged_width rs) (body_cells r))) (body_rows rs)).

(** The merged frame once its first column has become the index. *)
Definition labelled_of (rs : list tr) : DataFrame :=
  mkDF (map row_label (body_rows rs))
       (Some (VInt 0))
       (tl (range (merged_width rs)))
       (map (fun r => tl (pad (merged_width rs) (body_cells r))) (body_rows rs)).

(** The column labels the header rows give: the second of two rows, one
    row less its first cell; no other count gives any. *)
Definition header_of (hs : list (list string)) : option (list string) :=
  match hs with
  | [h0] => Some (tl h0)
  | [_; h1] => Some h1
  | _ => None
  end.

(** The name and the filename of a report that has both. *)
Definition named (r : report) : option (string * string) :=
  match shortname r, htmlfilename r with
  | Some n, Some f => Some (n, f)
  | _, _ => None
  end.

Fixpoint all_named (rs : list report) : option (list (string * string)) :=
  match rs with
  | [] => Some []
  | r :: rest =>
      match named r, all_named rest with
      | Some p, Some ps => Some (p :: ps)
      | _, _ => None
      end
  end.

(** The table index of a list of (name, url) pairs. *)
Definition table_index (pairs : list (string * string)) : DataFrame :=
  mkDF (map (fun p => VStr (fst p)) pairs)
       (Some (VStr "Table_name"))
       [VStr "url"]
       (map (fun p => [VStr (snd p)]) pairs).

(** The (name, url) pairs of the reports [l], on the statement url. *)
Definition resolved (url lst : string) (l : list (string * string)) : list (string * string) :=
  map (fun p => (fst p, sibling_url url lst (snd p))) l.

(** No character of [s] is a slash. *)
Fixpoint slash_free (s : string) : bool :=
  match s with
  | EmptyString => true
  | String c r => negb (Ascii.eqb c slash) && slash_free r
  end.

(** The text [old] occurs in [pre ++ old] at its end only. *)
Definition occurs_last_only (old pre : string) : Prop :=
  forall i, i < String.length pre ->
            prefix old (PyStr.drop i (pre ++ old)%string) = false.

(** The frame [df] is [merged] with its first column made the index. *)
Definition first_column_as_index (merged df : DataFrame) : Prop :=
  index df = map (fun r => nth 0 r NaN) (rows merged) /\
  columns df = tl (columns merged) /\
  rows df = map (@tl value) (rows merged).

(** A call that returned the frame [df] and whose last line is the
    success line. *)
Definition succeeded (r : Py (option DataFrame)) (df : DataFrame) : Prop :=
  snd r = Return (Some df) /\ last (fst r) "" = "SUCCESS!".

(** The frame of the data rows, as built and as cleaned. *)
Definition data_frame (rs : list tr) : DataFrame :=
  mkDF (dict_index (data (classified start 0 rs))) None
       (range (dict_width (data (classified start 0 rs))))
       (dict_rows (data (classified start 0 rs))).

Definition cleaned_frame (rs : list tr) : DataFrame :=
  map_iloc_from_1 clean (data_frame rs).

(** The stages of [display_table] before the renaming all succeed on the
    page, leaving the split rows [sd] and the merged frame [merged]. *)
Definition reaches_rename (page : soup) (sd : statement_data) (merged : DataFrame) : Prop :=
  exists rs df sections_df df',
    table page = Some rs /\
    classify_rows start 0 rs = ([], Return (Some sd)) /\
    frame_of (data sd) = Return df /\
    frame_of (sections sd) = Return sections_df /\
    astype_float_from_1 (map_iloc_from_1 clean df) = Return df' /\
    sort_index (concat df' sections_df) = Return merged.

(** What [display_table] has printed when the renaming starts. *)
Definition printed_before_rename : list string :=
  ["Parsed the table...";
   "Stored the data and sections into 2 DataFrames...";
   "Converted string into digit...";
   "Merged 2 DataFrames..."].

End Reading.

(** ** Documents and transports to run the module on *)

Module Examples.

Import Pandas FinancialFileFetcher.

(** A transport that serves the listed pages and raises on any other
    url. *)
Fixpoint serve (pages : list (string * soup)) (url email : string) : option soup :=
  match pages with
  | [] => None
  | (u, page) :: rest =>
      if String.eqb u url then Some page else serve rest url email
  end.

Definition statement_url : string :=
  "https://www.sec.gov/Archives/edgar/data/320193/000032019321000105/R2.htm".

Definition summary_url : string :=
  "https://www.sec.gov/Archives/edgar/data/320193/000032019321000105/FilingSummary.xml".

Definition operations_url : string :=
  "https://www.sec.gov/Archives/edgar/data/320193/000032019321000105/R4.htm".

Definition email : string := "analyst@example.com".

Definition operations : string := "CONSOLIDATED STATEMENTS OF OPERATIONS".

Definition index_page (reports : list report) : soup :=
  mkSoup (Some reports) None.

Definition table_page (rs : list tr) : soup := mkSoup None (Some rs).

Definition header_row (cells : list string) : tr := mkTr cells [] 0.
Definition data_row (cells : list string) : tr := mkTr [] cells 0.
Definition section_row (cells : list string) : tr := mkTr [] cells 1.

(** A filing summary of two entries, the last one being the entry the
    resolver drops. *)
Definition two_reports : list report :=
  [mkReport (Some operations) (Some "R4.htm");
   mkReport (Some "All Reports") (Some "Rall.htm")].

(** A filing with its summary and one table document. *)
Definition filing (rs : list tr) : string -> string -> option soup :=
  serve [(summary_url, index_page two_reports);
         (operations_url, table_page rs)].

(** The end-to-end scenario: a grouping header row, a second header row,
    one data row and one section row of a single cell. *)
Definition scenario_rows : list tr :=
  [header_row [""; "FY2021"];
   header_row ["Label"; "FY2021"];
   data_row ["Net sales"; "$100"];
   section_row ["Operating expenses:"]].

(** The same document with a second header row that names the one value
    column only. *)
Definition scenario_rows_fitting : list tr :=
  [header_row [""; "FY2021"];
   header_row ["FY2021"];
   data_row ["Net sales"; "$100"];
   section_row ["Operating expenses:"]].

(** A header row whose title cell is emphasised, above one data row. *)
Definition titled_header : tr :=
  mkTr ["CONSOLIDATED STATEMENTS OF OPERATIONS - USD ($)"; "Sep. 25, 2021"] [] 1.

Definition titled_rows : list tr :=
  [titled_header; data_row ["Net sales"; "$365,817"]].

(** Two header rows, the second of three cells, above a data row of two
    value cells. *)
Definition wide_header_rows : list tr :=
  [header_row ["Statement"; "12 Months Ended"];
   header_row ["2021"; "2020"; "2019"];
   data_row ["Net sales"; "$100"; "$100"]].

(** Two header rows, the second of one cell per value column, above a
    section row and two data rows. *)
Definition statement_rows : list tr :=
  [titled_header;
   header_row ["Sep. 25, 2021"; "Sep. 26, 2020"];
   data_row ["Net sales"; "$365,817"; "$274,515"];
   section_row ["Operating expenses:"; ""; ""];
   data_row ["Other income/(expense), net"; "$(258)"; ""]].

(** What [display_table] returns on [statement_rows]. *)
Definition statement_frame : DataFrame :=
  Reading.final_of statement_rows
    (PyStr.join " - " (th titled_header))
    ["Sep. 25, 2021"; "Sep. 26, 2020"].

(** One header row above two data rows, the second with a cell that is no
    number. *)
Definition unparsable_rows : list tr :=
  [header_row ["Statement"; "Sep. 25, 2021"];
   data_row ["Net sales"; "$365,817"];
   data_row ["Shares outstanding"; "n/a"]].

(** A filing summary with one entry only. *)
Definition one_report : list report :=
  [mkReport (Some "All Reports") (Some "Rall.htm")].

Definition lonely_filing : string -> string -> option soup :=
  serve [(summary_url, index_page one_report)].

(** A statement url in which the text of the last segment occurs twice. *)
Definition repeated_url : string :=
  "https://www.sec.gov/Archives/edgar/data/320193/R2/R2".

Definition repeated_summary_url : string :=
  "https://www.sec.gov/Archives/edgar/data/320193/FilingSummary.xml/FilingSummary.xml".

Definition repeated_filing : string -> string -> option soup :=
  serve [(repeated_summary_url, index_page two_reports)].

(** A filing summary in which two entries share a name. *)
Definition twin_reports : list report :=
  [mkReport (Some "Cover Page") (Some "R1.htm");
   mkReport (Some operations) (Some "R4.htm");
   mkReport (Some operations) (Some "R5.htm");
   mkReport (Some "All Reports") (Some "Rall.htm")].

Definition twin_filing : string -> string -> option soup :=
  serve [(summary_url, index_page twin_reports)].

(** The float 100.0 *)
Definition hundred : PyFloat.float := S754_finite false 7036874417766400 (-46).

End Examples.


(** ** More vocabulary: texts, rows and frames *)

Module Texts.

Import Pandas FinancialFileFetcher.

(** The text of a cell after the two replacements by pattern. *)
Definition cleaned_text (s : string) : string :=
  PyStr.re_sub_class is_open "-" (PyStr.re_sub_class is_dollar_comma_close "" s).

(** Every character of [s] is a dollar sign, a comma or a closing
    parenthesis. *)
Fixpoint only_marks (s : string) : bool :=
  match s with
  | EmptyString => true
  | String c r => is_dollar_comma_close c && only_marks r
  end.

(** The value [v2] is [v1], or the text [v1] with one more dollar sign,
    comma or closing parenthesis, or with an opening parenthesis for one
    of its minus signs. *)
Definition one_more_mark (v1 v2 : value) : Prop :=
  v2 = v1 \/
  exists a b : string,
    (v1 = VStr (a ++ b) /\
     (v2 = VStr (a ++ String "$" b) \/ v2 = VStr (a ++ String "," b) \/
      v2 = VStr (a ++ String ")" b))) \/
    (v1 = VStr (a ++ String "-" b) /\ v2 = VStr (a ++ String "(" b)).

(** The frames [df] and [df'] have the same labels and the same first
    cell in each row, and [R] relates their other cells one by one. *)
Definition cellwise (R : value -> value -> Prop) (df df' : DataFrame) : Prop :=
  index df' = index df /\
  index_name df' = index_name df /\
  columns df' = columns df /\
  Forall2 (fun r r' => hd_error r' = hd_error r /\ Forall2 R (tl r) (tl r'))
    (rows df) (rows df').

(** The conversion of [display_table] goes through on [df]: it prints so,
    and goes on to the merge with [df']. *)
Definition converts_to (sd : statement_data) (df sections_df df' : DataFrame) : Prop :=
  convert sd df sections_df
  = bind (print "Converted string into digit...")
      (fun _ => merge sd df' sections_df).

(** The conversion fails on [df]: [display_table] prints so and returns
    [df']. *)
Definition conversion_fails (sd : statement_data) (df sections_df df' : DataFrame) : Prop :=
  convert sd df sections_df
  = (["ERROR!!!We encountered an error in converting string into digit!"],
     Return (Some df')).

(** [old] occurs in [pre ++ old] at its end only, as a test. *)
Definition occurs_last_only_b (old pre : string) : bool :=
  forallb (fun i => negb (prefix old (PyStr.drop i (pre ++ old)%string)))
    (seq 0 (String.length pre)).

End Texts.

(** ** More documents *)

Module MoreExamples.

Import Pandas FinancialFileFetcher Examples.

(** A data row of the canonical accounting forms, under its header. *)
Definition accounting_rows : list tr :=
  [header_row ["Amounts"; "plain"; "negative"; "both"; "none"];
   data_row ["Net"; "$1,234.50"; "(56.0)"; "$(1,234)"; ""]].

(** Two data rows that differ in their number of cells. *)
Definition uneven_rows : list tr :=
  [header_row ["Statement"; "Sep. 25, 2021"];
   data_row ["Net sales"; "$100"];
   data_row ["Cost of sales"]].

(** A filing whose table page holds no table. *)
Definition tableless_filing : string -> string -> option soup :=
  serve [(summary_url, index_page two_reports);
         (operations_url, index_page [])].

(** The statement url less its last segment. *)
Definition statement_folder : string :=
  "https://www.sec.gov/Archives/edgar/data/320193/000032019321000105".

(** A filing summary whose last entry has neither name nor filename. *)
Definition ragged_reports : list report :=
  [mkReport (Some "Cover Page") (Some "R1.htm");
   mkReport (Some operations) (Some "R4.htm");
   mkReport None None].

(** A filing summary whose second entry has no filename. *)
Definition nameless_reports : list report :=
  [mkReport (Some "Cover Page") (Some "R1.htm");
   mkReport (Some operations) None;
   mkReport (Some "All Reports") (Some "Rall.htm")].

End MoreExamples.


(** ** Reading a frame of filings *)

Module Filings.

Import FilingList.

Definition is_date (c : cell) : Prop :=
  match c with
  | Date _ _ _ => True
  | _ => False
  end.

(** The cell is a date, and not before [b]. *)
Definition on_or_after (b : nat * nat * nat) (c : cell) : Prop :=
  match c with
  | Date y m d => date_leb b (y, m, d) = true
  | _ => False
  end.

(** The cell is one of the forms asked for. *)
Definition one_of (forms : list string) (c : cell) : Prop :=
  exists s, c = Str s /\ In s forms.

(** The column of dates of a frame, when it has one, satisfies [P]. *)
Definition dates_satisfy (P : cell -> Prop) (df : frame) : Prop :=
  forall dates, lookup "Date" (cols df) = Some dates -> Forall P dates.

(** A transport whose frames are rectangular. *)
Definition well_formed (requests_get : string -> string -> outcome response) : Prop :=
  forall url key r df,
    requests_get url key = Return r -> result r = Return df -> wf df.

(** The request for [identifier] is answered, by another status than 200. *)
Definition refused (requests_get : string -> string -> outcome response)
  (api_key identifier : string) : Prop :=
  exists r, requests_get (filings_url identifier) api_key = Return r /\
            status_code r <> 200.

(** The request for [identifier] raises, or is answered by the status 200
    and a body that cannot be read. *)
Definition unreadable (requests_get : string -> string -> outcome response)
  (api_key identifier : string) : Prop :=
  (exists e, requests_get (filings_url identifier) api_key = Raise e) \/
  (exists r e, requests_get (filings_url identifier) api_key = Return r /\
               status_code r = 200 /\ result r = Raise e).

(** The dates of the cells, latest first. *)
Definition date_of (c : cell) : nat * nat * nat :=
  match c with
  | Date y m d => (y, m, d)
  | _ => (0, 0, 0)
  end.

(** An order of the positions of [dates] that puts no date before a later
    one. *)
Definition sorts_latest_first (order : list cell -> list nat) : Prop :=
  forall dates,
    Permutation (order dates) (seq 0 (List.length dates)) /\
    StronglySorted (fun a b => date_leb (date_of b) (date_of a) = true)
      (map (fun i => nth i dates Missing) (order dates)).

(** *** An API to run the functions on *)

Definition filings_frame (rows : list (string * string * string * string * string)) : frame :=
  mkFrame (List.length rows)
    [("filingDate", map (fun r => Str (fst (fst (fst (fst r))))) rows);
     ("formType", map (fun r => Str (snd (fst (fst (fst r))))) rows);
     ("name", map (fun r => Str (snd (fst (fst r)))) rows);
     ("url", map (fun r => Str (snd (fst r))) rows);
     ("accessionNumber", map (fun r => Str (snd r)) rows)].

Definition aapl : frame :=
  filings_frame
    [("2021-10-29T00:00:00", "10-K", "Annual Report",
      "https://www.sec.gov/Archives/edgar/data/320193/a.htm", "0000320193-21-000105");
     ("2021-07-28T00:00:00", "10-Q", "Quarterly Report",
      "https://www.sec.gov/Archives/edgar/data/320193/b.htm", "0000320193-21-000065");
     ("2021-01-28T00:00:00", "8-K", "Material Event Report",
      "https://www.sec.gov/Archives/edgar/data/320193/c.htm", "0000320193-21-000009")].

Definition msft : frame :=
  filings_frame
    [("2021-10-26T00:00:00", "10-Q", "Quarterly Report",
      "https://www.sec.gov/Archives/edgar/data/789019/d.htm", "0001564590-21-051992");
     ("2021-07-29T00:00:00", "10-K", "Annual Report",
      "https://www.sec.gov/Archives/edgar/data/789019/e.htm", "0001564590-21-039151")].

(** The API knows AAPL and MSFT, answers 404 for TSLA, 200 with a body
    that cannot be read for IBM, and raises on anything else. *)
Definition api (url key : string) : outcome response :=
  if String.eqb url (filings_url "AAPL") then Return (mkResponse 200 (Return aapl))
  else if String.eqb url (filings_url "MSFT") then Return (mkResponse 200 (Return msft))
  else if String.eqb url (filings_url "TSLA") then Return (mkResponse 404 (Raise ValueError))
  else if String.eqb url (filings_url "IBM") then Return (mkResponse 200 (Raise ValueError))
  else Raise RequestException.

(** Insertion of a position before the positions that follow it in the
    frame, ordered latest first: it goes behind the later dates, and stays
    before the equal ones. *)
Fixpoint insert_latest (dates : list cell) (i : nat) (l : list nat) : list nat :=
  match l with
  | [] => [i]
  | j :: r =>
      if date_leb (date_of (nth j dates Missing)) (date_of (nth i dates Missing))
      then i :: l
      else j :: insert_latest dates i r
  end.

(** A stable [argsort], latest first: equal dates keep the order of the
    frame. *)
Definition stable_latest_first (dates : list cell) : list nat :=
  fold_right (insert_latest dates) [] (seq 0 (List.length dates)).

(** The dates of the timestamps that count nanoseconds. *)
Definition nanoseconds (b : nat * nat * nat) : bool :=
  date_leb (1677, 9, 22) b && date_leb b (2262, 4, 11).

(** What the functions return for rows of identifier, date, form, name,
    url and accession number. *)
Definition listing
  (rows : list (string * (nat * nat * nat) * string * string * string * string))
  : frame :=
  mkFrame (List.length rows)
    [("identifier", map (fun r => Str (fst (fst (fst (fst (fst r)))))) rows);
     ("Date", map (fun r => let '(y, m, d) := snd (fst (fst (fst (fst r)))) in
                            Date y m d) rows);
     ("formType", map (fun r => Str (snd (fst (fst (fst r))))) rows);
     ("name", map (fun r => Str (snd (fst (fst r)))) rows);
     ("url", map (fun r => Str (snd (fst r))) rows);
     ("accessionNumber", map (fun r => Str (snd r)) rows)].

(** The filings of October 2021. *)
Definition autumn_filings : frame :=
  listing
    [("AAPL", (2021, 10, 29), "10-K", "Annual Report",
      "https://www.sec.gov/Archives/edgar/data/320193/a.htm", "0000320193-21-000105");
     ("MSFT", (2021, 10, 26), "10-Q", "Quarterly Report",
      "https://www.sec.gov/Archives/edgar/data/789019/d.htm", "0001564590-21-051992")].

(** The annual reports. *)
Definition annual_reports : frame :=
  listing
    [("AAPL", (2021, 10, 29), "10-K", "Annual Report",
      "https://www.sec.gov/Archives/edgar/data/320193/a.htm", "0000320193-21-000105");
     ("MSFT", (2021, 7, 29), "10-K", "Annual Report",
      "https://www.sec.gov/Archives/edgar/data/789019/e.htm", "0001564590-21-039151")].

End Filings.


(** * Properties *)

Import Pandas FinancialFileFetcher Reading.

(** ** Lists *)

Section ListFacts.

Context {A : Type}.

Lemma map_nth_seq (l : list A) (d : A) :
  map (fun i => nth i l d) (seq 0 (List.length l)) = l.
Proof.
  induction l as [|x l IH]; simpl; [reflexivity|].
  f_equal. rewrite <- seq_shift, map_map. exact IH.
Qed.

Lemma nth_map_default {B} (f : A -> B) (l : list A) (j : nat) (d : A) (e : B) :
  j < List.length l -> nth j (map f l) e = f (nth j l d).
Proof.
  revert j; induction l as [|x l IH]; intros [|j] H; simpl in *; try lia; auto.
  apply IH; lia.
Qed.

End ListFacts.


(** ** The primitives on known values *)

Section KnownValues.

Local Open Scope string_scope.

(** The nearest binary64 is found on values whose decimal form is not
    exact, on the two sides of a tie, on the smallest subnormal and past
    the largest finite float. *)
Example float_tenth :
  PyFloat.of_string "0.1" = Some (S754_finite false 7205759403792794 (-56)).
Proof. vm_compute. reflexivity. Qed.

Example float_tie_to_even :
  PyFloat.of_string "9007199254740993"
  = Some (S754_finite false 4503599627370496 1) /\
  PyFloat.of_string "9007199254740995"
  = Some (S754_finite false 4503599627370498 1).
Proof. split; vm_compute; reflexivity. Qed.

Example float_subnormal :
  PyFloat.of_string "5e-324" = Some (S754_finite false 1 (-1074)) /\
  PyFloat.of_string "2.4703282292062327e-324" = Some (S754_zero false) /\
  PyFloat.of_string "2.4703282292062328e-324" = Some (S754_finite false 1 (-1074)).
Proof. repeat split; vm_compute; reflexivity. Qed.

Example float_overflow :
  PyFloat.of_string "1.7976931348623157e308"
  = Some (S754_finite false 9007199254740991 971) /\
  PyFloat.of_string "1.7976931348623159e308" = Some (S754_infinity false) /\
  PyFloat.of_string "-1e400" = Some (S754_infinity true).
Proof. repeat split; vm_compute; reflexivity. Qed.

Example float_syntax :
  PyFloat.of_string " 1_000.5e1 " = Some (S754_finite false 5500306917949440 (-39)) /\
  PyFloat.of_string "-.5E+1" = Some (S754_finite true 5629499534213120 (-50)) /\
  PyFloat.of_string "-NaN" = Some S754_nan /\
  PyFloat.of_string "Infinity" = Some (S754_infinity false) /\
  PyFloat.of_string "1_.5" = None /\
  PyFloat.of_string "1e" = None /\
  PyFloat.of_string "." = None /\
  PyFloat.of_string "1 2" = None /\
  PyFloat.of_string "" = None.
Proof. repeat split; vm_compute; reflexivity. Qed.

(** [str.strip] takes the separators and the no-break space away; [float]
    takes the no-break space for a space, and not the separators. *)
Example white_space :
  PyStr.strip (String (ascii_of_nat 160) (String (ascii_of_nat 28) "x")
               ++ String (ascii_of_nat 133) "") = "x" /\
  PyFloat.of_string (String (ascii_of_nat 160) " 5 ") = PyFloat.of_string "5" /\
  PyFloat.of_string (String (ascii_of_nat 28) "5") = None /\
  PyFloat.of_string (String (ascii_of_nat 160) (String (ascii_of_nat 28) "5")) = None /\
  PyFloat.of_string ("5" ++ String (ascii_of_nat 233) "") = None.
Proof. repeat split; vm_compute; reflexivity. Qed.

Example replace_every_occurrence :
  PyStr.replace "aa" "b" "aaaaa" = "bba" /\
  PyStr.replace "/3" "/F" "a/32/3" = "a/F2/F".
Proof. split; vm_compute; reflexivity. Qed.

Example findall_on_statement_url :
  findall_segments Examples.statement_url
  = ["/www.sec.gov"; "/Archives"; "/edgar"; "/data"; "/320193";
     "/000032019321000105"; "/R2.htm"]%list /\
  findall_segments "https://a.com/x/" = ["/a.com"; "/x"]%list /\
  findall_segments "abc" = []%list.
Proof. repeat split; vm_compute; reflexivity. Qed.

End KnownValues.


(** ** Frames built from a dict *)

Section FrameOf.

Lemma transpose_back (rws : list (list value)) (n : nat) :
  Forall (fun r => List.length r = n) rws ->
  map (fun j => map (fun r => nth j r NaN)
                  (map (fun i => map (fun r => nth i r NaN) rws) (seq 0 n)))
      (seq 0 (List.length rws)) = rws.
Proof.
  intros Hn.
  rewrite <- (map_nth_seq rws []) at 2.
  apply map_ext_in. intros j Hj. apply in_seq in Hj.
  rewrite map_map.
  assert (Hlen : List.length (nth j rws []) = n).
  { rewrite Forall_forall in Hn. apply Hn. apply nth_In. lia. }
  rewrite <- (map_nth_seq (nth j rws []) NaN) at 1. rewrite Hlen.
  apply map_ext. intros i.
  rewrite (nth_map_default (fun r => nth i r NaN) rws j [] NaN) by lia.
  reflexivity.
Qed.

Lemma forallb_frame_dict (w : nat) (d : list (nat * list string)) :
  forallb (fun kv : value * list value => List.length (snd kv) =? w)
    (frame_dict d)
  = forallb (fun kv : nat * list string => List.length (snd kv) =? w) d.
Proof.
  unfold frame_dict.
  induction d as [|[k v] d IH]; simpl; [reflexivity|].
  rewrite length_map, IH. reflexivity.
Qed.

Lemma frame_of_eq (d : list (nat * list string)) :
  frame_of d =
    if rectangular d
    then Return (mkDF (dict_index d) None (range (dict_width d)) (dict_rows d))
    else Raise ValueError.
Proof.
  unfold frame_of, of_dict, rectangular.
  assert (Hw : match frame_dict d with
               | [] => 0
               | (_, v) :: _ => List.length v
               end = dict_width d).
  { destruct d as [|[k v] d]; simpl; [reflexivity|]. apply length_map. }
  rewrite Hw.
  rewrite forallb_frame_dict.
  destruct (forallb _ d) eqn:Hrect; [|reflexivity].
  unfold T; simpl. f_equal. f_equal.
  - unfold frame_dict, dict_index. rewrite map_map. reflexivity.
  - rewrite length_map.
    replace (map (fun i => map (fun kv : value * list value => nth i (snd kv) NaN)
                            (frame_dict d)) (seq 0 (dict_width d)))
      with (map (fun i => map (fun r => nth i r NaN) (dict_rows d))
              (seq 0 (dict_width d))).
    2:{ apply map_ext. intros i. unfold dict_rows, frame_dict.
        rewrite !map_map. reflexivity. }
    replace (List.length (frame_dict d)) with (List.length (dict_rows d)).
    2:{ unfold dict_rows, frame_dict. rewrite !length_map. reflexivity. }
    apply transpose_back.
    rewrite forallb_forall in Hrect. apply Forall_forall.
    intros r Hr. unfold dict_rows in Hr. apply in_map_iff in Hr.
    destruct Hr as [kv [<- Hkv]]. rewrite length_map.
    apply Nat.eqb_eq. apply Hrect. exact Hkv.
Qed.

End FrameOf.


(** ** The classification of the rows *)

Section Classification.

Lemma dict_set_fresh {V} (i : nat) (v : V) (d : list (nat * V)) :
  keys_below i d -> dict_set i v d = d ++ [(i, v)].
Proof.
  intros H. unfold dict_set.
  replace (existsb (fun kv => fst kv =? i) d) with false; [reflexivity|].
  symmetry. induction H as [|kv d Hlt _ IH]; simpl; [reflexivity|].
  rewrite IH, orb_false_r. apply Nat.eqb_neq. lia.
Qed.

Lemma keys_below_snoc {V} (i : nat) (v : V) (d : list (nat * V)) :
  keys_below i d -> keys_below (S i) (d ++ [(i, v)]).
Proof.
  intros H. apply Forall_app. split.
  - eapply Forall_impl; [|exact H]. simpl. intros; lia.
  - constructor; [simpl; lia | constructor].
Qed.

Lemma keys_below_S {V} (i : nat) (d : list (nat * V)) :
  keys_below i d -> keys_below (S i) d.
Proof.
  intros H. eapply Forall_impl; [|exact H]. simpl. intros; lia.
Qed.

Lemma enumerate_cons (i : nat) (r : tr) (rs : list tr) :
  enumerate i (r :: rs) = (i, r) :: enumerate (S i) rs.
Proof. reflexivity. Qed.

(** A row is of one kind and one only. *)
Lemma kind_cases (r : tr) :
  (is_header r = true /\ is_section r = false /\ is_data r = false) \/
  (is_header r = false /\ is_section r = true /\ is_data r = false) \/
  (is_header r = false /\ is_section r = false /\ is_data r = true).
Proof.
  unfold is_header, is_section, is_data.
  destruct (List.length (th r) =? 0), (strong r =? 0); simpl; auto.
Qed.

Lemma classify_rows_eq (rs : list tr) :
  forall (sd : statement_data) (i : nat),
    keys_below i (sections sd) -> keys_below i (data sd) ->
    classify_rows sd i rs = ([], Return (Some (classified sd i rs))).
Proof.
  induction rs as [|r rs IH]; intros sd i Hs Hd.
  - unfold classified; simpl. rewrite !app_nil_r. destruct sd; reflexivity.
  - cbn [classify_rows]. unfold classify.
    unfold classified at 1. rewrite enumerate_cons.
    destruct (kind_cases r) as [(Hh & Hsec & Hdat) | [(Hh & Hsec & Hdat) | (Hh & Hsec & Hdat)]];
      cbn [filter snd]; rewrite Hh, Hsec, Hdat;
      unfold is_header, is_section, is_data in Hh, Hsec, Hdat.
    + destruct (List.length (th r) =? 0) eqn:Eth; [discriminate|].
      cbn [andb negb bind ret app].
      rewrite IH; cbn [headers sections data];
        [| apply keys_below_S, Hs | apply keys_below_S, Hd].
      unfold classified; cbn [headers sections data map].
      rewrite <- app_assoc. reflexivity.
    + destruct (List.length (th r) =? 0) eqn:Eth; [|discriminate].
      destruct (strong r =? 0) eqn:Est; [discriminate|].
      cbn [andb negb bind ret app].
      rewrite IH; cbn [headers sections data].
      * unfold classified; cbn [headers sections data keyed_texts map fst snd].
        rewrite dict_set_fresh by assumption.
        rewrite <- app_assoc. reflexivity.
      * rewrite dict_set_fresh by assumption. apply keys_below_snoc, Hs.
      * apply keys_below_S, Hd.
    + destruct (List.length (th r) =? 0) eqn:Eth; [|discriminate].
      destruct (strong r =? 0) eqn:Est; [|discriminate].
      cbn [andb negb bind ret app].
      rewrite IH; cbn [headers sections data].
      * unfold classified; cbn [headers sections data keyed_texts map fst snd].
        rewrite dict_set_fresh by assumption.
        rewrite <- app_assoc. reflexivity.
      * apply keys_below_S, Hs.
      * rewrite dict_set_fresh by assumption. apply keys_below_snoc, Hd.
Qed.

Lemma classify_rows_start (rs : list tr) :
  classify_rows start 0 rs = ([], Return (Some (classified start 0 rs))).
Proof. apply classify_rows_eq; constructor. Qed.

End Classification.


(** ** Sorting by position *)

Section SortByKey.

Context {A : Type}.

Local Notation "'key_le'" := (fun a b : Z * A => (fst a <= fst b)%Z).
Local Notation "'key_lt'" := (fun a b : Z * A => (fst a < fst b)%Z).

Lemma insert_by_key_perm (k : Z) (x : A) (l : list (Z * A)) :
  Permutation (insert_by_key k x l) ((k, x) :: l).
Proof.
  induction l as [|[k' y] l IH]; simpl; [apply Permutation_refl|].
  destruct (k <? k')%Z; [apply Permutation_refl|].
  eapply Permutation_trans; [apply perm_skip, IH | apply perm_swap].
Qed.

Lemma sort_by_key_perm (l : list (Z * A)) : Permutation (sort_by_key l) l.
Proof.
  induction l as [|[k x] l IH]; simpl; [constructor|].
  eapply Permutation_trans; [apply insert_by_key_perm | apply perm_skip, IH].
Qed.

Lemma insert_by_key_sorted (k : Z) (x : A) (l : list (Z * A)) :
  StronglySorted key_le l -> StronglySorted key_le (insert_by_key k x l).
Proof.
  induction 1 as [|[k' y] l Hl IH Hall]; simpl.
  - constructor; constructor.
  - destruct (k <? k')%Z eqn:E.
    + apply Z.ltb_lt in E. constructor.
      * constructor; assumption.
      * constructor; [simpl; lia|].
        eapply Forall_impl; [|exact Hall]. simpl. intros; lia.
    + apply Z.ltb_ge in E. constructor; [exact IH|].
      eapply Permutation_Forall.
      * apply Permutation_sym, insert_by_key_perm.
      * constructor; [simpl; lia | exact Hall].
Qed.

Lemma sort_by_key_sorted (l : list (Z * A)) : StronglySorted key_le (sort_by_key l).
Proof.
  induction l as [|[k x] l IH]; simpl; [constructor|].
  apply insert_by_key_sorted, IH.
Qed.

(** A list whose keys strictly increase is the only sorted arrangement of
    its elements. *)
Lemma sorted_unique (l1 : list (Z * A)) :
  forall l2,
    StronglySorted key_lt l1 -> StronglySorted key_le l2 ->
    Permutation l1 l2 -> l1 = l2.
Proof.
  induction l1 as [|a l1 IH]; intros l2 H1 H2 HP.
  - apply Permutation_nil in HP. now subst.
  - destruct l2 as [|b l2].
    { apply Permutation_sym, Permutation_nil in HP. discriminate. }
    inversion H1 as [|? ? H1' Ha]; subst.
    inversion H2 as [|? ? H2' Hb]; subst.
    assert (Hab : a = b).
    { assert (Hina : In a (b :: l2))
        by (eapply Permutation_in; [exact HP | left; reflexivity]).
      assert (Hinb : In b (a :: l1))
        by (eapply Permutation_in;
            [apply Permutation_sym; exact HP | left; reflexivity]).
      destruct Hina as [->|Hina]; [reflexivity|].
      destruct Hinb as [->|Hinb]; [reflexivity|].
      rewrite Forall_forall in Ha, Hb.
      specialize (Ha _ Hinb). specialize (Hb _ Hina). simpl in *. lia. }
    subst b. f_equal. apply IH; try assumption.
    eapply Permutation_cons_inv; exact HP.
Qed.

Lemma sort_by_key_unique (l sorted : list (Z * A)) :
  StronglySorted key_lt sorted -> Permutation sorted l ->
  sort_by_key l = sorted.
Proof.
  intros Hs HP. symmetry. apply sorted_unique.
  - exact Hs.
  - apply sort_by_key_sorted.
  - eapply Permutation_trans; [exact HP|].
    apply Permutation_sym, sort_by_key_perm.
Qed.

End SortByKey.

Section Partition.

Context {A : Type}.

(** Two buckets that split a list can be put back next to each other. *)
Lemma filter_split_perm (p q r : A -> bool) (l : list A) :
  (forall x, r x = p x || q x) -> (forall x, p x && q x = false) ->
  Permutation (filter p l ++ filter q l) (filter r l).
Proof.
  intros Hr Hpq. induction l as [|x l IH]; simpl; [constructor|].
  rewrite Hr. specialize (Hpq x).
  destruct (p x) eqn:Ep, (q x) eqn:Eq; simpl in *; try discriminate.
  - apply perm_skip, IH.
  - eapply Permutation_trans; [|apply perm_skip, IH].
    apply Permutation_sym, Permutation_middle.
  - exact IH.
Qed.

Lemma StronglySorted_filter (R : A -> A -> Prop) (p : A -> bool) (l : list A) :
  StronglySorted R l -> StronglySorted R (filter p l).
Proof.
  induction 1 as [|x l Hl IH Hall]; simpl; [constructor|].
  destruct (p x); [|exact IH].
  constructor; [exact IH|].
  rewrite Forall_forall in *. intros y Hy. apply filter_In in Hy.
  apply Hall, Hy.
Qed.

End Partition.

Lemma enumerate_sorted (rs : list tr) (i : nat) :
  StronglySorted (fun a b : nat * tr => fst a < fst b) (enumerate i rs).
Proof.
  revert i. induction rs as [|r rs IH]; intros i; [constructor|].
  rewrite enumerate_cons. constructor; [apply IH|].
  apply Forall_forall. intros [j r'] Hin. unfold enumerate in Hin.
  apply in_combine_l in Hin. apply in_seq in Hin. simpl. lia.
Qed.

Lemma StronglySorted_map_key {A B} (f : nat * A -> Z * B) (l : list (nat * A)) :
  (forall x, fst (f x) = Z.of_nat (fst x)) ->
  StronglySorted (fun a b => fst a < fst b) l ->
  StronglySorted (fun a b : Z * B => (fst a < fst b)%Z) (map f l).
Proof.
  intros Hf. induction 1 as [|x l Hl IH Hall]; simpl; [constructor|].
  constructor; [exact IH|].
  rewrite Forall_forall in *. intros y Hy. apply in_map_iff in Hy.
  destruct Hy as [z [<- Hz]]. rewrite !Hf. specialize (Hall _ Hz). lia.
Qed.


(** ** Frames on positional columns *)

Section RangeColumns.

Lemma label_eqb_nat (a b : nat) :
  label_eqb (VInt (Z.of_nat a)) (VInt (Z.of_nat b)) = (a =? b).
Proof.
  simpl. destruct (a =? b) eqn:E.
  - apply Nat.eqb_eq in E. subst. apply Z.eqb_refl.
  - apply Nat.eqb_neq in E. apply Z.eqb_neq. lia.
Qed.

Lemma position_seq (j n s : nat) :
  position (VInt (Z.of_nat j)) (map (fun i => VInt (Z.of_nat i)) (seq s n))
  = if (s <=? j) && (j <? s + n) then Some (j - s) else None.
Proof.
  revert s. induction n as [|n IH]; intros s; simpl.
  - destruct (s <=? j) eqn:E1; simpl; [|reflexivity].
    destruct (j <? s + 0) eqn:E2; [|reflexivity].
    apply Nat.leb_le in E1. apply Nat.ltb_lt in E2. lia.
  - rewrite Z.eqb_sym. change (Z.of_nat j =? Z.of_nat s)%Z
      with (label_eqb (VInt (Z.of_nat j)) (VInt (Z.of_nat s))).
    rewrite label_eqb_nat.
    destruct (j =? s) eqn:E.
    + apply Nat.eqb_eq in E. subst.
      rewrite Nat.leb_refl. simpl.
      replace (s <? s + S n) with true
        by (symmetry; apply Nat.ltb_lt; lia).
      rewrite Nat.sub_diag. reflexivity.
    + apply Nat.eqb_neq in E. rewrite IH.
      destruct (S s <=? j) eqn:E1.
      * apply Nat.leb_le in E1.
        replace (s <=? j) with true by (symmetry; apply Nat.leb_le; lia).
        replace (s + S n) with (S s + n) by lia. cbn [andb].
        destruct (j <? S s + n); cbn [option_map]; [|reflexivity].
        f_equal. lia.
      * apply Nat.leb_gt in E1.
        replace (s <=? j) with false by (symmetry; apply Nat.leb_gt; lia).
        reflexivity.
Qed.

Lemma position_range (j n : nat) :
  position (VInt (Z.of_nat j)) (range n) = if j <? n then Some j else None.
Proof.
  unfold range. rewrite position_seq. simpl.
  rewrite Nat.sub_0_r. reflexivity.
Qed.

Lemma filter_seq_ge (k n : nat) :
  forall s,
    filter (fun j => negb (j <? k)) (seq s n)
    = seq (Nat.max s k) (s + n - Nat.max s k).
Proof.
  induction n as [|n IH]; intros s; cbn [seq filter].
  - replace (s + 0 - Nat.max s k) with 0 by lia. reflexivity.
  - rewrite IH. destruct (s <? k) eqn:E; cbn [negb].
    + apply Nat.ltb_lt in E.
      replace (Nat.max (S s) k) with (Nat.max s k) by lia.
      f_equal. lia.
    + apply Nat.ltb_ge in E.
      replace (Nat.max s k) with s by lia.
      replace (Nat.max (S s) k) with (S s) by lia.
      replace (s + S n - s) with (S n) by lia.
      replace (S s + n - S s) with n by lia. reflexivity.
Qed.

Lemma filter_map_comm {A B} (f : B -> bool) (g : A -> B) (l : list A) :
  filter f (map g l) = map g (filter (fun x => f (g x)) l).
Proof.
  induction l as [|x l IH]; simpl; [reflexivity|].
  destruct (f (g x)); simpl; rewrite IH; reflexivity.
Qed.

Lemma union_columns_range (k m : nat) :
  union_columns (range k) (range m) = range (Nat.max k m).
Proof.
  unfold union_columns, range at 3. rewrite filter_map_comm.
  rewrite (filter_ext _ (fun j => negb (j <? k))).
  2:{ intros j. rewrite position_range. destruct (j <? k); reflexivity. }
  rewrite filter_seq_ge. unfold range. rewrite <- map_app. f_equal.
  replace (Nat.max 0 k) with k by lia.
  replace (Nat.max k m) with (k + (0 + m - k)) by lia.
  rewrite seq_app. reflexivity.
Qed.

Lemma reindex_row_range (k w : nat) (r : list value) :
  List.length r = k -> k <= w ->
  reindex_row (range k) (range w) r = pad w r.
Proof.
  intros Hr Hk. unfold reindex_row, pad, range at 2. rewrite map_map.
  apply map_ext. intros j. rewrite position_range.
  destruct (j <? k) eqn:E; [reflexivity|].
  apply Nat.ltb_ge in E. symmetry. apply nth_overflow. lia.
Qed.

Lemma combine_map_map {A B C} (f : A -> B) (g : A -> C) (l : list A) :
  combine (map f l) (map g l) = map (fun x => (f x, g x)) l.
Proof. induction l; simpl; congruence. Qed.

Lemma int_labels_nat {A} (f : A -> nat) (l : list A) :
  int_labels (map (fun x => VInt (Z.of_nat (f x))) l)
  = Some (map (fun x => Z.of_nat (f x)) l).
Proof. induction l as [|x l IH]; simpl; [|rewrite IH]; reflexivity. Qed.

End RangeColumns.

(** ** The conversion of the data rows *)

Section Conversion.

Lemma floats_of_clean (cs : list string) (fs : list value) :
  floats_of (map clean (map VStr cs)) = Some fs ->
  fs = map (fun s => VFloat (float_or_nan s)) cs.
Proof.
  revert fs. induction cs as [|c cs IH]; simpl; intros fs H.
  - now inversion H.
  - change (to_float (clean (VStr c))) with (normalize c) in H.
    unfold float_or_nan at 1.
    destruct (normalize c) as [f|]; [|discriminate].
    destruct (floats_of _) as [fs'|]; [|discriminate].
    inversion H; subst. f_equal. apply IH. reflexivity.
Qed.

Lemma rows_astype_float_clean (d : list (nat * list string)) (rs' : list (list value)) :
  rows_astype_float (rows (map_iloc_from_1 clean
                             (mkDF (dict_index d) None (range (dict_width d))
                                (dict_rows d)))) = Some rs' ->
  rs' = map (fun kv => converted (snd kv)) d.
Proof.
  cbn [rows map_iloc_from_1]. unfold dict_rows. rewrite map_map.
  revert rs'. induction d as [|[k cells] d IH]; cbn [map rows_astype_float snd];
    intros rs' H.
  - now inversion H.
  - destruct cells as [|c cs]; cbn [map] in H |- *.
    + destruct (rows_astype_float _) as [rest|]; [|discriminate].
      inversion H; subst. f_equal. apply IH. reflexivity.
    + destruct (floats_of _) as [fs|] eqn:Ef; [|discriminate].
      cbn [option_map] in H.
      destruct (rows_astype_float _) as [rest|]; [|discriminate].
      inversion H; subst. f_equal.
      * cbn [converted]. f_equal. apply floats_of_clean, Ef.
      * apply IH. reflexivity.
Qed.

(** The two assignments of the conversion leave the row labels, the
    column labels and the first cell of every row as they were. *)
Lemma map_iloc_from_1_frame (f : value -> value) (df : DataFrame) :
  index (map_iloc_from_1 f df) = index df /\
  columns (map_iloc_from_1 f df) = columns df /\
  map (fun r => nth 0 r NaN) (rows (map_iloc_from_1 f df))
  = map (fun r => nth 0 r NaN) (rows df).
Proof.
  repeat split. cbn [rows map_iloc_from_1]. rewrite map_map.
  apply map_ext. intros [|c cs]; reflexivity.
Qed.

Lemma rows_astype_float_first (rs rs' : list (list value)) :
  rows_astype_float rs = Some rs' ->
  map (fun r => nth 0 r NaN) rs' = map (fun r => nth 0 r NaN) rs.
Proof.
  revert rs'. induction rs as [|r rs IH]; simpl; intros rs' H.
  - now inversion H.
  - destruct r as [|c cs].
    + destruct (rows_astype_float rs) as [rest|]; [|discriminate].
      inversion H; subst. simpl. f_equal. apply IH. reflexivity.
    + destruct (floats_of cs) as [fs|]; [|discriminate]. simpl in H.
      destruct (rows_astype_float rs) as [rest|]; [|discriminate].
      inversion H; subst. simpl. f_equal. apply IH. reflexivity.
Qed.

Lemma astype_float_from_1_frame (df df' : DataFrame) :
  astype_float_from_1 df = Return df' ->
  index df' = index df /\
  columns df' = columns df /\
  map (fun r => nth 0 r NaN) (rows df') = map (fun r => nth 0 r NaN) (rows df).
Proof.
  unfold astype_float_from_1.
  destruct (rows_astype_float (rows df)) as [rs|] eqn:E; [|discriminate].
  intros H. inversion H; subst; cbn [index columns rows].
  repeat split. apply rows_astype_float_first, E.
Qed.

End Conversion.


(** ** The merged frame *)

Section Merge.

Lemma frame_of_Return (d : list (nat * list string)) (df : DataFrame) :
  frame_of d = Return df ->
  rectangular d = true /\
  df = mkDF (dict_index d) None (range (dict_width d)) (dict_rows d).
Proof.
  rewrite frame_of_eq. destruct (rectangular d); [|discriminate].
  intros H. inversion H. auto.
Qed.

Lemma rectangular_length (d : list (nat * list string)) (kv : nat * list string) :
  rectangular d = true -> In kv d -> List.length (snd kv) = dict_width d.
Proof.
  unfold rectangular. rewrite forallb_forall. intros H Hin.
  apply Nat.eqb_eq, H, Hin.
Qed.

Lemma converted_length (cells : list string) :
  List.length (converted cells) = List.length cells.
Proof. destruct cells; simpl; [|rewrite length_map]; reflexivity. Qed.

Lemma combine_app {A B} (l1 l2 : list A) (m1 m2 : list B) :
  List.length l1 = List.length m1 ->
  combine (l1 ++ l2) (m1 ++ m2) = combine l1 m1 ++ combine l2 m2.
Proof.
  revert m1. induction l1 as [|x l1 IH]; intros [|y m1] H; simpl in *;
    try discriminate; [reflexivity|].
  f_equal. apply IH. lia.
Qed.

Lemma classified_data (rs : list tr) :
  data (classified start 0 rs) = keyed_texts (data_rows rs).
Proof. reflexivity. Qed.

Lemma classified_sections (rs : list tr) :
  sections (classified start 0 rs) = keyed_texts (section_rows rs).
Proof. reflexivity. Qed.

Lemma classified_headers (rs : list tr) :
  headers (classified start 0 rs) = map (fun r => texts (th r)) (filter is_header rs).
Proof. reflexivity. Qed.

Lemma body_split (rs : list tr) :
  Permutation (data_rows rs ++ section_rows rs) (positioned_body rs).
Proof.
  apply filter_split_perm; intros [i r]; cbn [snd];
    destruct (kind_cases r) as [(H1 & H2 & H3) | [(H1 & H2 & H3) | (H1 & H2 & H3)]];
    rewrite ?H1, ?H2, ?H3; reflexivity.
Qed.

Lemma sorted_body (w : nat) (rs : list tr) :
  sort_by_key (map (keyed_row w) (data_rows rs ++ section_rows rs))
  = map (keyed_row w) (positioned_body rs).
Proof.
  apply sort_by_key_unique.
  - apply StronglySorted_map_key; [reflexivity|].
    apply StronglySorted_filter, enumerate_sorted.
  - apply Permutation_map, Permutation_sym, body_split.
Qed.

Lemma merged_frame (rs : list tr) (df sections_df df' : DataFrame) :
  frame_of (data (classified start 0 rs)) = Return df ->
  frame_of (sections (classified start 0 rs)) = Return sections_df ->
  astype_float_from_1 (map_iloc_from_1 clean df) = Return df' ->
  sort_index (concat df' sections_df) = Return (merged_of rs).
Proof.
  unfold merged_of, merged_width.
  rewrite classified_data, classified_sections.
  set (D := data_rows rs). set (S := section_rows rs).
  set (w := Nat.max (dict_width (keyed_texts D)) (dict_width (keyed_texts S))).
  intros Hd Hs Hc.
  apply frame_of_Return in Hd. destruct Hd as [Rd ->].
  apply frame_of_Return in Hs. destruct Hs as [Rs ->].
  unfold astype_float_from_1 in Hc.
  destruct (rows_astype_float _) as [rs'|] eqn:Er; [|discriminate].
  apply rows_astype_float_clean in Er. subst rs'.
  inversion Hc; subst df'; clear Hc.
  cbn [map_iloc_from_1 index index_name columns].
  unfold concat, sort_index; cbn [index index_name columns rows].
  rewrite union_columns_range. fold w.
  unfold dict_index, keyed_texts. rewrite !map_map. cbn [fst snd].
  rewrite <- map_app, int_labels_nat.
  unfold dict_rows. rewrite !map_map. cbn [snd].
  rewrite (map_ext_in _ (fun ir => snd (keyed_row w ir)) D).
  2:{ intros [i r] Hin. cbn [snd keyed_row].
      rewrite reindex_row_range.
      - unfold body_cells. apply filter_In in Hin. cbn [snd] in Hin.
        destruct Hin as [_ ->]. reflexivity.
      - rewrite converted_length.
        apply (rectangular_length _ (i, texts (td r)) Rd).
        unfold keyed_texts. apply in_map_iff. exists (i, r). auto.
      - change (dict_width (keyed_texts D) <= w). unfold w. lia. }
  rewrite (map_ext_in _ (fun ir => snd (keyed_row w ir)) S).
  2:{ intros [i r] Hin. cbn [snd keyed_row].
      rewrite reindex_row_range.
      - unfold body_cells. apply filter_In in Hin. cbn [snd] in Hin.
        destruct Hin as [_ Hsec].
        destruct (kind_cases r) as [(_ & E & _) | [(_ & _ & ->) | (_ & E & _)]];
          [congruence | reflexivity | congruence].
      - rewrite length_map.
        apply (rectangular_length _ (i, texts (td r)) Rs).
        unfold keyed_texts. apply in_map_iff. exists (i, r). auto.
      - change (dict_width (keyed_texts S) <= w). unfold w. lia. }
  rewrite <- map_app.
  rewrite (map_ext _ (fun ir => fst (keyed_row w ir))) by reflexivity.
  rewrite combine_map_map.
  rewrite (map_ext _ (keyed_row w)) by (intros ir; symmetry; apply surjective_pairing).
  unfold D, S. rewrite sorted_body. rewrite !map_map.
  reflexivity.
Qed.

End Merge.


(** ** The stages of [display_table], one after the other *)

Section Stages.

Lemma bind_print {A} (line : string) (m : Py A) :
  bind (print line) (fun _ => m) = (line :: fst m, snd m).
Proof. destruct m; reflexivity. Qed.

Lemma bind_pure {A B} (a : A) (k : A -> Py B) :
  bind ([], Return a) k = k a.
Proof. unfold bind. destruct (k a). reflexivity. Qed.

Lemma bind_raise {A B} (out : list string) (e : exn) (k : A -> Py B) :
  bind (out, Raise e) k = (out, Raise e).
Proof. reflexivity. Qed.

Lemma map_snd_positioned (p : tr -> bool) (rs : list tr) (i : nat) :
  map snd (filter (fun ir => p (snd ir)) (enumerate i rs)) = filter p rs.
Proof.
  revert i. induction rs as [|r rs IH]; intros i; [reflexivity|].
  rewrite enumerate_cons. cbn [filter snd].
  destruct (p r); cbn [map snd]; rewrite IH; reflexivity.
Qed.

Lemma body_rows_positioned (rs : list tr) :
  map snd (positioned_body rs) = body_rows rs.
Proof.
  unfold positioned_body, body_rows.
  apply (map_snd_positioned (fun r => negb (is_header r))).
Qed.

Lemma first_body_cell (w : nat) (r : tr) :
  1 <= w -> nth 0 (pad w (body_cells r)) NaN = row_label r.
Proof.
  intros Hw. destruct w as [|w]; [lia|]. cbn [pad seq map nth].
  unfold body_cells, row_label, converted.
  destruct (is_data r), (texts (td r)); reflexivity.
Qed.

Lemma remove_nth_0 {A} (l : list A) : remove_nth 0 l = tl l.
Proof. destruct l; reflexivity. Qed.

Lemma length_tl_range (w : nat) : List.length (tl (range w)) = w - 1.
Proof.
  destruct w as [|w]; [reflexivity|]. unfold range. cbn [seq map tl].
  rewrite length_map, length_seq. lia.
Qed.

(** The renaming of the merged frame, stage by stage. *)
Lemma rename_merged (sd : statement_data) (rs : list tr) :
  1 <= merged_width rs ->
  rename sd (merged_of rs) =
    match headers sd with
    | [] =>
        (["ERROR!!!We encountered an error in renaming indices and columns!"],
         Return (Some (labelled_of rs)))
    | h0 :: _ =>
        match header_of (headers sd) with
        | None =>
            (["We encountered an error in framing the header"], Return None)
        | Some header =>
            if List.length header =? merged_width rs - 1
            then (["Renamed indices and columns..."; "SUCCESS!"],
                  Return (Some (final_of rs (PyStr.join " - " h0) header)))
            else (["ERROR!!!We encountered an error in renaming indices and columns!"],
                  Return (Some (set_index_name (labelled_of rs)
                                  (VStr (PyStr.join " - " h0)))))
        end
    end.
Proof.
  intros Hw. unfold rename, getitem, drop_column.
  cbn [merged_of columns rows index index_name set_index].
  change (VInt 0) with (VInt (Z.of_nat 0)) at 1 2.
  rewrite !position_range.
  replace (0 <? merged_width rs) with true
    by (symmetry; apply Nat.ltb_lt; lia).
  assert (Hlab : map (fun r => nth 0 r NaN)
                   (map (fun ir => pad (merged_width rs) (body_cells (snd ir)))
                      (positioned_body rs))
                 = map row_label (body_rows rs)).
  { rewrite map_map, <- body_rows_positioned, map_map.
    apply map_ext. intros ir. apply first_body_cell, Hw. }
  assert (Hrows : map (remove_nth 0)
                    (map (fun ir => pad (merged_width rs) (body_cells (snd ir)))
                       (positioned_body rs))
                  = map (fun r => tl (pad (merged_width rs) (body_cells r)))
                      (body_rows rs)).
  { rewrite map_map, <- body_rows_positioned, map_map.
    apply map_ext. intros ir. apply remove_nth_0. }
  rewrite Hlab, Hrows, remove_nth_0.
  fold (labelled_of rs).
  destruct (headers sd) as [|h0 [|h1 [|h2 hs]]]; cbn [header_of].
  - reflexivity.
  - cbn [List.length Nat.eqb tl].
    unfold set_columns. cbn [set_index_name labelled_of columns index index_name rows].
    rewrite length_map, length_tl_range.
    destruct (List.length (tl h0) =? merged_width rs - 1); reflexivity.
  - cbn [List.length Nat.eqb nth].
    unfold set_columns. cbn [set_index_name labelled_of columns index index_name rows].
    rewrite length_map, length_tl_range.
    destruct (List.length h1 =? merged_width rs - 1); reflexivity.
  - reflexivity.
Qed.

End Stages.


Section Scrape.

Lemma frame_of_rectangular (d : list (nat * list string)) :
  rectangular d = true ->
  frame_of d = Return (mkDF (dict_index d) None (range (dict_width d)) (dict_rows d)).
Proof. intros H. rewrite frame_of_eq, H. reflexivity. Qed.

(** [display_table] from the parsed page on, as the outcome of each stage
    decides. *)
Lemma scrape_eq (page : soup) (rs : list tr) :
  table page = Some rs ->
  scrape page =
    let sd := classified start 0 rs in
    if rectangular (data sd) && rectangular (sections sd) then
      match astype_float_from_1 (cleaned_frame rs) with
      | Return _ =>
          (printed_before_rename ++ fst (rename sd (merged_of rs)),
           snd (rename sd (merged_of rs)))
      | Raise _ =>
          (["Parsed the table...";
            "Stored the data and sections into 2 DataFrames...";
            "ERROR!!!We encountered an error in converting string into digit!"],
           Return (Some (cleaned_frame rs)))
      end
    else
      (["Parsed the table...";
        "ERROR!!!We encountered an error in storing the data and sections into 2 DataFrames!"],
       Return None).
Proof.
  intros Ht. unfold scrape. rewrite Ht.
  unfold lift. rewrite bind_pure, classify_rows_start, bind_pure.
  rewrite bind_print. cbv zeta.
  set (sd := classified start 0 rs).
  unfold store. rewrite !frame_of_eq.
  destruct (rectangular (data sd)) eqn:Rd; cbn [andb].
  2:{ destruct (rectangular (sections sd)); reflexivity. }
  destruct (rectangular (sections sd)) eqn:Rs; [|reflexivity].
  rewrite bind_print. unfold convert.
  change (mkDF (dict_index (data sd)) None (range (dict_width (data sd)))
            (dict_rows (data sd))) with (data_frame rs).
  change (map_iloc_from_1 clean (data_frame rs)) with (cleaned_frame rs).
  destruct (astype_float_from_1 (cleaned_frame rs)) as [df'|e] eqn:Ec;
    [|reflexivity].
  rewrite bind_print. unfold merge.
  rewrite (merged_frame rs (data_frame rs) _ df'
             (frame_of_rectangular _ Rd) (frame_of_rectangular _ Rs) Ec).
  rewrite bind_print. reflexivity.
Qed.

Lemma reaches_rename_inv (page : soup) (sd : statement_data) (merged : DataFrame) :
  reaches_rename page sd merged ->
  exists rs,
    table page = Some rs /\ sd = classified start 0 rs /\
    merged = merged_of rs /\
    scrape page = (printed_before_rename ++ fst (rename sd merged),
                   snd (rename sd merged)).
Proof.
  intros (rs & df & sdf & df' & Ht & Hc & Hd & Hs & Ha & Hm).
  rewrite classify_rows_start in Hc. inversion Hc; subst sd; clear Hc.
  rewrite (merged_frame rs df sdf df' Hd Hs Ha) in Hm.
  inversion Hm; subst merged; clear Hm.
  exists rs. repeat split; try reflexivity; [exact Ht|].
  rewrite (scrape_eq page rs Ht). cbv zeta.
  pose proof (frame_of_Return _ _ Hd) as [Rd Ed].
  pose proof (frame_of_Return _ _ Hs) as [Rs _].
  rewrite Rd, Rs. cbn [andb].
  subst df. fold (data_frame rs) in Ha. fold (cleaned_frame rs) in Ha.
  rewrite Ha. reflexivity.
Qed.

Lemma merged_of_columns (rs : list tr) :
  columns (merged_of rs) = range (merged_width rs).
Proof. reflexivity. Qed.

Lemma length_range (n : nat) : List.length (range n) = n.
Proof. unfold range. rewrite length_map, length_seq. reflexivity. Qed.

End Scrape.


(** ** What a successful call returns *)

Section Success.

Lemma last_app_nonempty {A} (l1 l2 : list A) (d : A) :
  l2 <> [] -> last (l1 ++ l2) d = last l2 d.
Proof.
  intros H. induction l1 as [|x l1 IH]; [reflexivity|].
  cbn [app]. destruct (l1 ++ l2) eqn:E.
  - destruct l1, l2; try discriminate; congruence.
  - rewrite <- IH. reflexivity.
Qed.

Lemma rename_no_column (sd : statement_data) (rs : list tr) :
  merged_width rs = 0 ->
  rename sd (merged_of rs)
  = (["ERROR!!!We encountered an error in renaming indices and columns!"],
     Return (Some (merged_of rs))).
Proof.
  intros Hw. unfold rename, getitem.
  cbn [merged_of columns]. rewrite Hw. reflexivity.
Qed.

(** A successful scrape returns the frame read off the document. *)
Lemma scrape_success (page : soup) (rs : list tr) (df : DataFrame) :
  table page = Some rs ->
  succeeded (scrape page) df ->
  1 <= merged_width rs /\
  exists h0 hs header,
    headers (classified start 0 rs) = h0 :: hs /\
    header_of (h0 :: hs) = Some header /\
    List.length header = merged_width rs - 1 /\
    df = final_of rs (PyStr.join " - " h0) header.
Proof.
  intros Ht [Hr Hl]. rewrite (scrape_eq page rs Ht) in Hr, Hl. cbv zeta in Hr, Hl.
  destruct (rectangular _ && rectangular _); [|discriminate Hr].
  destruct (astype_float_from_1 (cleaned_frame rs)); [|discriminate Hl].
  cbn [fst snd] in Hr, Hl.
  destruct (merged_width rs) as [|w] eqn:Hw.
  { rewrite rename_no_column in Hl by exact Hw. discriminate Hl. }
  assert (Hw1 : 1 <= merged_width rs) by lia.
  rewrite (rename_merged _ rs Hw1) in Hr, Hl.
  split; [lia|].
  destruct (headers (classified start 0 rs)) as [|h0 hs] eqn:Hh;
    [discriminate Hl|].
  destruct (header_of (h0 :: hs)) as [header|] eqn:Ho; [|discriminate Hl].
  destruct (List.length header =? merged_width rs - 1) eqn:El;
    [|discriminate Hl].
  cbn [snd] in Hr. inversion Hr; subst df.
  exists h0, hs, header. apply Nat.eqb_eq in El. rewrite Hw in El.
  repeat split; assumption.
Qed.

Lemma scrape_prints (page : soup) (r : option DataFrame) :
  snd (scrape page) = Return r -> fst (scrape page) <> [].
Proof.
  destruct (table page) as [rs|] eqn:Ht.
  - rewrite (scrape_eq page rs Ht). cbv zeta.
    destruct (rectangular _ && rectangular _); [|discriminate].
    destruct (astype_float_from_1 _); discriminate.
  - unfold scrape. rewrite Ht. discriminate.
Qed.

Variable requests_get : string -> string -> option soup.

(** [display_table] as its first two steps decide. *)
Lemma display_table_eq (fs_url table_name email : string) :
  display_table requests_get fs_url table_name email =
    match get_table_url requests_get fs_url email table_name with
    | (out, Raise e) => (out, Raise e)
    | (out, Return table_url) =>
        match fetch_value requests_get table_url email with
        | Raise _ =>
            (out ++ [str_of_url table_url;
                     "ERROR!!!We encountered an error when requesting the web content!"],
             Return None)
        | Return page =>
            (out ++ str_of_url table_url :: "Requested the web content..."
                 :: fst (scrape page),
             snd (scrape page))
        end
    end.
Proof.
  unfold display_table.
  destruct (get_table_url requests_get fs_url email table_name) as [out [u|e]];
    [|reflexivity].
  cbn [bind]. rewrite bind_print.
  destruct (fetch_value requests_get u email) as [page|e].
  - rewrite bind_print. reflexivity.
  - reflexivity.
Qed.

(** A successful call went through a table document the transport served
    at the url looked up. *)
Lemma display_table_success (fs_url table_name email : string) (df : DataFrame) :
  succeeded (display_table requests_get fs_url table_name email) df ->
  exists out table_url page,
    get_table_url requests_get fs_url email table_name
    = (out, Return (Some (VStr table_url))) /\
    requests_get table_url email = Some page /\
    succeeded (scrape page) df.
Proof.
  intros [Hr Hl]. rewrite display_table_eq in Hr, Hl.
  destruct (get_table_url requests_get fs_url email table_name)
    as [out [u|e]]; [|discriminate Hr].
  destruct (fetch_value requests_get u email) as [page|e] eqn:Ef;
    [|discriminate Hr].
  cbn [fst snd] in Hr, Hl.
  unfold fetch_value, fetch in Ef.
  destruct u as [[n|table_url|f]|]; try discriminate Ef.
  destruct (requests_get table_url email) as [page'|] eqn:Eg; [|discriminate Ef].
  inversion Ef; subst page'.
  exists out, table_url, page. repeat split; try assumption.
  rewrite <- Hl.
  change (out ++ str_of_url (Some (VStr table_url))
              :: "Requested the web content..." :: fst (scrape page))
    with (out ++ [str_of_url (Some (VStr table_url));
                  "Requested the web content..."] ++ fst (scrape page)).
  rewrite app_assoc. symmetry. apply last_app_nonempty.
  eapply scrape_prints. exact Hr.
Qed.

End Success.


(** ** The table index *)

Section TableIndex.

Lemma master_reports_eq (url lst : string) (rs : list report) :
  master_reports url lst rs =
    match all_named rs with
    | Some l =>
        Return (map (fun p => [VStr (fst p); VStr (sibling_url url lst (snd p))]) l)
    | None => Raise AttributeError
    end.
Proof.
  induction rs as [|r rs IH]; [reflexivity|].
  cbn [master_reports all_named]. unfold report_dict, named, text_of.
  destruct (shortname r) as [n|]; [|reflexivity].
  destruct (htmlfilename r) as [f|]; [|reflexivity].
  rewrite IH. destruct (all_named rs); reflexivity.
Qed.

Variable requests_get : string -> string -> option soup.

(** [get_table_info], as each of its steps decides. *)
Lemma get_table_info_eq (url email : string) :
  get_table_info requests_get url email =
    match last_segment url with
    | Raise e => ([], Raise e)
    | Return lst =>
        match requests_get (sibling_url url lst "FilingSummary.xml") email with
        | None => ([], Raise RequestException)
        | Some page =>
            match myreports page with
            | None => ([], Raise AttributeError)
            | Some reports =>
                match all_named (all_but_last reports) with
                | None => ([], Raise AttributeError)
                | Some [] => ([], Raise KeyError)
                | Some l => ([], Return (table_index (resolved url lst l)))
                end
            end
        end
    end.
Proof.
  unfold get_table_info, lift.
  destruct (last_segment url) as [lst|e]; [|reflexivity].
  rewrite bind_pure. unfold fetch.
  destruct (requests_get _ email) as [page|]; [|reflexivity].
  rewrite bind_pure.
  destruct (myreports page) as [reports|]; [|reflexivity].
  rewrite bind_pure, master_reports_eq.
  destruct (all_named (all_but_last reports)) as [l|]; [|reflexivity].
  rewrite bind_pure.
  destruct l as [|p l]; [reflexivity|].
  unfold of_records, getitem, drop_column, table_index, resolved.
  cbn [map position columns label_eqb String.eqb Ascii.eqb Bool.eqb
         rows index index_name set_index set_index_name remove_nth
         option_map fst snd nth List.length].
  rewrite !bind_pure. cbn [bind]. rewrite !map_map. reflexivity.
Qed.

Lemma get_table_info_shape (url email : string) (out : list string) (info : DataFrame) :
  get_table_info requests_get url email = (out, Return info) ->
  out = [] /\ exists pairs, info = table_index pairs.
Proof.
  rewrite get_table_info_eq.
  destruct (last_segment url) as [lst|e]; [|discriminate].
  destruct (requests_get _ email) as [page|]; [|discriminate].
  destruct (myreports page) as [reports|]; [|discriminate].
  destruct (all_named (all_but_last reports)) as [[|p l]|]; try discriminate.
  intros H. inversion H. split; [reflexivity|]. eauto.
Qed.

End TableIndex.

(** ** The lookup of a table by its name *)

Section Lookup.

Lemma label_eqb_VStr (v : value) (s : string) :
  label_eqb v (VStr s) = true <-> v = VStr s.
Proof.
  destruct v as [n|t|f]; cbn [label_eqb]; split; try discriminate.
  - intros H. apply String.eqb_eq in H. congruence.
  - intros H. inversion H. apply String.eqb_refl.
Qed.

Lemma label_eqb_VStr_false (v : value) (s : string) :
  v <> VStr s -> label_eqb v (VStr s) = false.
Proof.
  intros H. destruct (label_eqb v (VStr s)) eqn:E; [|reflexivity].
  apply label_eqb_VStr in E. contradiction.
Qed.

Lemma entries_table_index (pairs : list (string * string)) :
  entries (table_index pairs) = map (fun p => (VStr (fst p), VStr (snd p))) pairs.
Proof.
  unfold entries, table_index. cbn [index rows].
  rewrite map_map. cbn [nth]. apply combine_map_map.
Qed.

(** The lookup is the first entry with the name, in the order of the
    index, and an [IndexError] when there is none. *)
Lemma lookup_table_index (pairs : list (string * string)) (name : string) :
  lookup (table_index pairs) name =
    match find (fun e => label_eqb (fst e) (VStr name)) (entries (table_index pairs)) with
    | Some e => Return (snd e)
    | None => Raise IndexError
    end.
Proof.
  rewrite entries_table_index.
  unfold lookup, getitem, select_index, table_index.
  cbn [columns index rows position label_eqb]. rewrite String.eqb_refl.
  rewrite combine_map_map.
  induction pairs as [|[n u] pairs IH]; [reflexivity|].
  cbn [map filter find fst snd label_eqb].
  destruct (String.eqb n name); [reflexivity|]. exact IH.
Qed.

Lemma find_first {A} (f : A -> bool) (before after : list A) (x : A) :
  (forall y, In y before -> f y = false) -> f x = true ->
  find f (before ++ x :: after) = Some x.
Proof.
  intros Hb Hx. induction before as [|y before IH]; cbn [app find].
  - rewrite Hx. reflexivity.
  - rewrite (Hb y) by (left; reflexivity).
    apply IH. intros z Hz. apply Hb. right. exact Hz.
Qed.

Lemma find_none {A} (f : A -> bool) (l : list A) :
  (forall y, In y l -> f y = false) -> find f l = None.
Proof.
  intros H. induction l as [|y l IH]; [reflexivity|]. cbn [find].
  rewrite (H y) by (left; reflexivity).
  apply IH. intros z Hz. apply H. right. exact Hz.
Qed.

End Lookup.


(** ** The urls derived from the statement url *)

Section Urls.

Local Open Scope string_scope.

Lemma append_nil_r (s : string) : s ++ "" = s.
Proof. induction s as [|c s IH]; cbn; [|rewrite IH]; reflexivity. Qed.

Lemma append_assoc (s t u : string) : (s ++ t) ++ u = s ++ (t ++ u).
Proof. induction s as [|c s IH]; cbn; [|rewrite IH]; reflexivity. Qed.

Lemma length_append (s t : string) :
  String.length (s ++ t) = String.length s + String.length t.
Proof. induction s as [|c s IH]; cbn; [|rewrite IH]; reflexivity. Qed.

Lemma prefix_refl (s : string) : prefix s s = true.
Proof.
  induction s as [|c s IH]; cbn; [reflexivity|].
  destruct (ascii_dec c c); [exact IH | contradiction].
Qed.

Lemma replace_from_skip_all (old new s : string) :
  PyStr.replace_from (String.length s) old new s = "".
Proof. induction s as [|c s IH]; cbn; [reflexivity | exact IH]. Qed.

(** A text that occurs at the end only is the one occurrence replaced. *)
Lemma replace_only_last (old new pre : string) :
  old <> "" -> occurs_last_only old pre ->
  PyStr.replace old new (pre ++ old) = pre ++ new.
Proof.
  intros Hne. unfold PyStr.replace.
  induction pre as [|c pre IH]; intros Hocc.
  - destruct old as [|a old]; [contradiction|].
    cbn [append PyStr.replace_from].
    rewrite prefix_refl. cbn [String.length Nat.pred].
    rewrite replace_from_skip_all. apply append_nil_r.
  - cbn [append PyStr.replace_from].
    pose proof (Hocc 0 ltac:(cbn; lia)) as H0. cbn [PyStr.drop append] in H0.
    rewrite H0. f_equal. apply IH.
    intros i Hi. apply (Hocc (S i)). cbn. lia.
Qed.

Lemma findall_open_segment (seg : string) :
  forall m,
    seg <> "" -> slash_free seg = true -> m <> "" ->
    findall_from (Some m) seg = [m ++ seg].
Proof.
  induction seg as [|c seg IH]; intros m Hne Hsf Hm; [contradiction|].
  cbn [slash_free] in Hsf. apply andb_prop in Hsf. destruct Hsf as [Hc Hsf].
  apply negb_true_iff in Hc. cbn [findall_from]. rewrite Hc.
  destruct seg as [|c' seg'].
  - cbn [findall_from close_match].
    rewrite length_append. cbn [String.length].
    destruct m as [|a m]; [contradiction|]. cbn [String.length].
    replace (1 <? S (String.length m) + 1)%nat with true
      by (symmetry; apply Nat.ltb_lt; lia).
    reflexivity.
  - rewrite IH; try assumption; try discriminate.
    + rewrite append_assoc. reflexivity.
    + destruct m; discriminate.
Qed.

Lemma findall_ends_with_segment (seg pre : string) :
  seg <> "" -> slash_free seg = true ->
  forall cur, exists l,
    findall_from cur (pre ++ String slash seg) = (l ++ [String slash seg])%list.
Proof.
  intros Hne Hsf. induction pre as [|c pre IH]; intros cur.
  - cbn [append findall_from]. rewrite Ascii.eqb_refl.
    exists (close_match cur). f_equal.
    apply (findall_open_segment seg (String slash "")); try assumption.
    discriminate.
  - cbn [append findall_from]. destruct (Ascii.eqb c slash).
    + destruct (IH (Some (String slash ""))) as [l ->].
      exists (close_match cur ++ l)%list. apply app_assoc.
    + destruct cur as [m|]; apply IH.
Qed.

(** The last match is the last path segment, with its slash. *)
Lemma last_segment_of (pre seg : string) :
  seg <> "" -> slash_free seg = true ->
  last_segment (pre ++ String slash seg) = Return (String slash seg).
Proof.
  intros Hne Hsf. unfold last_segment, findall_segments, last_item.
  destruct (findall_ends_with_segment seg pre Hne Hsf None) as [l ->].
  rewrite rev_app_distr. reflexivity.
Qed.

(** When the text of the last segment occurs nowhere else in the url, the
    sibling url is the url with that segment replaced. *)
Lemma sibling_url_of (pre seg file : string) :
  occurs_last_only (String slash seg) pre ->
  sibling_url (pre ++ String slash seg) (String slash seg) file
  = pre ++ String slash file.
Proof.
  intros Hocc. unfold sibling_url. apply replace_only_last; [discriminate|].
  exact Hocc.
Qed.

End Urls.



Import Texts.
(** ** The conversion, cell by cell *)

Section Conversion.

Lemma Forall2_of_map {A B C} (R : B -> C -> Prop) (f : A -> B) (l : list A) (l' : list C) :
  Forall2 R (map f l) l' -> Forall2 (fun x y => R (f x) y) l l'.
Proof.
  revert l'. induction l as [|x l IH]; intros l' H; inversion H; subst;
    constructor; auto.
Qed.

Lemma Forall2_weaken {A B} (R R' : A -> B -> Prop) (l : list A) (l' : list B) :
  (forall x y, R x y -> R' x y) -> Forall2 R l l' -> Forall2 R' l l'.
Proof. intros H. induction 1; constructor; auto. Qed.

Lemma floats_of_cells (cs : list value) :
  match floats_of cs with
  | Some fs =>
      Forall2 (fun v v' => exists f, to_float v = Some f /\ v' = VFloat f) cs fs
  | None => Exists (fun v => to_float v = None) cs
  end.
Proof.
  induction cs as [|v cs IH]; cbn [floats_of]; [constructor|].
  destruct (to_float v) as [f|] eqn:Ev.
  - destruct (floats_of cs) as [fs|].
    + constructor; [exists f; auto | exact IH].
    + right. exact IH.
  - left. exact Ev.
Qed.

Lemma rows_astype_float_cells (rs : list (list value)) :
  match rows_astype_float rs with
  | Some rs' =>
      Forall2 (fun r r' =>
                 hd_error r' = hd_error r /\
                 Forall2 (fun v v' => exists f, to_float v = Some f /\ v' = VFloat f)
                   (tl r) (tl r')) rs rs'
  | None => Exists (fun r => Exists (fun v => to_float v = None) (tl r)) rs
  end.
Proof.
  induction rs as [|r rs IH]; cbn [rows_astype_float]; [constructor|].
  destruct r as [|c cs].
  - destruct (rows_astype_float rs) as [rs'|].
    + constructor; [split; [reflexivity | constructor] | exact IH].
    + right. exact IH.
  - pose proof (floats_of_cells cs) as Hc.
    destruct (floats_of cs) as [fs|]; cbn [option_map].
    + destruct (rows_astype_float rs) as [rs'|].
      * constructor; [split; [reflexivity | exact Hc] | exact IH].
      * right. exact IH.
    + left. exact Hc.
Qed.

Lemma cellwise_weaken (R R' : value -> value -> Prop) (df df' : DataFrame) :
  (forall v v', R v v' -> R' v v') -> cellwise R df df' -> cellwise R' df df'.
Proof.
  intros H (Hi & Hn & Hc & Hr). repeat split; try assumption.
  eapply Forall2_weaken; [|exact Hr]. cbn beta.
  intros r r' [Hh Ht]. split; [exact Hh|].
  eapply Forall2_weaken; eassumption.
Qed.

Lemma cellwise_clean (df : DataFrame) :
  cellwise (fun v v' => v' = clean v) df (map_iloc_from_1 clean df).
Proof.
  repeat split. cbn [map_iloc_from_1 rows].
  induction (rows df) as [|r rs IH]; cbn [map]; constructor; [|exact IH].
  destruct r as [|c cs]; [split; [reflexivity | constructor]|].
  split; [reflexivity|]. cbn [tl].
  clear. induction cs; cbn [map]; constructor; auto.
Qed.

Lemma Exists_cleaned (P : value -> Prop) (rs : list (list value)) :
  Exists (fun r => Exists P (tl r))
    (map (fun r => match r with
                   | [] => []
                   | c :: cs => c :: map clean cs
                   end) rs) ->
  Exists (fun r => Exists (fun v => P (clean v)) (tl r)) rs.
Proof.
  induction rs as [|r rs IH]; cbn [map]; intros H; [inversion H|].
  apply Exists_cons in H. destruct H as [H|H]; [left | right; apply IH, H].
  destruct r as [|c cs]; [inversion H|]. cbn [tl] in *.
  apply Exists_exists. apply Exists_exists in H.
  destruct H as (v & Hin & Hv). apply in_map_iff in Hin.
  destruct Hin as (u & <- & Hu). exists u. auto.
Qed.

(** The two ways the conversion ends.  It goes through, and every cell
    after the first of its row has become the float of its cleaned text;
    or it fails on a cell whose cleaned text is no float, and the cleaned
    frame is returned. *)
Lemma convert_outcomes (sd : statement_data) (df sections_df : DataFrame) :
  (exists df',
      converts_to sd df sections_df df' /\
      cellwise (fun v v' => exists f, to_float (clean v) = Some f /\ v' = VFloat f)
        df df') \/
  (conversion_fails sd df sections_df (map_iloc_from_1 clean df) /\
   Exists (fun r => Exists (fun v => to_float (clean v) = None) (tl r)) (rows df)).
Proof.
  unfold converts_to, conversion_fails, convert, astype_float_from_1.
  pose proof (rows_astype_float_cells (rows (map_iloc_from_1 clean df))) as H.
  destruct (rows_astype_float (rows (map_iloc_from_1 clean df))) as [rs'|].
  - left. eexists. split; [reflexivity|].
    repeat split. cbn [rows]. cbn [map_iloc_from_1 rows] in H.
    apply Forall2_of_map in H. eapply Forall2_weaken; [|exact H]. cbn beta.
    intros r r' [Hh Ht]. destruct r as [|c cs]; cbn [tl] in *.
    + split; [exact Hh|]. inversion Ht. constructor.
    + split; [exact Hh|]. apply Forall2_of_map in Ht. exact Ht.
  - right. split; [reflexivity|].
    cbn [map_iloc_from_1 rows] in H. apply Exists_cleaned in H. exact H.
Qed.

End Conversion.

(** ** The numeric normalizer on the canonical accounting forms *)

(** C2. There are three floats, of the values 1234.5, -56 and -1234, by
    which the conversion of [display_table] reads the canonical forms, in
    every frame of data rows.  Either the conversion goes through, and in
    the frame it hands on every cell that was "$1,234.50" is the first
    float, every cell "(56.0)" the second, every cell "$(1,234)" the third
    and every empty cell the float NaN, the marker of a missing value.  Or
    it fails, on a cell that is none of the four forms, and in the frame it
    returns every empty cell has become the text NaN: it never stays the
    empty string. *)
Theorem normalize_accounting_forms :
  exists f1 f2 f3,
    PyFloat.represents f1 (12345 # 10) /\
    PyFloat.represents f2 (- (56 # 1)) /\
    PyFloat.represents f3 (- (1234 # 1)) /\
    forall (sd : statement_data) (df sections_df : DataFrame),
      (exists df',
          converts_to sd df sections_df df' /\
          cellwise (fun v v' =>
                      (v = VStr "$1,234.50" -> v' = VFloat f1) /\
                      (v = VStr "(56.0)" -> v' = VFloat f2) /\
                      (v = VStr "$(1,234)" -> v' = VFloat f3) /\
                      (v = VStr "" -> v' = NaN)) df df') \/
      (exists df',
          conversion_fails sd df sections_df df' /\
          cellwise (fun v v' => v = VStr "" -> v' = VStr "NaN") df df' /\
          Exists (fun r =>
                    Exists (fun v =>
                              ~ In v [VStr "$1,234.50"; VStr "(56.0)";
                                      VStr "$(1,234)"; VStr ""]) (tl r))
            (rows df)).
Proof.
  exists (float_or_nan "$1,234.50"), (float_or_nan "(56.0)"),
    (float_or_nan "$(1,234)").
  split; [vm_compute; reflexivity|].
  split; [vm_compute; reflexivity|].
  split; [vm_compute; reflexivity|].
  intros sd df sections_df.
  destruct (convert_outcomes sd df sections_df)
    as [(df' & Hc & Hcells) | [Hf Hcell]].
  - left. exists df'. split; [exact Hc|].
    eapply cellwise_weaken; [|exact Hcells]. cbn beta.
    intros v v' (f & Hv & ->).
    repeat split; intros ->; vm_compute in Hv; inversion Hv; reflexivity.
  - right. exists (map_iloc_from_1 clean df). split; [exact Hf|]. split.
    + eapply cellwise_weaken; [|apply cellwise_clean]. cbn beta.
      intros v v' -> ->. reflexivity.
    + eapply Exists_impl; [|exact Hcell]. cbn beta. intros r Hr.
      eapply Exists_impl; [|exact Hr]. cbn beta. intros v Hv Hin.
      cbn [In] in Hin.
      destruct Hin as [<-|[<-|[<-|[<-|[]]]]]; vm_compute in Hv; discriminate Hv.
Qed.

(** On a page, from the request to the frame: the data row of the four
    forms comes back as the three floats and the float NaN. *)
Lemma accounting_forms_on_a_page :
  exists f1 f2 f3,
    PyFloat.represents f1 (12345 # 10) /\
    PyFloat.represents f2 (- (56 # 1)) /\
    PyFloat.represents f3 (- (1234 # 1)) /\
    display_table (Examples.filing MoreExamples.accounting_rows)
      Examples.statement_url Examples.operations Examples.email
    = ([Examples.operations_url;
        "Requested the web content...";
        "Parsed the table...";
        "Stored the data and sections into 2 DataFrames...";
        "Converted string into digit...";
        "Merged 2 DataFrames...";
        "Renamed indices and columns...";
        "SUCCESS!"],
       Return (Some (mkDF [VStr "Net"]
                       (Some (VStr "Amounts - plain - negative - both - none"))
                       [VStr "plain"; VStr "negative"; VStr "both"; VStr "none"]
                       [[VFloat f1; VFloat f2; VFloat f3; NaN]]))).
Proof.
  exists (float_or_nan "$1,234.50"), (float_or_nan "(56.0)"),
    (float_or_nan "$(1,234)").
  repeat split; vm_compute; reflexivity.
Qed.

(** ** The end-to-end scenario *)

Import Examples.

(** C10, as stated, does not hold: on the scenario no frame is returned
    that has the row labels, the column header FY2021 and the cell 100.0
    the claim lists. *)
Lemma scenario_as_stated_fails :
  ~ (exists out df,
        display_table (filing scenario_rows) statement_url operations email
        = (out, Return (Some df)) /\
        index df = [VStr "Net sales"; VStr "Operating expenses:"] /\
        columns df = [VStr "FY2021"] /\
        cell df (VStr "Net sales") (VStr "FY2021") = Some (VFloat hundred)).
Proof.
  intros (out & df & H & _ & Hc & _).
  vm_compute in H. inversion H; subst. discriminate Hc.
Qed.

(** C10, amended. On the scenario the second header row has two cells for
    the one value column, so the renaming fails: [display_table] returns the
    merged frame with the row labels Net sales and Operating expenses: in
    that order, the value column still labelled 1, and 100.0 in the row
    Net sales.  When the second header row is the one cell FY2021, the call
    succeeds with the same row labels, the column header FY2021 and 100.0
    at (Net sales, FY2021). *)
Theorem scenario_result :
  display_table (filing scenario_rows) statement_url operations email
  = ([operations_url;
      "Requested the web content...";
      "Parsed the table...";
      "Stored the data and sections into 2 DataFrames...";
      "Converted string into digit...";
      "Merged 2 DataFrames...";
      "ERROR!!!We encountered an error in renaming indices and columns!"],
     Return (Some (mkDF [VStr "Net sales"; VStr "Operating expenses:"]
                     (Some (VStr " - FY2021"))
                     [VInt 1]
                     [[VFloat hundred]; [NaN]]))) /\
  (exists df,
      succeeded (display_table (filing scenario_rows_fitting)
                   statement_url operations email) df /\
      index df = [VStr "Net sales"; VStr "Operating expenses:"] /\
      columns df = [VStr "FY2021"] /\
      cell df (VStr "Net sales") (VStr "FY2021") = Some (VFloat hundred)) /\
  PyFloat.represents hundred (100 # 1).
Proof.
  split; [vm_compute; reflexivity|]. split.
  - eexists. unfold succeeded. split; [split|].
    + vm_compute. reflexivity.
    + vm_compute. reflexivity.
    + vm_compute. auto.
  - vm_compute. reflexivity.
Qed.


(** ** Rows that carry both a header cell and an emphasis *)

(** C4, as stated, does not hold: a row with a [th] cell and a [strong]
    element goes to the header bucket, nothing is printed, and the scrape of
    a document with such a row succeeds. *)
Lemma emphasised_header_is_accepted :
  classify start 0 titled_header
  = ([], Return (Some (mkSD [th titled_header] [] []))) /\
  exists df,
    succeeded (display_table (filing titled_rows) statement_url operations email) df.
Proof.
  split; [vm_compute; reflexivity|].
  eexists. split; vm_compute; reflexivity.
Qed.

Lemma classify_total (sd : statement_data) (i : nat) (row : tr) :
  exists sd', classify sd i row = ([], Return (Some sd')).
Proof.
  unfold classify.
  destruct (List.length (th row) =? 0), (strong row =? 0); cbn [andb negb];
    eexists; reflexivity.
Qed.

(** C4, amended. A row with a header cell is a header row, whether or not
    it also holds an emphasis: the stripped texts of its [th] cells are
    appended to the header rows, the two other buckets are left as they are
    and nothing is printed.  The classification of the rows of a document
    never fails. *)
Theorem header_cell_decides :
  (forall sd i row,
      is_header row = true ->
      classify sd i row
      = ([], Return (Some (mkSD (headers sd ++ [texts (th row)])
                             (sections sd) (data sd))))) /\
  (forall sd i rs, exists sd', classify_rows sd i rs = ([], Return (Some sd'))).
Proof.
  split.
  - intros sd i row H. unfold is_header in H. unfold classify.
    destruct (List.length (th row) =? 0); [discriminate|]. reflexivity.
  - intros sd i rs. revert sd i.
    induction rs as [|row rs IH]; intros sd i.
    + eexists. reflexivity.
    + cbn [classify_rows].
      destruct (classify_total sd i row) as [sd' ->].
      rewrite bind_pure. apply IH.
Qed.

Lemma header_cell_decides_witness :
  is_header titled_header = true /\
  classify start 0 titled_header
  = ([], Return (Some (mkSD (headers start ++ [texts (th titled_header)])
                         (sections start) (data start)))).
Proof.
  split; [reflexivity|].
  apply (proj1 header_cell_decides). reflexivity.
Defined.



(** ** The header rows and the column labels *)

(** C3, as stated, does not hold: two header rows were captured, yet the
    second one, of three cells, does not become the column labels of a
    frame with two value columns; the merged frame is returned as it is,
    its columns still labelled 1 and 2. *)
Lemma second_header_not_installed :
  headers (classified start 0 wide_header_rows)
  = [["Statement"; "12 Months Ended"]; ["2021"; "2020"; "2019"]] /\
  display_table (filing wide_header_rows) statement_url operations email
  = ([operations_url;
      "Requested the web content...";
      "Parsed the table...";
      "Stored the data and sections into 2 DataFrames...";
      "Converted string into digit...";
      "Merged 2 DataFrames...";
      "ERROR!!!We encountered an error in renaming indices and columns!"],
     Return (Some (mkDF [VStr "Net sales"]
                     (Some (VStr "Statement - 12 Months Ended"))
                     [VInt 1; VInt 2]
                     [[VFloat hundred; VFloat hundred]]))).
Proof. split; vm_compute; reflexivity. Qed.

(** C3, amended. Let the stages before the renaming succeed and leave a
    merged frame with at least one column.  With exactly two header rows of
    which the second has one cell per value column, [display_table]
    succeeds and that second row is the column labels; with exactly one
    header row that has one cell per column of the merged frame, it
    succeeds and the row less its first cell is the column labels; with
    three header rows or more it prints that the header cannot be framed
    and returns [None].  With one or two header rows whose header has not
    one cell per value column, it prints that the renaming failed and
    returns the merged frame, its first column made the index and named
    after the first header row, the value columns still labelled by their
    positions 1, 2, ... *)
Theorem header_rows_decide_columns (page : soup) (sd : statement_data) (merged : DataFrame) :
  reaches_rename page sd merged ->
  columns merged <> [] ->
  (forall h0 h1,
      headers sd = [h0; h1] ->
      List.length h1 = List.length (columns merged) - 1 ->
      exists df,
        scrape page = (printed_before_rename ++
                         ["Renamed indices and columns..."; "SUCCESS!"],
                       Return (Some df)) /\
        columns df = map VStr h1) /\
  (forall h0,
      headers sd = [h0] ->
      List.length (tl h0) = List.length (columns merged) - 1 ->
      exists df,
        scrape page = (printed_before_rename ++
                         ["Renamed indices and columns..."; "SUCCESS!"],
                       Return (Some df)) /\
        columns df = map VStr (tl h0)) /\
  (3 <= List.length (headers sd) ->
   scrape page = (printed_before_rename ++
                    ["We encountered an error in framing the header"],
                  Return None)) /\
  (forall h0 header,
      hd_error (headers sd) = Some h0 ->
      header_of (headers sd) = Some header ->
      List.length header <> List.length (columns merged) - 1 ->
      exists df,
        scrape page
        = (printed_before_rename ++
             ["ERROR!!!We encountered an error in renaming indices and columns!"],
           Return (Some df)) /\
        first_column_as_index merged df /\
        index_name df = Some (VStr (PyStr.join " - " h0)) /\
        columns df = tl (range (List.length (columns merged)))).
Proof.
  intros Hr Hcols.
  destruct (reaches_rename_inv page sd merged Hr) as (rs & Ht & Hsd & Hm & Hs).
  rewrite Hs. subst merged.
  rewrite merged_of_columns, length_range in *.
  assert (Hw : 1 <= merged_width rs).
  { destruct (merged_width rs); [|lia]. exfalso. apply Hcols. reflexivity. }
  rewrite (rename_merged sd rs Hw).
  repeat split.
  - intros h0 h1 Hh Hlen. rewrite Hh. cbn [header_of].
    rewrite Hlen, Nat.eqb_refl. eexists. split; reflexivity.
  - intros h0 Hh Hlen. rewrite Hh. cbn [header_of].
    rewrite Hlen, Nat.eqb_refl. eexists. split; reflexivity.
  - intros Hlen.
    destruct (headers sd) as [|h0 [|h1 [|h2 hs]]]; cbn [List.length] in Hlen;
      try lia. reflexivity.
  - intros h0 header Hh0 Hh Hlen.
    destruct (headers sd) as [|h l]; [discriminate Hh0|].
    cbn [hd_error] in Hh0. inversion Hh0; subst h. rewrite Hh.
    apply Nat.eqb_neq in Hlen. rewrite Hlen.
    eexists. split; [reflexivity|].
    repeat split; cbn [set_index_name labelled_of index columns rows merged_of].
    + rewrite map_map, <- body_rows_positioned, map_map.
      apply map_ext. intros ir. symmetry. apply first_body_cell, Hw.
    + rewrite map_map, <- body_rows_positioned, map_map. reflexivity.
Qed.

Lemma header_rows_decide_columns_witness :
  reaches_rename (table_page statement_rows)
    (classified start 0 statement_rows) (merged_of statement_rows) /\
  columns (merged_of statement_rows) <> [] /\
  exists df,
    scrape (table_page statement_rows)
    = (printed_before_rename ++ ["Renamed indices and columns..."; "SUCCESS!"],
       Return (Some df)) /\
    columns df = map VStr ["Sep. 25, 2021"; "Sep. 26, 2020"].
Proof.
  assert (R : reaches_rename (table_page statement_rows)
                (classified start 0 statement_rows) (merged_of statement_rows)).
  { exists statement_rows. do 3 eexists.
    repeat split; try (vm_compute; reflexivity); lazy; reflexivity. }
  assert (C : columns (merged_of statement_rows) <> []).
  { vm_compute. discriminate. }
  split; [exact R|]. split; [exact C|].
  apply (proj1 (header_rows_decide_columns _ _ _ R C)
           (th titled_header) ["Sep. 25, 2021"; "Sep. 26, 2020"]);
    reflexivity.
Defined.

(** With no header row the test on the count is not reached: the name of
    the index is taken from the first header row before it, that raises, and
    the frame is returned with its first column made the index. *)
Lemma no_header_row_keeps_frame :
  display_table (filing [data_row ["Net sales"; "$100"]])
    statement_url operations email
  = ([operations_url;
      "Requested the web content...";
      "Parsed the table...";
      "Stored the data and sections into 2 DataFrames...";
      "Converted string into digit...";
      "Merged 2 DataFrames...";
      "ERROR!!!We encountered an error in renaming indices and columns!"],
     Return (Some (mkDF [VStr "Net sales"] (Some (VInt 0)) [VInt 1]
                     [[VFloat hundred]]))).
Proof. vm_compute. reflexivity. Qed.


(** ** The order of the rows *)

Lemma scrape_success_table (page : soup) (df : DataFrame) :
  succeeded (scrape page) df -> exists rs, table page = Some rs.
Proof.
  intros [Hr _]. destruct (table page) as [rs|] eqn:Ht; [eauto|].
  unfold scrape in Hr. rewrite Ht in Hr. discriminate Hr.
Qed.

(** C1. The split of the body rows into a data bucket and a section
    bucket keyed by position, the merge of the two frames and the sort on the
    position give back the order of the document: whenever the stages before
    the renaming succeed, the merged frame holds the rows of the document
    that are not header rows, each under its position, in document order,
    however section rows and data rows alternate.  When [display_table]
    succeeds, the row labels of the frame it returns are the labels of those
    rows in that order. *)
Theorem row_order_restored :
  (forall page sd merged,
      reaches_rename page sd merged ->
      exists rs,
        table page = Some rs /\
        index merged
        = map (fun ir => VInt (Z.of_nat (fst ir))) (positioned_body rs) /\
        rows merged
        = map (fun ir => pad (List.length (columns merged)) (body_cells (snd ir)))
            (positioned_body rs)) /\
  (forall requests_get fs_url table_name email df,
      succeeded (display_table requests_get fs_url table_name email) df ->
      exists table_url page rs,
        requests_get table_url email = Some page /\
        table page = Some rs /\
        index df = map row_label (body_rows rs)).
Proof.
  split.
  - intros page sd merged Hr.
    destruct (reaches_rename_inv page sd merged Hr) as (rs & Ht & _ & -> & _).
    exists rs. rewrite merged_of_columns, length_range.
    repeat split. exact Ht.
  - intros requests_get fs_url table_name email df H.
    destruct (display_table_success _ _ _ _ _ H) as (out & u & page & _ & Hg & Hs).
    destruct (scrape_success_table _ _ Hs) as [rs Ht].
    destruct (scrape_success _ _ _ Ht Hs) as (_ & h0 & hs & header & _ & _ & _ & ->).
    exists u, page, rs. repeat split; assumption.
Qed.

Lemma row_order_restored_witness :
  (reaches_rename (table_page statement_rows)
     (classified start 0 statement_rows) (merged_of statement_rows) /\
   index (merged_of statement_rows) = [VInt 2; VInt 3; VInt 4] /\
   exists rs,
     table (table_page statement_rows) = Some rs /\
     index (merged_of statement_rows)
     = map (fun ir => VInt (Z.of_nat (fst ir))) (positioned_body rs) /\
     rows (merged_of statement_rows)
     = map (fun ir => pad (List.length (columns (merged_of statement_rows)))
                        (body_cells (snd ir)))
         (positioned_body rs)) /\
  (succeeded (display_table (filing statement_rows) statement_url operations email)
     statement_frame /\
   index statement_frame
   = [VStr "Net sales"; VStr "Operating expenses:";
      VStr "Other income/(expense), net"] /\
   exists table_url page rs,
     filing statement_rows table_url email = Some page /\
     table page = Some rs /\
     index statement_frame = map row_label (body_rows rs)).
Proof.
  split.
  - assert (R : reaches_rename (table_page statement_rows)
                  (classified start 0 statement_rows) (merged_of statement_rows)).
    { exists statement_rows. do 3 eexists.
      repeat split; try (vm_compute; reflexivity); lazy; reflexivity. }
    split; [exact R|]. split; [vm_compute; reflexivity|].
    exact (proj1 row_order_restored _ _ _ R).
  - assert (H : succeeded (display_table (filing statement_rows)
                             statement_url operations email) statement_frame).
    { split; vm_compute; reflexivity. }
    split; [exact H|]. split; [vm_compute; reflexivity|].
    exact (proj2 row_order_restored _ _ _ _ _ H).
Defined.

(** ** What the conversion leaves alone *)

Lemma Forall2_map_same {A B} (P : A -> B -> Prop) (f : A -> B) (l : list A) :
  (forall x, In x l -> P x (f x)) -> Forall2 P l (map f l).
Proof.
  induction l as [|x l IH]; intros H; cbn [map]; constructor.
  - apply H. left. reflexivity.
  - apply IH. intros y Hy. apply H. right. exact Hy.
Qed.

(** C9. The conversion stage rewrites cells of the frame of the data rows
    from the second column on and nothing else: whether it fails or not, the
    frame it returns or hands to the merge has the row labels, the column
    labels and the first cell of every row of the frame it was given, and
    the frame of the section rows is handed on as it is.  In the frame a
    successful call returns, the label of every body row is the stripped text
    of its first cell, and the cells of a section row are the stripped texts
    of its cells, a cell the row lacks being the filler. *)
Theorem conversion_touches_data_values_only :
  (forall sd df sections_df,
      exists df1,
        index df1 = index df /\
        columns df1 = columns df /\
        map (fun r => nth 0 r NaN) (rows df1) = map (fun r => nth 0 r NaN) (rows df) /\
        (convert sd df sections_df
         = (["ERROR!!!We encountered an error in converting string into digit!"],
            Return (Some df1)) \/
         convert sd df sections_df
         = ("Converted string into digit..." :: fst (merge sd df1 sections_df),
            snd (merge sd df1 sections_df)))) /\
  (forall requests_get fs_url table_name email df,
      succeeded (display_table requests_get fs_url table_name email) df ->
      exists table_url page rs,
        requests_get table_url email = Some page /\
        table page = Some rs /\
        index df = map row_label (body_rows rs) /\
        Forall2 (fun r cells =>
                   is_section r = true ->
                   cells = tl (pad (S (List.length (columns df)))
                                 (map VStr (texts (td r)))))
          (body_rows rs) (rows df)).
Proof.
  split.
  - intros sd df sdf. unfold convert.
    destruct (map_iloc_from_1_frame clean df) as (Hi & Hc & Hf).
    destruct (astype_float_from_1 (map_iloc_from_1 clean df)) as [df'|e] eqn:Ea.
    + destruct (astype_float_from_1_frame _ _ Ea) as (Hi' & Hc' & Hf').
      exists df'. repeat split; try congruence.
      right. apply bind_print.
    + exists (map_iloc_from_1 clean df). repeat split; try assumption.
      left. reflexivity.
  - intros requests_get fs_url table_name email df H.
    destruct (display_table_success _ _ _ _ _ H) as (out & u & page & _ & Hg & Hs).
    destruct (scrape_success_table _ _ Hs) as [rs Ht].
    destruct (scrape_success _ _ _ Ht Hs)
      as (Hw & h0 & hs & header & _ & _ & Hlen & ->).
    exists u, page, rs. repeat split; try assumption.
    cbn [final_of rows columns]. rewrite length_map, Hlen.
    replace (S (merged_width rs - 1)) with (merged_width rs) by lia.
    apply Forall2_map_same. intros r _ Hsec. unfold body_cells.
    destruct (kind_cases r) as [(_ & E & _) | [(_ & _ & ->) | (_ & E & _)]];
      [congruence | reflexivity | congruence].
Qed.

Lemma conversion_touches_data_values_only_witness :
  succeeded (display_table (filing statement_rows) statement_url operations email)
    statement_frame /\
  rows statement_frame
  = [[VFloat (S754_finite false 6284688205283328 (-34));
      VFloat (S754_finite false 4716131789045760 (-34))];
     [VStr ""; VStr ""];
     [VFloat (S754_finite true 4538783999459328 (-44)); NaN]] /\
  exists table_url page rs,
    filing statement_rows table_url email = Some page /\
    table page = Some rs /\
    index statement_frame = map row_label (body_rows rs) /\
    Forall2 (fun r cells =>
               is_section r = true ->
               cells = tl (pad (S (List.length (columns statement_frame)))
                             (map VStr (texts (td r)))))
      (body_rows rs) (rows statement_frame).
Proof.
  assert (H : succeeded (display_table (filing statement_rows)
                           statement_url operations email) statement_frame).
  { split; vm_compute; reflexivity. }
  split; [exact H|]. split; [vm_compute; reflexivity|].
  exact (proj2 conversion_touches_data_values_only _ _ _ _ _ H).
Defined.


(** ** What a failed stage returns *)

(** C5, as stated, does not hold: a data cell that is no number makes the
    conversion fail, and [display_table] returns the frame of the data
    rows, cleaned but not converted; and a table name that is not in the
    index ends in a plain [None] after two caught exceptions. *)
Lemma half_processed_frame_returned :
  display_table (filing unparsable_rows) statement_url operations email
  = ([operations_url;
      "Requested the web content...";
      "Parsed the table...";
      "Stored the data and sections into 2 DataFrames...";
      "ERROR!!!We encountered an error in converting string into digit!"],
     Return (Some (mkDF [VInt 1; VInt 2] None [VInt 0; VInt 1]
                     [[VStr "Net sales"; VStr "365817"];
                      [VStr "Shares outstanding"; VStr "n/a"]]))) /\
  display_table (filing unparsable_rows) statement_url "BALANCE SHEETS" email
  = (["ERROR! Please double check the input table name!";
      "None";
      "ERROR!!!We encountered an error when requesting the web content!"],
     Return None).
Proof. split; vm_compute; reflexivity. Qed.

Lemma merged_of_range_nil (rs : list tr) :
  columns (merged_of rs) = [] -> merged_width rs = 0.
Proof.
  cbn [merged_of columns]. destruct (merged_width rs); [reflexivity|].
  discriminate.
Qed.

Lemma labelled_of_merged (rs : list tr) :
  1 <= merged_width rs -> first_column_as_index (merged_of rs) (labelled_of rs).
Proof.
  intros Hw. unfold first_column_as_index.
  cbn [labelled_of merged_of index columns rows].
  rewrite !map_map, <- body_rows_positioned, !map_map. repeat split.
  apply map_ext. intros ir. symmetry. apply first_body_cell, Hw.
Qed.

(** C5, amended. A failed stage does not always withhold the table.
    - When the request for the table page raises, [display_table] prints
      that the request failed and returns [None].
    - The classification of the rows does not fail.
    - When one of the two frames cannot be built, it prints that the
      storing failed and returns [None].
    - When a data cell is no float, it prints that the conversion failed
      and returns the frame of the data rows, cleaned but not converted.
    - The merge of the two frames does not fail.
    - When the merged frame has no column, or no header row was captured,
      or the header has not one cell per value column, it prints that the
      renaming failed and returns the merged frame, as it is or with its
      first column made the index. *)
Theorem failures_by_stage :
  (forall requests_get fs_url table_name email out table_url e,
      get_table_url requests_get fs_url email table_name = (out, Return table_url) ->
      fetch_value requests_get table_url email = Raise e ->
      display_table requests_get fs_url table_name email
      = (out ++ [str_of_url table_url;
                 "ERROR!!!We encountered an error when requesting the web content!"],
         Return None)) /\
  (forall rs, exists sd, classify_rows start 0 rs = ([], Return (Some sd))) /\
  (forall page rs sd,
      table page = Some rs ->
      classify_rows start 0 rs = ([], Return (Some sd)) ->
      (exists e, frame_of (data sd) = Raise e) \/
      (exists e, frame_of (sections sd) = Raise e) ->
      scrape page
      = (["Parsed the table...";
          "ERROR!!!We encountered an error in storing the data and sections into 2 DataFrames!"],
         Return None)) /\
  (forall page rs sd df sections_df e,
      table page = Some rs ->
      classify_rows start 0 rs = ([], Return (Some sd)) ->
      frame_of (data sd) = Return df ->
      frame_of (sections sd) = Return sections_df ->
      astype_float_from_1 (map_iloc_from_1 clean df) = Raise e ->
      scrape page
      = (["Parsed the table...";
          "Stored the data and sections into 2 DataFrames...";
          "ERROR!!!We encountered an error in converting string into digit!"],
         Return (Some (map_iloc_from_1 clean df)))) /\
  (forall rs sd df sections_df df',
      classify_rows start 0 rs = ([], Return (Some sd)) ->
      frame_of (data sd) = Return df ->
      frame_of (sections sd) = Return sections_df ->
      astype_float_from_1 (map_iloc_from_1 clean df) = Return df' ->
      exists merged, sort_index (concat df' sections_df) = Return merged) /\
  (forall page sd merged,
      reaches_rename page sd merged ->
      columns merged = [] \/
      headers sd = [] \/
      (exists header,
          header_of (headers sd) = Some header /\
          List.length header <> List.length (columns merged) - 1) ->
      exists df,
        scrape page
        = (printed_before_rename ++
             ["ERROR!!!We encountered an error in renaming indices and columns!"],
           Return (Some df)) /\
        (df = merged \/ first_column_as_index merged df)).
Proof.
  repeat apply conj.
  - intros requests_get fs_url table_name email out u e Hg Hf.
    rewrite display_table_eq, Hg, Hf. reflexivity.
  - intros rs. eexists. apply classify_rows_start.
  - intros page rs sd Ht Hc Hfail.
    rewrite classify_rows_start in Hc. inversion Hc; subst sd; clear Hc.
    rewrite (scrape_eq page rs Ht). cbv zeta.
    rewrite !frame_of_eq in Hfail.
    destruct (rectangular (data _)), (rectangular (sections _));
      cbn [andb]; try reflexivity.
    destruct Hfail as [[e He] | [e He]]; discriminate He.
  - intros page rs sd df sdf e Ht Hc Hd Hs Ha.
    rewrite classify_rows_start in Hc. inversion Hc; subst sd; clear Hc.
    rewrite (scrape_eq page rs Ht). cbv zeta.
    destruct (frame_of_Return _ _ Hd) as [-> ->].
    destruct (frame_of_Return _ _ Hs) as [-> _]. cbn [andb].
    fold (data_frame rs) in Ha |- *. fold (cleaned_frame rs) in Ha |- *.
    rewrite Ha. reflexivity.
  - intros rs sd df sdf df' Hc Hd Hs Ha.
    rewrite classify_rows_start in Hc. inversion Hc; subst sd; clear Hc.
    exists (merged_of rs). eapply merged_frame; eassumption.
  - intros page sd merged Hr Hcase.
    destruct (reaches_rename_inv page sd merged Hr) as (rs & Ht & Hsd & -> & ->).
    destruct (merged_width rs) as [|w] eqn:Hw.
    { rewrite rename_no_column by exact Hw.
      eexists. split; [reflexivity|]. left. reflexivity. }
    assert (Hw1 : 1 <= merged_width rs) by lia.
    rewrite (rename_merged sd rs Hw1).
    destruct Hcase as [Hc | [Hh | (header & Hh & Hlen)]].
    + apply merged_of_range_nil in Hc. lia.
    + rewrite Hh. eexists. split; [reflexivity|].
      right. apply labelled_of_merged, Hw1.
    + rewrite Hh. rewrite merged_of_columns, length_range in Hlen.
      apply Nat.eqb_neq in Hlen. rewrite Hlen.
      destruct (headers sd) as [|h0 hs]; [discriminate Hh|].
      eexists. split; [reflexivity|].
      right. apply (labelled_of_merged rs Hw1).
Qed.

Lemma failures_by_stage_witness :
  (get_table_url (filing unparsable_rows) statement_url email "BALANCE SHEETS"
   = (["ERROR! Please double check the input table name!"], Return None) /\
   fetch_value (filing unparsable_rows) None email = Raise RequestException /\
   display_table (filing unparsable_rows) statement_url "BALANCE SHEETS" email
   = (["ERROR! Please double check the input table name!"] ++
        [str_of_url None;
         "ERROR!!!We encountered an error when requesting the web content!"],
      Return None)) /\
  (astype_float_from_1 (map_iloc_from_1 clean (data_frame unparsable_rows))
   = Raise ValueError /\
   scrape (table_page unparsable_rows)
   = (["Parsed the table...";
       "Stored the data and sections into 2 DataFrames...";
       "ERROR!!!We encountered an error in converting string into digit!"],
      Return (Some (map_iloc_from_1 clean (data_frame unparsable_rows))))).
Proof.
  split.
  - assert (Hg : get_table_url (filing unparsable_rows) statement_url email
                   "BALANCE SHEETS"
                 = (["ERROR! Please double check the input table name!"],
                    Return None)) by (vm_compute; reflexivity).
    assert (Hf : fetch_value (filing unparsable_rows) None email
                 = Raise RequestException) by reflexivity.
    split; [exact Hg|]. split; [exact Hf|].
    exact (proj1 failures_by_stage _ _ _ _ _ _ _ Hg Hf).
  - assert (Ha : astype_float_from_1
                   (map_iloc_from_1 clean (data_frame unparsable_rows))
                 = Raise ValueError) by (vm_compute; reflexivity).
    split; [exact Ha|].
    refine (proj1 (proj2 (proj2 (proj2 failures_by_stage)))
              (table_page unparsable_rows) unparsable_rows
              (classified start 0 unparsable_rows) _ _ _ _ _ _ _ Ha).
    + reflexivity.
    + vm_compute; reflexivity.
    + vm_compute; reflexivity.
    + vm_compute; reflexivity.
Defined.


(** ** The lookup of a table url *)

(** C7. On a table index the resolver returned, [get_table_url] returns
    the url of the first entry that carries the name, in the order of the
    index: the one match when there is one only.  When no entry carries the
    name it prints that the name is to be checked and returns [None], and
    raises nothing.  A failure of the resolver, a failed request among them,
    is another outcome: the exception is raised to the caller. *)
Theorem lookup_first_match
  (requests_get : string -> string -> option soup)
  (fs_url email table_name : string) :
  (forall out info,
      get_table_info requests_get fs_url email = (out, Return info) ->
      (forall before u after,
          entries info = before ++ (VStr table_name, u) :: after ->
          (forall e, In e before -> fst e <> VStr table_name) ->
          get_table_url requests_get fs_url email table_name
          = (out, Return (Some u))) /\
      ((forall e, In e (entries info) -> fst e <> VStr table_name) ->
       get_table_url requests_get fs_url email table_name
       = (out ++ ["ERROR! Please double check the input table name!"],
          Return None))) /\
  (forall out e,
      get_table_info requests_get fs_url email = (out, Raise e) ->
      get_table_url requests_get fs_url email table_name = (out, Raise e)).
Proof.
  split.
  - intros out info Hi.
    destruct (get_table_info_shape _ _ _ _ _ Hi) as [-> [pairs ->]].
    unfold get_table_url. rewrite Hi, bind_pure. unfold lift.
    rewrite lookup_table_index. split.
    + intros before u after He Hb.
      rewrite He, (find_first _ before after (VStr table_name, u)).
      * reflexivity.
      * intros y Hy. apply label_eqb_VStr_false, Hb, Hy.
      * apply label_eqb_VStr. reflexivity.
    + intros Hn. rewrite find_none; [reflexivity|].
      intros y Hy. apply label_eqb_VStr_false, Hn, Hy.
  - intros out e Hi. unfold get_table_url. rewrite Hi. reflexivity.
Qed.

Lemma lookup_first_match_witness :
  get_table_info twin_filing statement_url email
  = ([], Return (table_index
                   [("Cover Page",
                     "https://www.sec.gov/Archives/edgar/data/320193/000032019321000105/R1.htm");
                    (operations, operations_url);
                    (operations,
                     "https://www.sec.gov/Archives/edgar/data/320193/000032019321000105/R5.htm")])) /\
  get_table_url twin_filing statement_url email operations
  = ([], Return (Some (VStr operations_url))) /\
  get_table_url twin_filing statement_url email "BALANCE SHEETS"
  = ([] ++ ["ERROR! Please double check the input table name!"], Return None) /\
  get_table_url (serve []) statement_url email operations
  = ([], Raise RequestException).
Proof.
  assert (Hi : get_table_info twin_filing statement_url email
               = ([], Return (table_index
                   [("Cover Page",
                     "https://www.sec.gov/Archives/edgar/data/320193/000032019321000105/R1.htm");
                    (operations, operations_url);
                    (operations,
                     "https://www.sec.gov/Archives/edgar/data/320193/000032019321000105/R5.htm")])))
    by (vm_compute; reflexivity).
  split; [exact Hi|]. split; [|split].
  - apply (proj1 (proj1 (lookup_first_match twin_filing statement_url email operations)
                    _ _ Hi)
             [(VStr "Cover Page",
               VStr "https://www.sec.gov/Archives/edgar/data/320193/000032019321000105/R1.htm")]
             (VStr operations_url)
             [(VStr operations,
               VStr "https://www.sec.gov/Archives/edgar/data/320193/000032019321000105/R5.htm")]).
    + reflexivity.
    + intros e [<-|[]]. cbn [fst]. vm_compute. discriminate.
  - apply (proj2 (proj1 (lookup_first_match twin_filing statement_url email
                           "BALANCE SHEETS") _ _ Hi)).
    intros e He. vm_compute in He.
    destruct He as [<-|[<-|[<-|[]]]]; vm_compute; discriminate.
  - apply (proj2 (lookup_first_match (serve []) statement_url email operations)).
    vm_compute. reflexivity.
Defined.


(** ** The entries of the table index *)

Lemma length_all_named (rs : list report) (l : list (string * string)) :
  all_named rs = Some l -> List.length l = List.length rs.
Proof.
  revert l. induction rs as [|r rs IH]; cbn [all_named]; intros l H.
  - inversion H. reflexivity.
  - destruct (named r); [|discriminate].
    destruct (all_named rs) as [ps|]; [|discriminate].
    inversion H. cbn [List.length]. f_equal. apply IH. reflexivity.
Qed.

Lemma length_all_but_last {A} (l : list A) :
  List.length (all_but_last l) = List.length l - 1.
Proof.
  unfold all_but_last. induction l as [|x [|y l] IH]; try reflexivity.
  change (removelast (x :: y :: l)) with (x :: removelast (y :: l)).
  cbn [List.length] in *. rewrite IH. lia.
Qed.

(** With two entries or more, each with a name and a filename, the
    resolver returns the entries but the last, one pair each, in the order
    of the document. *)
Lemma index_of_two_or_more
  (requests_get : string -> string -> option soup)
  (url email lst : string) (page : soup) (reports : list report)
  (l : list (string * string)) :
  last_segment url = Return lst ->
  requests_get (sibling_url url lst "FilingSummary.xml") email = Some page ->
  myreports page = Some reports ->
  all_named (all_but_last reports) = Some l ->
  2 <= List.length reports ->
  get_table_info requests_get url email
  = ([], Return (table_index (resolved url lst l))) /\
  List.length (entries (table_index (resolved url lst l)))
  = List.length reports - 1 /\
  map fst (entries (table_index (resolved url lst l)))
  = map (fun p => VStr (fst p)) l.
Proof.
  intros Hl Hg Hm Hn Hlen.
  pose proof (length_all_named _ _ Hn) as Hlen'.
  rewrite length_all_but_last in Hlen'.
  rewrite get_table_info_eq, Hl, Hg, Hm, Hn.
  rewrite entries_table_index. unfold resolved. rewrite !map_map, length_map.
  destruct l as [|p l]; [cbn [List.length] in Hlen'; lia|].
  repeat split. exact Hlen'.
Qed.

(** C6 at a filing summary of one entry: the one entry is dropped, the
    frame of no record has no column, and reading its column of names is a
    [KeyError]; no empty index is returned. *)
Theorem single_entry_index_raises
  (requests_get : string -> string -> option soup)
  (url email lst : string) (page : soup) (r : report) :
  last_segment url = Return lst ->
  requests_get (sibling_url url lst "FilingSummary.xml") email = Some page ->
  myreports page = Some [r] ->
  get_table_info requests_get url email = ([], Raise KeyError).
Proof.
  intros Hl Hg Hm. rewrite get_table_info_eq, Hl, Hg, Hm. reflexivity.
Qed.

Lemma single_entry_index_raises_witness :
  last_segment statement_url = Return "/R2.htm" /\
  lonely_filing (sibling_url statement_url "/R2.htm" "FilingSummary.xml") email
  = Some (index_page one_report) /\
  get_table_info lonely_filing statement_url email = ([], Raise KeyError).
Proof.
  assert (Hl : last_segment statement_url = Return "/R2.htm")
    by (vm_compute; reflexivity).
  assert (Hg : lonely_filing
                 (sibling_url statement_url "/R2.htm" "FilingSummary.xml") email
               = Some (index_page one_report))
    by (vm_compute; reflexivity).
  split; [exact Hl|]. split; [exact Hg|].
  exact (single_entry_index_raises lonely_filing statement_url email "/R2.htm"
           (index_page one_report) (mkReport (Some "All Reports") (Some "Rall.htm"))
           Hl Hg eq_refl).
Defined.

(** ** The urls of the summary and of the tables *)

(** C8 at a statement url in which the text of the last segment occurs
    twice: both occurrences are replaced, in the url of the filing summary
    and in the url of each table, so that more than the last segment
    changes. *)
Theorem repeated_segment_replaced_twice :
  last_segment repeated_url = Return "/R2" /\
  sibling_url repeated_url "/R2" "FilingSummary.xml"
  = "https://www.sec.gov/Archives/edgar/data/320193/FilingSummary.xml/FilingSummary.xml" /\
  get_table_info repeated_filing repeated_url email
  = ([], Return (table_index
                   [(operations,
                     "https://www.sec.gov/Archives/edgar/data/320193/R4.htm/R4.htm")])).
Proof. repeat split; vm_compute; reflexivity. Qed.

(** For a statement url [pre/seg] whose last segment is not empty, holds no
    slash and occurs, with its slash, nowhere else in the url, the summary
    url is [pre/FilingSummary.xml] and the url of a table is [pre/filename]. *)
Lemma urls_of_plain_statement_url (pre seg : string) :
  seg <> EmptyString -> slash_free seg = true ->
  occurs_last_only (String slash seg) pre ->
  exists lst,
    last_segment (pre ++ String slash seg)%string = Return lst /\
    forall filename,
      sibling_url (pre ++ String slash seg)%string lst filename
      = (pre ++ String slash filename)%string.
Proof.
  intros Hne Hsf Hocc. exists (String slash seg). split.
  - apply last_segment_of; assumption.
  - intros filename. apply sibling_url_of, Hocc.
Qed.


(** * Further properties *)

Import Texts MoreExamples.

(** ** The conversion of one cell *)

Section CellConversion.

Local Open Scope string_scope.

Lemma re_sub_class_append (cls : ascii -> bool) (repl a b : string) :
  PyStr.re_sub_class cls repl (a ++ b)
  = PyStr.re_sub_class cls repl a ++ PyStr.re_sub_class cls repl b.
Proof.
  induction a as [|c a IH]; [reflexivity|].
  cbn [append PyStr.re_sub_class]. rewrite IH.
  destruct (cls c); [|reflexivity]. symmetry. apply append_assoc.
Qed.

Lemma cleaned_text_append (a b : string) :
  cleaned_text (a ++ b) = cleaned_text a ++ cleaned_text b.
Proof. unfold cleaned_text. rewrite !re_sub_class_append. reflexivity. Qed.

Lemma normalize_eq (s : string) :
  normalize s
  = PyFloat.of_string (match cleaned_text s with
                       | EmptyString => "NaN"
                       | t => t
                       end).
Proof.
  unfold normalize, clean, replace_class, replace_empty, to_float.
  fold (cleaned_text s). destruct (cleaned_text s); reflexivity.
Qed.

Lemma normalize_marks (a b : string) :
  normalize (a ++ String "$" b) = normalize (a ++ b) /\
  normalize (a ++ String "," b) = normalize (a ++ b) /\
  normalize (a ++ String ")" b) = normalize (a ++ b) /\
  normalize (a ++ String "(" b) = normalize (a ++ String "-" b).
Proof.
  rewrite !normalize_eq, !cleaned_text_append.
  repeat split; reflexivity.
Qed.

Lemma cleaned_only_marks (s : string) :
  only_marks s = true -> cleaned_text s = "".
Proof.
  induction s as [|c s IH]; [reflexivity|]. intros H.
  cbn [only_marks] in H. apply andb_prop in H. destruct H as [Hc Hs].
  change (String c s) with (String c "" ++ s).
  rewrite cleaned_text_append, (IH Hs).
  unfold cleaned_text. cbn [PyStr.re_sub_class]. rewrite Hc. reflexivity.
Qed.

Lemma clean_text (s : string) :
  clean (VStr s) = VStr (match cleaned_text s with
                         | EmptyString => "NaN"
                         | t => t
                         end).
Proof.
  unfold clean, replace_class, replace_empty. fold (cleaned_text s).
  destruct (cleaned_text s); reflexivity.
Qed.

Lemma clean_one_more_mark (v1 v2 : value) :
  one_more_mark v1 v2 -> clean v2 = clean v1.
Proof.
  intros [-> | (a & b & [[-> [-> | [-> | ->]]] | [-> ->]])]; try reflexivity;
    rewrite !clean_text, !cleaned_text_append; reflexivity.
Qed.

Lemma cleaned_frames_equal (df1 df2 : DataFrame) :
  cellwise (fun v1 v2 => clean v2 = clean v1) df1 df2 ->
  map_iloc_from_1 clean df2 = map_iloc_from_1 clean df1.
Proof.
  intros (Hi & Hn & Hc & Hr). unfold map_iloc_from_1.
  rewrite Hi, Hn, Hc. f_equal.
  induction Hr as [|r r' rs rs' [Hh Ht] Hrs IH]; [reflexivity|].
  cbn [map]. rewrite IH. f_equal.
  destruct r as [|c cs], r' as [|c' cs']; cbn [hd_error tl] in *;
    try discriminate Hh; [reflexivity|].
  inversion Hh. f_equal.
  clear - Ht. induction Ht as [|v v' l l' Hv Hl IH]; [reflexivity|].
  cbn [map]. rewrite Hv, IH. reflexivity.
Qed.

(** A dollar sign, a comma and a closing parenthesis count for nothing
    wherever they stand in a data cell, and an opening parenthesis counts
    as a minus sign: when the cells of a frame get one more of them each,
    past the first cell of the rows, the conversion of [display_table]
    prints the same, hands the same frame on or returns the same one. *)
Theorem marks_are_ignored (sd : statement_data) (df1 df2 sections_df : DataFrame) :
  cellwise one_more_mark df1 df2 ->
  convert sd df2 sections_df = convert sd df1 sections_df.
Proof.
  intros H. unfold convert.
  rewrite (cleaned_frames_equal df1 df2); [reflexivity|].
  eapply cellwise_weaken; [|exact H]. apply clean_one_more_mark.
Qed.

Lemma marks_are_ignored_witness :
  cellwise one_more_mark
    (mkDF [VInt 1] None (range 3) [[VStr "Net sales"; VStr "100"; VStr "-56.0"]])
    (mkDF [VInt 1] None (range 3) [[VStr "Net sales"; VStr "$100"; VStr "(56.0"]]) /\
  convert Reading.start
    (mkDF [VInt 1] None (range 3) [[VStr "Net sales"; VStr "$100"; VStr "(56.0"]])
    (mkDF [] None [] [])
  = convert Reading.start
      (mkDF [VInt 1] None (range 3) [[VStr "Net sales"; VStr "100"; VStr "-56.0"]])
      (mkDF [] None [] []).
Proof.
  assert (H : cellwise one_more_mark
                (mkDF [VInt 1] None (range 3)
                   [[VStr "Net sales"; VStr "100"; VStr "-56.0"]])
                (mkDF [VInt 1] None (range 3)
                   [[VStr "Net sales"; VStr "$100"; VStr "(56.0"]])).
  { repeat split. constructor; [|constructor]. split; [reflexivity|].
    cbn [tl]. constructor; [|constructor; [|constructor]].
    - right. exists "", "100". left. split; [reflexivity|]. left. reflexivity.
    - right. exists "", "56.0". right. split; reflexivity. }
  split; [exact H|].
  apply (marks_are_ignored Reading.start _ _ (mkDF [] None [] []) H).
Defined.

(** A data cell made of dollar signs, commas and closing parentheses
    only, the empty cell among them, is read as the float NaN and does not
    make the conversion of [display_table] fail.  Either the conversion
    goes through, and every such cell is the float NaN in the frame it
    hands on; or it fails on another cell, and every such cell is the text
    NaN in the frame it returns. *)
Theorem marks_alone_are_missing (t : string) :
  only_marks t = true ->
  forall (sd : statement_data) (df sections_df : DataFrame),
    (exists df',
        converts_to sd df sections_df df' /\
        cellwise (fun v v' => v = VStr t -> v' = NaN) df df') \/
    (exists df',
        conversion_fails sd df sections_df df' /\
        cellwise (fun v v' => v = VStr t -> v' = VStr "NaN") df df' /\
        Exists (fun r =>
                  Exists (fun v => to_float (clean v) = None /\ v <> VStr t) (tl r))
          (rows df)).
Proof.
  intros Ht sd df sections_df.
  assert (Hc : clean (VStr t) = VStr "NaN").
  { rewrite clean_text, (cleaned_only_marks t Ht). reflexivity. }
  destruct (convert_outcomes sd df sections_df)
    as [(df' & Hok & Hcells) | [Hf Hcell]].
  - left. exists df'. split; [exact Hok|].
    eapply cellwise_weaken; [|exact Hcells]. cbn beta.
    intros v v' (f & Hv & ->) ->. rewrite Hc in Hv.
    vm_compute in Hv. inversion Hv. reflexivity.
  - right. exists (map_iloc_from_1 clean df). split; [exact Hf|]. split.
    + eapply cellwise_weaken; [|apply cellwise_clean]. cbn beta.
      intros v v' -> ->. exact Hc.
    + eapply Exists_impl; [|exact Hcell]. cbn beta. intros r Hr.
      eapply Exists_impl; [|exact Hr]. cbn beta. intros v Hv.
      split; [exact Hv|]. intros ->. rewrite Hc in Hv.
      vm_compute in Hv. discriminate Hv.
Qed.

Lemma marks_alone_are_missing_witness :
  only_marks "$)" = true /\
  ((exists df',
       converts_to Reading.start
         (mkDF [VInt 1] None (range 2) [[VStr "Net sales"; VStr "$)"]])
         (mkDF [] None [] []) df' /\
       cellwise (fun v v' => v = VStr "$)" -> v' = NaN)
         (mkDF [VInt 1] None (range 2) [[VStr "Net sales"; VStr "$)"]]) df') \/
   (exists df',
       conversion_fails Reading.start
         (mkDF [VInt 1] None (range 2) [[VStr "Net sales"; VStr "$)"]])
         (mkDF [] None [] []) df' /\
       cellwise (fun v v' => v = VStr "$)" -> v' = VStr "NaN")
         (mkDF [VInt 1] None (range 2) [[VStr "Net sales"; VStr "$)"]]) df' /\
       Exists (fun r =>
                 Exists (fun v => to_float (clean v) = None /\ v <> VStr "$)")
                   (tl r))
         (rows (mkDF [VInt 1] None (range 2) [[VStr "Net sales"; VStr "$)"]])))).
Proof.
  assert (H : only_marks "$)" = true) by reflexivity.
  split; [exact H|].
  apply (marks_alone_are_missing "$)" H Reading.start
           (mkDF [VInt 1] None (range 2) [[VStr "Net sales"; VStr "$)"]])
           (mkDF [] None [] [])).
Defined.

Lemma binary_round_aux_opp (m e : Z) (l : location) :
  binary_round_aux PyFloat.prec PyFloat.emax true m e l
  = SFopp (binary_round_aux PyFloat.prec PyFloat.emax false m e l).
Proof.
  unfold binary_round_aux.
  destruct (shr_fexp _ _ m e l) as [mrs' e'].
  destruct (shr_fexp _ _ _ e' loc_Exact) as [mrs'' e''].
  destruct (shr_m mrs''); try reflexivity.
  destruct (Z.leb e'' _); reflexivity.
Qed.

Lemma binary_round_opp (m : positive) (e : Z) :
  binary_round PyFloat.prec PyFloat.emax true m e
  = SFopp (binary_round PyFloat.prec PyFloat.emax false m e).
Proof.
  unfold binary_round. destruct (shl_align _ _ _) as [mz ez].
  apply binary_round_aux_opp.
Qed.

Lemma of_decimal_opp (m k : Z) :
  PyFloat.of_decimal true m k = SFopp (PyFloat.of_decimal false m k).
Proof.
  unfold PyFloat.of_decimal. destruct m as [|p|p]; try reflexivity.
  destruct k as [|k|k].
  - destruct (Z.pos p * 10 ^ 0)%Z; try reflexivity. apply binary_round_opp.
  - destruct (Z.pos p * 10 ^ Z.pos k)%Z; try reflexivity. apply binary_round_opp.
  - destruct (10 ^ (- Z.neg k))%Z as [|d|d]; try reflexivity.
    unfold PyFloat.of_ratio.
    destruct (Z.div_eucl _ _) as [q r].
    destruct (2 * q + _)%Z; try reflexivity. apply binary_round_opp.
Qed.

Lemma digit_code (c : ascii) (d : Z) :
  PyFloat.digit_of c = Some d -> 48 <= PyStr.code c <= 57.
Proof.
  unfold PyFloat.digit_of.
  destruct (48 <=? PyStr.code c)%nat eqn:E1; [|discriminate].
  destruct (PyStr.code c <=? 57)%nat eqn:E2; [|discriminate].
  intros _. apply Nat.leb_le in E1. apply Nat.leb_le in E2. lia.
Qed.

Lemma digit_is_no_space (c : ascii) (d : Z) :
  PyFloat.digit_of c = Some d -> PyFloat.is_space c = false.
Proof.
  intros H. apply digit_code in H. unfold PyFloat.is_space.
  replace (PyStr.code c <=? 13)%nat with false
    by (symmetry; apply Nat.leb_gt; lia).
  replace (PyStr.code c =? 32)%nat with false
    by (symmetry; apply Nat.eqb_neq; lia).
  rewrite andb_false_r. reflexivity.
Qed.

Lemma rstrip_cons (c : ascii) (r : string) :
  PyFloat.is_space c = false ->
  PyFloat.rstrip (String c r) = String c (PyFloat.rstrip r).
Proof.
  intros H. cbn [PyFloat.rstrip]. rewrite H.
  destruct (PyFloat.rstrip r); reflexivity.
Qed.

Lemma strip_cons (c : ascii) (r : string) :
  PyFloat.is_space c = false ->
  PyFloat.strip (String c r) = String c (PyFloat.rstrip r).
Proof.
  intros H. unfold PyFloat.strip. cbn [PyFloat.lstrip]. rewrite H.
  apply rstrip_cons, H.
Qed.

Lemma to_ascii_cons (c : ascii) (r : string) :
  PyStr.code c < 127 ->
  PyFloat.to_ascii (String c r) = String c (PyFloat.to_ascii r).
Proof.
  intros H. unfold PyFloat.to_ascii. cbn [PyFloat.is_ascii PyFloat.transform].
  replace (PyStr.code c <? 128)%nat with true
    by (symmetry; apply Nat.ltb_lt; lia).
  replace (PyStr.code c <? 127)%nat with true
    by (symmetry; apply Nat.ltb_lt; lia).
  cbn [andb]. destruct (PyFloat.is_ascii r); reflexivity.
Qed.

(** The float read behind a minus sign is the opposite of the float read
    without it, for a text that starts with a digit. *)
Lemma of_string_minus (c : ascii) (r : string) (d : Z) :
  PyFloat.digit_of c = Some d ->
  PyFloat.of_string (String "-" (String c r))
  = option_map SFopp (PyFloat.of_string (String c r)).
Proof.
  intros Hd. pose proof (digit_is_no_space c d Hd) as Hs.
  pose proof (digit_code c d Hd) as Hcode.
  unfold PyFloat.of_string.
  rewrite (to_ascii_cons "-" (String c r)) by (vm_compute; lia).
  rewrite (to_ascii_cons c r) by lia.
  rewrite (strip_cons "-" (String c (PyFloat.to_ascii r))) by reflexivity.
  rewrite (rstrip_cons c _ Hs), (strip_cons c _ Hs).
  set (t := PyFloat.rstrip (PyFloat.to_ascii r)).
  assert (Hsign : PyFloat.scan_sign (String c t) = (false, String c t)).
  { unfold PyFloat.scan_sign.
    destruct (Ascii.eqb c "-") eqn:E1.
    { apply Ascii.eqb_eq in E1. subst c. discriminate Hd. }
    destruct (Ascii.eqb c "+") eqn:E2.
    { apply Ascii.eqb_eq in E2. subst c. discriminate Hd. }
    destruct c as [[] [] [] [] [] [] [] []]; try reflexivity;
      discriminate. }
  rewrite Hsign. cbn [PyFloat.scan_sign].
  destruct (_ || _)%bool; [reflexivity|].
  destruct (String.eqb _ "nan"); [reflexivity|].
  destruct (PyFloat.scan_number _) as [[m k]|]; [|reflexivity].
  cbn [option_map]. f_equal. apply of_decimal_opp.
Qed.

Lemma normalize_parentheses (c : ascii) (r : string) (d : Z) :
  PyFloat.digit_of c = Some d ->
  normalize (String "(" (String c r ++ ")"))
  = option_map SFopp (normalize (String c r)).
Proof.
  intros Hd. rewrite !normalize_eq.
  change (String "(" (String c r ++ ")")) with ("(" ++ String c "" ++ r ++ ")").
  change (String c r) with (String c "" ++ r).
  rewrite !cleaned_text_append.
  assert (Hc : cleaned_text (String c "") = String c "").
  { unfold cleaned_text. cbn [PyStr.re_sub_class].
    unfold PyFloat.digit_of in Hd.
    destruct c as [[] [] [] [] [] [] [] []]; try reflexivity;
      vm_compute in Hd; discriminate Hd. }
  rewrite Hc.
  change (cleaned_text "(") with "-". change (cleaned_text ")") with "".
  rewrite append_nil_r. cbn [append].
  apply (of_string_minus c _ d Hd).
Qed.

(** An amount between parentheses is read as the opposite of the amount.
    A text that starts with a digit has one reading, a float or none, with
    which the conversion of [display_table] goes in every frame of data
    rows.  Either the conversion goes through, and in the frame it hands
    on every cell that was the text is that float, and every cell that was
    the text between parentheses is its opposite; or it fails on a cell
    whose cleaned text is no float, and when that cell is the text, between
    parentheses or not, the text has no reading. *)
Theorem parentheses_negate (c : ascii) (r : string) (d : Z) :
  PyFloat.digit_of c = Some d ->
  exists o : option PyFloat.float,
    forall (sd : statement_data) (df sections_df : DataFrame),
      (exists df',
          converts_to sd df sections_df df' /\
          cellwise (fun v v' =>
                      (v = VStr (String c r) ->
                       exists f, o = Some f /\ v' = VFloat f) /\
                      (v = VStr (String "(" (String c r ++ ")")) ->
                       exists f, o = Some f /\ v' = VFloat (SFopp f)))
            df df') \/
      (exists df',
          conversion_fails sd df sections_df df' /\
          Exists (fun row =>
                    Exists (fun v =>
                              to_float (clean v) = None /\
                              (v = VStr (String c r) \/
                               v = VStr (String "(" (String c r ++ ")")) ->
                               o = None)) (tl row))
            (rows df)).
Proof.
  intros Hd. exists (normalize (String c r)). intros sd df sections_df.
  pose proof (normalize_parentheses c r d Hd) as Hp. unfold normalize in Hp.
  destruct (convert_outcomes sd df sections_df)
    as [(df' & Hok & Hcells) | [Hf Hcell]].
  - left. exists df'. split; [exact Hok|].
    eapply cellwise_weaken; [|exact Hcells]. cbn beta.
    intros v v' (f & Hv & ->). split; intros ->.
    + exists f. split; [exact Hv | reflexivity].
    + rewrite Hp in Hv. unfold normalize.
      destruct (to_float (clean (VStr (String c r)))) as [f0|];
        [|discriminate Hv].
      cbn [option_map] in Hv. inversion Hv. exists f0. split; reflexivity.
  - right. exists (map_iloc_from_1 clean df). split; [exact Hf|].
    eapply Exists_impl; [|exact Hcell]. cbn beta. intros row Hr.
    eapply Exists_impl; [|exact Hr]. cbn beta. intros v Hv.
    split; [exact Hv|]. intros [-> | ->]; [exact Hv|].
    rewrite Hp in Hv. unfold normalize.
    destruct (to_float (clean (VStr (String c r)))); [discriminate Hv|].
    reflexivity.
Qed.

Lemma parentheses_negate_witness :
  PyFloat.digit_of "5" = Some 5%Z /\
  exists o : option PyFloat.float,
    forall (sd : statement_data) (df sections_df : DataFrame),
      (exists df',
          converts_to sd df sections_df df' /\
          cellwise (fun v v' =>
                      (v = VStr "56.0" -> exists f, o = Some f /\ v' = VFloat f) /\
                      (v = VStr "(56.0)" ->
                       exists f, o = Some f /\ v' = VFloat (SFopp f)))
            df df') \/
      (exists df',
          conversion_fails sd df sections_df df' /\
          Exists (fun row =>
                    Exists (fun v =>
                              to_float (clean v) = None /\
                              (v = VStr "56.0" \/ v = VStr "(56.0)" -> o = None))
                      (tl row))
            (rows df)).
Proof.
  split; [reflexivity|].
  exact (parentheses_negate "5" "6.0" 5%Z eq_refl).
Defined.

End CellConversion.


(** ** The three buckets of rows *)

Section Buckets.

Lemma in_enumerate (rs : list tr) :
  forall s i r,
    In (i, r) (enumerate s rs) <-> s <= i /\ nth_error rs (i - s) = Some r.
Proof.
  induction rs as [|x rs IH]; intros s i r.
  - cbn. split; [contradiction|]. intros [_ H].
    destruct (i - s); discriminate H.
  - rewrite enumerate_cons. cbn [In]. rewrite IH. split.
    + intros [H | [Hle Hn]].
      * inversion H; subst. rewrite Nat.sub_diag. split; [lia | reflexivity].
      * split; [lia|]. replace (i - s) with (S (i - S s)) by lia. exact Hn.
    + intros [Hle Hn]. destruct (Nat.eq_dec s i) as [->|Hne].
      * rewrite Nat.sub_diag in Hn. cbn in Hn. inversion Hn. left. reflexivity.
      * right. split; [lia|].
        replace (i - s) with (S (i - S s)) in Hn by lia. exact Hn.
Qed.

Lemma in_enumerate_0 (rs : list tr) (i : nat) (r : tr) :
  In (i, r) (enumerate 0 rs) <-> nth_error rs i = Some r.
Proof.
  rewrite in_enumerate, Nat.sub_0_r. split; [intros [_ H]; exact H|].
  intros H. split; [lia | exact H].
Qed.

Lemma length_three_buckets {A} (p q r : A -> bool) (l : list A) :
  (forall x, (p x = true /\ q x = false /\ r x = false) \/
             (p x = false /\ q x = true /\ r x = false) \/
             (p x = false /\ q x = false /\ r x = true)) ->
  List.length (filter p l) + List.length (filter q l) + List.length (filter r l)
  = List.length l.
Proof.
  intros H. induction l as [|x l IH]; [reflexivity|]. cbn [filter].
  destruct (H x) as [(-> & -> & ->) | [(-> & -> & ->) | (-> & -> & ->)]];
    cbn [List.length]; lia.
Qed.

Lemma length_filter_enumerate (p : tr -> bool) (rs : list tr) (s : nat) :
  List.length (filter (fun ir => p (snd ir)) (enumerate s rs))
  = List.length (filter p rs).
Proof. rewrite <- (map_snd_positioned p rs s), length_map. reflexivity. Qed.

Lemma is_data_iff (r : tr) : is_data r = true <-> th r = [] /\ strong r = 0.
Proof.
  unfold is_data. rewrite andb_true_iff, !Nat.eqb_eq, length_zero_iff_nil.
  reflexivity.
Qed.

Lemma is_section_iff (r : tr) : is_section r = true <-> th r = [] /\ strong r <> 0.
Proof.
  unfold is_section. rewrite andb_true_iff, negb_true_iff, Nat.eqb_eq,
    Nat.eqb_neq, length_zero_iff_nil.
  reflexivity.
Qed.

Lemma in_keyed_texts (p : tr -> bool) (rs : list tr) (i : nat) (cells : list string) :
  In (i, cells) (keyed_texts (filter (fun ir => p (snd ir)) (enumerate 0 rs)))
  <-> exists r, nth_error rs i = Some r /\ p r = true /\ cells = texts (td r).
Proof.
  unfold keyed_texts. rewrite in_map_iff. split.
  - intros [[j r] [H Hin]]. cbn [fst snd] in H. inversion H; subst.
    apply filter_In in Hin. destruct Hin as [Hin Hp].
    exists r. rewrite <- in_enumerate_0. auto.
  - intros (r & Hn & Hp & ->). exists (i, r). split; [reflexivity|].
    apply filter_In. rewrite in_enumerate_0. auto.
Qed.

(** The loop puts every row of the document in one bucket and one only:
    the three buckets hold as many rows as the document; the header rows are
    kept in order; a row without header cell is in the data rows when it has
    no emphasis and in the section rows when it has one, under its position
    in the document, header rows counted, and with the stripped texts of its
    cells. *)
Theorem rows_are_partitioned (rs : list tr) :
  exists sd,
    classify_rows start 0 rs = ([], Return (Some sd)) /\
    List.length (headers sd) + List.length (sections sd) + List.length (data sd)
    = List.length rs /\
    headers sd = map (fun r => texts (th r))
                   (filter (fun r => negb (List.length (th r) =? 0)) rs) /\
    (forall i cells,
        In (i, cells) (data sd) <->
        exists r, nth_error rs i = Some r /\
                  (th r = [] /\ strong r = 0) /\ cells = texts (td r)) /\
    (forall i cells,
        In (i, cells) (sections sd) <->
        exists r, nth_error rs i = Some r /\
                  (th r = [] /\ strong r <> 0) /\ cells = texts (td r)).
Proof.
  exists (classified start 0 rs). split; [apply classify_rows_start|].
  rewrite classified_headers, classified_data, classified_sections.
  repeat apply conj.
  - unfold keyed_texts, data_rows, section_rows.
    rewrite !length_map, !length_filter_enumerate.
    apply (length_three_buckets is_header is_section is_data), kind_cases.
  - reflexivity.
  - intros i cells. unfold data_rows. rewrite in_keyed_texts.
    split; intros (r & Hn & Hp & Hc); exists r; repeat split;
      try assumption; apply is_data_iff; assumption.
  - intros i cells. unfold section_rows. rewrite in_keyed_texts.
    split; intros (r & Hn & Hp & Hc); exists r; repeat split;
      try assumption; apply is_section_iff; assumption.
Qed.

(** ** Rows of uneven length *)

Lemma rectangular_false_iff (d : list (nat * list string)) :
  rectangular d = false <->
  exists kv1 kv2,
    In kv1 d /\ In kv2 d /\ List.length (snd kv1) <> List.length (snd kv2).
Proof.
  split.
  - intros H. unfold rectangular in H.
    destruct d as [|[k0 v0] d]; [discriminate H|].
    assert (Hex : existsb (fun kv => negb (List.length (snd kv)
                                            =? dict_width ((k0, v0) :: d)))
                    ((k0, v0) :: d) = true).
    { generalize dependent (dict_width ((k0, v0) :: d)). intros w.
      generalize ((k0, v0) :: d). intros l Hl.
      induction l as [|x l IH]; [discriminate Hl|]. cbn [forallb existsb] in *.
      destruct (List.length (snd x) =? w); cbn [negb andb orb] in *;
        [apply IH, Hl | reflexivity]. }
    apply existsb_exists in Hex. destruct Hex as (kv & Hin & Hne).
    apply negb_true_iff, Nat.eqb_neq in Hne. cbn [dict_width] in Hne.
    exists (k0, v0), kv. repeat split; [left; reflexivity | exact Hin |].
    cbn [snd]. congruence.
  - intros (kv1 & kv2 & H1 & H2 & Hne).
    destruct (rectangular d) eqn:E; [|reflexivity]. exfalso. apply Hne.
    rewrite (rectangular_length d kv1 E H1), (rectangular_length d kv2 E H2).
    reflexivity.
Qed.

Lemma uneven_bucket (p : tr -> bool) (rs : list tr) :
  rectangular (keyed_texts (filter (fun ir => p (snd ir)) (enumerate 0 rs))) = false
  <-> exists r1 r2,
      In r1 rs /\ In r2 rs /\ p r1 = true /\ p r2 = true /\
      List.length (td r1) <> List.length (td r2).
Proof.
  rewrite rectangular_false_iff. split.
  - intros ([i1 c1] & [i2 c2] & H1 & H2 & Hne).
    apply in_keyed_texts in H1, H2.
    destruct H1 as (r1 & Hn1 & Hp1 & ->). destruct H2 as (r2 & Hn2 & Hp2 & ->).
    cbn [snd] in Hne. unfold texts in Hne. rewrite !length_map in Hne.
    exists r1, r2. repeat split; try assumption;
      eapply nth_error_In; eassumption.
  - intros (r1 & r2 & H1 & H2 & Hp1 & Hp2 & Hne).
    apply In_nth_error in H1, H2.
    destruct H1 as [i1 Hn1]. destruct H2 as [i2 Hn2].
    exists (i1, texts (td r1)), (i2, texts (td r2)).
    repeat split.
    + apply in_keyed_texts. eauto.
    + apply in_keyed_texts. eauto.
    + cbn [snd]. unfold texts. rewrite !length_map. exact Hne.
Qed.

(** [display_table] gives up at the construction of the two frames, and
    returns [None], exactly when two data rows, or two section rows, differ
    in their number of cells. *)
Theorem uneven_rows_are_refused (page : soup) (rs : list tr) :
  table page = Some rs ->
  (scrape page
   = (["Parsed the table...";
       "ERROR!!!We encountered an error in storing the data and sections into 2 DataFrames!"],
      Return None)
   <->
   (exists r1 r2,
       In r1 rs /\ In r2 rs /\ is_data r1 = true /\ is_data r2 = true /\
       List.length (td r1) <> List.length (td r2)) \/
   (exists r1 r2,
       In r1 rs /\ In r2 rs /\ is_section r1 = true /\ is_section r2 = true /\
       List.length (td r1) <> List.length (td r2))).
Proof.
  intros Ht. rewrite (scrape_eq page rs Ht). cbv zeta.
  rewrite classified_data, classified_sections.
  unfold data_rows, section_rows.
  rewrite <- !uneven_bucket.
  destruct (rectangular (keyed_texts (filter (fun ir => is_data (snd ir)) _)));
    destruct (rectangular (keyed_texts (filter (fun ir => is_section (snd ir)) _)));
    cbn [andb].
  - split; [|intros [H|H]; discriminate H].
    destruct (astype_float_from_1 (cleaned_frame rs)); intros H; discriminate H.
  - split; auto.
  - split; auto.
  - split; auto.
Qed.

Lemma uneven_rows_are_refused_witness :
  table (table_page uneven_rows) = Some uneven_rows /\
  scrape (table_page uneven_rows)
  = (["Parsed the table...";
      "ERROR!!!We encountered an error in storing the data and sections into 2 DataFrames!"],
     Return None).
Proof.
  split; [reflexivity|].
  apply (proj2 (uneven_rows_are_refused (table_page uneven_rows) uneven_rows eq_refl)).
  left. exists (data_row ["Net sales"; "$100"]), (data_row ["Cost of sales"]).
  repeat split; cbn; auto.
Defined.

End Buckets.


(** ** Documents [display_table] cannot read *)

Section Unreadable.

Lemma filter_nil_of_false {A} (p : A -> bool) (l : list A) :
  (forall x, In x l -> p x = false) -> filter p l = [].
Proof.
  intros H. induction l as [|x l IH]; [reflexivity|]. cbn [filter].
  rewrite (H x) by (left; reflexivity).
  apply IH. intros y Hy. apply H. right. exact Hy.
Qed.

Lemma positioned_nil (p : tr -> bool) (rs : list tr) :
  (forall r, In r rs -> p r = false) ->
  filter (fun ir => p (snd ir)) (enumerate 0 rs) = [].
Proof.
  intros H. apply filter_nil_of_false. intros [i r] Hin. cbn [snd].
  apply H. apply in_enumerate_0 in Hin. eapply nth_error_In. exact Hin.
Qed.

(** A table that holds header rows only, the table without any row among
    them, is no failure of the early stages: the renaming fails on the frame
    without column, and [display_table] returns the empty frame, not
    [None]. *)
Theorem table_without_body (page : soup) (rs : list tr) :
  table page = Some rs ->
  (forall r, In r rs -> th r <> []) ->
  scrape page
  = (["Parsed the table...";
      "Stored the data and sections into 2 DataFrames...";
      "Converted string into digit...";
      "Merged 2 DataFrames...";
      "ERROR!!!We encountered an error in renaming indices and columns!"],
     Return (Some (mkDF [] None [] []))).
Proof.
  intros Ht Hth.
  assert (Hh : forall r, In r rs -> is_header r = true).
  { intros r Hin. unfold is_header. apply negb_true_iff, Nat.eqb_neq.
    rewrite length_zero_iff_nil. apply Hth, Hin. }
  assert (Hd : data_rows rs = []).
  { unfold data_rows. apply (positioned_nil is_data).
    intros r Hin. specialize (Hh r Hin).
    destruct (kind_cases r) as [(_ & _ & E) | [(E & _) | (E & _)]]; congruence. }
  assert (Hs : section_rows rs = []).
  { unfold section_rows. apply (positioned_nil is_section).
    intros r Hin. specialize (Hh r Hin).
    destruct (kind_cases r) as [(_ & E & _) | [(E & _) | (E & _)]]; congruence. }
  assert (Hb : positioned_body rs = []).
  { unfold positioned_body.
    apply (positioned_nil (fun r => negb (is_header r))).
    intros r Hin. rewrite (Hh r Hin). reflexivity. }
  rewrite (scrape_eq page rs Ht). cbv zeta.
  unfold cleaned_frame, data_frame.
  rewrite classified_data, classified_sections, Hd, Hs.
  cbn [keyed_texts map rectangular forallb andb dict_index dict_width dict_rows
         map_iloc_from_1 rows astype_float_from_1 rows_astype_float].
  assert (Hw : merged_width rs = 0).
  { unfold merged_width. rewrite classified_data, classified_sections, Hd, Hs.
    reflexivity. }
  rewrite (rename_no_column _ rs Hw).
  unfold merged_of. rewrite Hb, Hw. reflexivity.
Qed.

Lemma table_without_body_witness :
  table (table_page [header_row ["Statement"; "Sep. 25, 2021"]])
  = Some [header_row ["Statement"; "Sep. 25, 2021"]] /\
  scrape (table_page [header_row ["Statement"; "Sep. 25, 2021"]])
  = (["Parsed the table...";
      "Stored the data and sections into 2 DataFrames...";
      "Converted string into digit...";
      "Merged 2 DataFrames...";
      "ERROR!!!We encountered an error in renaming indices and columns!"],
     Return (Some (mkDF [] None [] []))).
Proof.
  split; [reflexivity|].
  apply (table_without_body
           (table_page [header_row ["Statement"; "Sep. 25, 2021"]])
           [header_row ["Statement"; "Sep. 25, 2021"]] eq_refl).
  intros r [<-|[]]. discriminate.
Defined.

Variable requests_get : string -> string -> option soup.

(** [get_table_url] on the index the resolver returned. *)
Lemma get_table_url_eq (fs_url email table_name : string)
  (out : list string) (info : DataFrame) :
  get_table_info requests_get fs_url email = (out, Return info) ->
  get_table_url requests_get fs_url email table_name =
    match find (fun e => label_eqb (fst e) (VStr table_name)) (entries info) with
    | Some e => (out, Return (Some (snd e)))
    | None => (out ++ ["ERROR! Please double check the input table name!"],
               Return None)
    end.
Proof.
  intros Hi.
  destruct (get_table_info_shape _ _ _ _ _ Hi) as [-> [pairs ->]].
  unfold get_table_url. rewrite Hi, bind_pure. unfold lift.
  rewrite lookup_table_index.
  destruct (find _ _); reflexivity.
Qed.

(** A name that is not in the index makes [display_table] print the line
    of the lookup, the word None in place of a url and the line of the failed
    request, and return [None], whatever pages the transport would serve. *)
Theorem unknown_table_gives_none (fs_url table_name email : string)
  (out : list string) (info : DataFrame) :
  get_table_info requests_get fs_url email = (out, Return info) ->
  (forall e, In e (entries info) -> fst e <> VStr table_name) ->
  display_table requests_get fs_url table_name email
  = (out ++ ["ERROR! Please double check the input table name!";
             "None";
             "ERROR!!!We encountered an error when requesting the web content!"],
     Return None).
Proof.
  intros Hi Hn. rewrite display_table_eq, (get_table_url_eq _ _ _ _ _ Hi).
  rewrite find_none.
  - cbn [fetch_value str_of_url]. rewrite <- app_assoc. reflexivity.
  - intros e He. apply label_eqb_VStr_false, Hn, He.
Qed.

(** A page without [table] element is not caught: once the url and the
    line of the request are printed, [display_table] raises. *)
Theorem page_without_table_raises (fs_url table_name email table_url : string)
  (out : list string) (page : soup) :
  get_table_url requests_get fs_url email table_name
  = (out, Return (Some (VStr table_url))) ->
  requests_get table_url email = Some page ->
  table page = None ->
  display_table requests_get fs_url table_name email
  = (out ++ [table_url; "Requested the web content..."], Raise AttributeError).
Proof.
  intros Hu Hg Ht. rewrite display_table_eq, Hu.
  unfold fetch_value, fetch. rewrite Hg. unfold scrape. rewrite Ht.
  reflexivity.
Qed.

End Unreadable.

Lemma unknown_table_gives_none_witness :
  get_table_info (filing scenario_rows) statement_url email
  = ([], Return (table_index [(operations, operations_url)])) /\
  display_table (filing scenario_rows) statement_url "BALANCE SHEETS" email
  = ([] ++ ["ERROR! Please double check the input table name!";
            "None";
            "ERROR!!!We encountered an error when requesting the web content!"],
     Return None).
Proof.
  assert (Hi : get_table_info (filing scenario_rows) statement_url email
               = ([], Return (table_index [(operations, operations_url)])))
    by (vm_compute; reflexivity).
  split; [exact Hi|].
  apply (unknown_table_gives_none _ _ _ _ _ _ Hi).
  intros e [<-|[]]. vm_compute. discriminate.
Defined.

Lemma page_without_table_raises_witness :
  get_table_url tableless_filing statement_url email operations
  = ([], Return (Some (VStr operations_url))) /\
  tableless_filing operations_url email = Some (index_page []) /\
  display_table tableless_filing statement_url operations email
  = ([] ++ [operations_url; "Requested the web content..."],
     Raise AttributeError).
Proof.
  assert (Hu : get_table_url tableless_filing statement_url email operations
               = ([], Return (Some (VStr operations_url))))
    by (vm_compute; reflexivity).
  assert (Hg : tableless_filing operations_url email = Some (index_page []))
    by (vm_compute; reflexivity).
  split; [exact Hu|]. split; [exact Hg|].
  exact (page_without_table_raises _ _ _ _ _ _ _ Hu Hg eq_refl).
Defined.


(** ** The frame of a successful call *)

Section Returned.

Lemma floats_of_clean_defined (cs : list string) (fs : list value) :
  floats_of (map clean (map VStr cs)) = Some fs ->
  Forall (fun s => normalize s = Some (float_or_nan s)) cs.
Proof.
  revert fs. induction cs as [|c cs IH]; cbn [map floats_of]; intros fs H.
  - constructor.
  - change (to_float (clean (VStr c))) with (normalize c) in H.
    destruct (normalize c) as [f|] eqn:En; [|discriminate H].
    destruct (floats_of _) as [fs'|] eqn:Ef; [|discriminate H].
    constructor; [|eapply IH; reflexivity].
    unfold float_or_nan. rewrite En. reflexivity.
Qed.

Lemma rows_astype_float_defined (d : list (nat * list string)) (rs' : list (list value)) :
  rows_astype_float (rows (map_iloc_from_1 clean
                             (mkDF (dict_index d) None (range (dict_width d))
                                (dict_rows d)))) = Some rs' ->
  Forall (fun kv => Forall (fun s => normalize s = Some (float_or_nan s))
                      (tl (snd kv))) d.
Proof.
  cbn [rows map_iloc_from_1]. unfold dict_rows. rewrite map_map.
  revert rs'. induction d as [|[k cells] d IH];
    cbn [map rows_astype_float snd]; intros rs' H; [constructor|].
  destruct cells as [|c cs]; cbn [map] in H.
  - destruct (rows_astype_float _) as [rest|] eqn:Er; [|discriminate H].
    constructor; [constructor | eapply IH; reflexivity].
  - destruct (floats_of _) as [fs|] eqn:Ef; [|discriminate H].
    cbn [option_map] in H.
    destruct (rows_astype_float _) as [rest|] eqn:Er; [|discriminate H].
    constructor; [|eapply IH; reflexivity].
    cbn [snd tl]. eapply floats_of_clean_defined. exact Ef.
Qed.

(** On success every stage went through. *)
Lemma scrape_success_stages (page : soup) (rs : list tr) (df : DataFrame) :
  table page = Some rs ->
  succeeded (scrape page) df ->
  exists df', astype_float_from_1 (cleaned_frame rs) = Return df'.
Proof.
  intros Ht [Hr Hl]. rewrite (scrape_eq page rs Ht) in Hr, Hl. cbv zeta in Hr, Hl.
  destruct (rectangular _ && rectangular _); [|discriminate Hr].
  destruct (astype_float_from_1 (cleaned_frame rs)) as [df'|e];
    [eauto | discriminate Hl].
Qed.

Lemma data_cells_defined (page : soup) (rs : list tr) (df : DataFrame) (r : tr) :
  table page = Some rs ->
  succeeded (scrape page) df ->
  In r rs -> is_data r = true ->
  Forall (fun s => normalize s = Some (float_or_nan s)) (tl (texts (td r))).
Proof.
  intros Ht Hs Hin Hd.
  destruct (scrape_success_stages page rs df Ht Hs) as [df' Ha].
  unfold astype_float_from_1 in Ha.
  destruct (rows_astype_float _) as [rs'|] eqn:Er; [|discriminate Ha].
  unfold cleaned_frame, data_frame in Er.
  apply rows_astype_float_defined in Er. rewrite Forall_forall in Er.
  apply In_nth_error in Hin. destruct Hin as [i Hn].
  apply (Er (i, texts (td r))).
  rewrite classified_data. unfold data_rows. apply in_keyed_texts. eauto.
Qed.

Lemma pad_nil_filler (w : nat) : pad w [] = pad w [NaN].
Proof.
  unfold pad. apply map_ext. intros [|[|j]]; reflexivity.
Qed.

Lemma length_pad (w : nat) (l : list value) : List.length (pad w l) = w.
Proof. unfold pad. rewrite length_map, length_seq. reflexivity. Qed.

Lemma Forall2_eq_map {A B} (f : A -> B) (l : list A) :
  Forall2 (fun x y => y = f x) l (map f l).
Proof. induction l; cbn [map]; constructor; auto. Qed.

Variable requests_get : string -> string -> option soup.

(** In the frame a successful call returns, the cells of a data row are,
    after its label, the floats the conversion reads in its cells, one by
    one and in order, and the filler where the row has no cell. *)
Theorem data_cells_are_converted
  (fs_url table_name email : string) (df : DataFrame) :
  succeeded (display_table requests_get fs_url table_name email) df ->
  exists table_url page rs,
    requests_get table_url email = Some page /\
    table page = Some rs /\
    Forall2 (fun r cells =>
               is_data r = true ->
               exists fs,
                 Forall2 (fun s f => normalize s = Some f) (tl (texts (td r))) fs /\
                 cells = tl (pad (S (List.length (columns df)))
                               (row_label r :: map VFloat fs)))
      (body_rows rs) (rows df).
Proof.
  intros H.
  destruct (display_table_success _ _ _ _ _ H) as (out & u & page & _ & Hg & Hs).
  destruct (scrape_success_table _ _ Hs) as [rs Ht].
  destruct (scrape_success _ _ _ Ht Hs)
    as (Hw & h0 & hs & header & _ & _ & Hlen & Hdf).
  exists u, page, rs. repeat split; try assumption.
  rewrite Hdf. cbn [final_of rows columns]. rewrite length_map, Hlen.
  replace (S (merged_width rs - 1)) with (merged_width rs) by lia.
  apply Forall2_map_same. intros r Hin Hd.
  assert (Hin' : In r rs).
  { unfold body_rows in Hin. apply filter_In in Hin. apply Hin. }
  pose proof (data_cells_defined page rs df r Ht Hs Hin' Hd) as Hdef.
  exists (map float_or_nan (tl (texts (td r)))). split.
  - clear - Hdef. induction Hdef; cbn [map]; constructor; assumption.
  - unfold body_cells, row_label, converted. rewrite Hd.
    destruct (texts (td r)) as [|c cs]; cbn [tl map].
    + rewrite pad_nil_filler. reflexivity.
    + rewrite map_map. reflexivity.
Qed.

(** The frame a successful call returns is rectangular and titled: it has
    one label per row and one cell per column in every row; one or two header
    rows were captured and the name of its index is the texts of the cells of
    the first of them, joined by [" - "]. *)
Theorem returned_frame_is_rectangular_and_titled
  (fs_url table_name email : string) (df : DataFrame) :
  succeeded (display_table requests_get fs_url table_name email) df ->
  List.length (index df) = List.length (rows df) /\
  Forall (fun cells => List.length cells = List.length (columns df)) (rows df) /\
  exists table_url page rs first others,
    requests_get table_url email = Some page /\
    table page = Some rs /\
    filter (fun r => negb (List.length (th r) =? 0)) rs = first :: others /\
    List.length others <= 1 /\
    index_name df = Some (VStr (PyStr.join " - " (texts (th first)))).
Proof.
  intros H.
  destruct (display_table_success _ _ _ _ _ H) as (out & u & page & _ & Hg & Hs).
  destruct (scrape_success_table _ _ Hs) as [rs Ht].
  destruct (scrape_success _ _ _ Ht Hs)
    as (Hw & h0 & hs & header & Hh & Ho & Hlen & Hdf).
  rewrite Hdf. cbn [final_of index rows columns index_name].
  rewrite !length_map. split; [reflexivity|]. split.
  - apply Forall_forall. intros cells Hin. apply in_map_iff in Hin.
    destruct Hin as (r & <- & _).
    rewrite Hlen. destruct (pad (merged_width rs) (body_cells r)) eqn:E.
    + apply (f_equal (@List.length value)) in E. rewrite length_pad in E.
      cbn in E. lia.
    + apply (f_equal (@List.length value)) in E. rewrite length_pad in E.
      cbn [tl List.length] in *. lia.
  - rewrite classified_headers in Hh.
    change is_header with (fun r => negb (List.length (th r) =? 0)) in Hh.
    destruct (filter _ rs) as [|first others] eqn:Ef; [discriminate Hh|].
    cbn [map] in Hh. inversion Hh; subst h0 hs.
    exists u, page, rs, first, others. repeat split; try assumption.
    destruct others as [|r1 [|r2 others]]; cbn [List.length]; try lia.
    discriminate Ho.
Qed.

End Returned.

Lemma data_cells_are_converted_witness :
  succeeded (display_table (filing statement_rows) statement_url operations email)
    statement_frame /\
  exists table_url page rs,
    filing statement_rows table_url email = Some page /\
    table page = Some rs /\
    Forall2 (fun r cells =>
               is_data r = true ->
               exists fs,
                 Forall2 (fun s f => normalize s = Some f) (tl (texts (td r))) fs /\
                 cells = tl (pad (S (List.length (columns statement_frame)))
                               (row_label r :: map VFloat fs)))
      (body_rows rs) (rows statement_frame).
Proof.
  assert (H : succeeded (display_table (filing statement_rows)
                           statement_url operations email) statement_frame).
  { split; vm_compute; reflexivity. }
  split; [exact H|].
  exact (data_cells_are_converted _ _ _ _ _ H).
Defined.

Lemma returned_frame_is_rectangular_and_titled_witness :
  succeeded (display_table (filing statement_rows) statement_url operations email)
    statement_frame /\
  index_name statement_frame
  = Some (VStr "CONSOLIDATED STATEMENTS OF OPERATIONS - USD ($) - Sep. 25, 2021") /\
  List.length (index statement_frame) = List.length (rows statement_frame) /\
  Forall (fun cells => List.length cells = List.length (columns statement_frame))
    (rows statement_frame).
Proof.
  assert (H : succeeded (display_table (filing statement_rows)
                           statement_url operations email) statement_frame).
  { split; vm_compute; reflexivity. }
  split; [exact H|]. split; [vm_compute; reflexivity|].
  destruct (returned_frame_is_rectangular_and_titled _ _ _ _ _ H) as (H1 & H2 & _).
  split; assumption.
Defined.


(** ** The resolver of the table index *)

Section Resolver.

Local Open Scope string_scope.

Lemma occurs_last_only_b_sound (old pre : string) :
  occurs_last_only_b old pre = true -> occurs_last_only old pre.
Proof.
  unfold occurs_last_only_b, occurs_last_only. rewrite forallb_forall.
  intros H i Hi. apply negb_true_iff, H, in_seq. lia.
Qed.

Lemma all_named_none (rs : list report) :
  all_named rs = None <->
  exists r, In r rs /\ (shortname r = None \/ htmlfilename r = None).
Proof.
  induction rs as [|r rs IH]; cbn [all_named].
  - split; [discriminate | intros (r & [] & _)].
  - unfold named at 1.
    destruct (shortname r) as [n|] eqn:En.
    2:{ split; [|reflexivity]. intros _. exists r. split; [left|]; auto. }
    destruct (htmlfilename r) as [f|] eqn:Ef.
    2:{ split; [|reflexivity]. intros _. exists r. split; [left|]; auto. }
    destruct (all_named rs) as [ps|].
    + split; [discriminate|]. intros (r' & [<-|Hin] & Hm).
      * destruct Hm; congruence.
      * assert (E : Some ps = None) by (apply IH; eauto). discriminate E.
    + split; [|reflexivity]. intros _.
      destruct (proj1 IH eq_refl) as (r' & Hin & Hm).
      exists r'. split; [right|]; assumption.
Qed.

Variable requests_get : string -> string -> option soup.

(** For a statement url [pre/seg] whose last segment occurs, with its
    slash, nowhere else in the url, and a filing summary served at
    [pre/FilingSummary.xml] whose entries, the last one apart, have a name
    and a filename and are not none, the resolver returns these entries in
    the order of the document, each with the url [pre/filename]. *)
Theorem resolver_on_plain_url
  (pre seg email : string) (page : soup) (reports : list report)
  (l : list (string * string)) :
  seg <> "" -> slash_free seg = true ->
  occurs_last_only (String slash seg) pre ->
  requests_get (pre ++ "/FilingSummary.xml") email = Some page ->
  myreports page = Some reports ->
  all_named (all_but_last reports) = Some l ->
  l <> [] ->
  get_table_info requests_get (pre ++ String slash seg) email
  = ([], Return (table_index
                   (map (fun p => (fst p, pre ++ String slash (snd p))) l))).
Proof.
  intros Hne Hsf Hocc Hg Hm Hn Hl.
  rewrite get_table_info_eq, (last_segment_of pre seg Hne Hsf).
  rewrite (sibling_url_of pre seg "FilingSummary.xml" Hocc).
  change (String slash "FilingSummary.xml") with "/FilingSummary.xml".
  rewrite Hg, Hm, Hn. destruct l as [|p l]; [contradiction|].
  unfold resolved. do 3 f_equal. apply map_ext. intros q.
  rewrite (sibling_url_of pre seg (snd q) Hocc). reflexivity.
Qed.

(** The last entry of the filing summary is dropped unread: the resolver
    gives the same result on two summaries that differ in their last entry
    only, also when that entry has no name or no filename. *)
Theorem last_entry_is_not_read
  (other_get : string -> string -> option soup)
  (url email lst : string) (page page' : soup)
  (rs : list report) (r r' : report) :
  last_segment url = Return lst ->
  requests_get (sibling_url url lst "FilingSummary.xml") email = Some page ->
  other_get (sibling_url url lst "FilingSummary.xml") email = Some page' ->
  myreports page = Some (rs ++ [r])%list ->
  myreports page' = Some (rs ++ [r'])%list ->
  get_table_info requests_get url email = get_table_info other_get url email.
Proof.
  intros Hl Hg Hg' Hm Hm'.
  rewrite !get_table_info_eq, Hl, Hg, Hg', Hm, Hm'.
  unfold all_but_last. rewrite !removelast_last. reflexivity.
Qed.

(** What the resolver raises: the exception of the request when the
    request for the filing summary fails; an [AttributeError] when the page
    has no [myreports] element, and when an entry other than the last has no
    name or no filename.  Nothing is printed. *)
Theorem resolver_failures (url email lst : string) :
  last_segment url = Return lst ->
  (requests_get (sibling_url url lst "FilingSummary.xml") email = None ->
   get_table_info requests_get url email = ([], Raise RequestException)) /\
  (forall page,
      requests_get (sibling_url url lst "FilingSummary.xml") email = Some page ->
      myreports page = None ->
      get_table_info requests_get url email = ([], Raise AttributeError)) /\
  (forall page reports r,
      requests_get (sibling_url url lst "FilingSummary.xml") email = Some page ->
      myreports page = Some reports ->
      In r (all_but_last reports) ->
      shortname r = None \/ htmlfilename r = None ->
      get_table_info requests_get url email = ([], Raise AttributeError)).
Proof.
  intros Hl. rewrite get_table_info_eq, Hl. repeat split.
  - intros ->. reflexivity.
  - intros page -> ->. reflexivity.
  - intros page reports r -> -> Hin Hm.
    replace (all_named (all_but_last reports)) with (@None (list (string * string))).
    + reflexivity.
    + symmetry. apply all_named_none. eauto.
Qed.

(** The names [display_table_name] lists are the names [get_table_url]
    finds: for a listed name it returns a url and prints nothing, for any
    other name it prints the line of the lookup and returns [None]. *)
Theorem listed_names_are_found
  (url email : string) (out : list string) (names : list value) :
  display_table_name requests_get url email = (out, Return names) ->
  forall name,
    (In (VStr name) names ->
     exists u, get_table_url requests_get url email name
               = (out, Return (Some u))) /\
    (~ In (VStr name) names ->
     get_table_url requests_get url email name
     = ((out ++ ["ERROR! Please double check the input table name!"])%list,
        Return None)).
Proof.
  unfold display_table_name.
  destruct (get_table_info requests_get url email) as [o [info|e]] eqn:Hi;
    [|discriminate].
  cbn [bind ret]. rewrite app_nil_r. intros H. inversion H; subst o names.
  intros name. rewrite (get_table_url_eq _ _ _ _ _ _ Hi).
  destruct (get_table_info_shape _ _ _ _ _ Hi) as [_ [pairs ->]].
  rewrite entries_table_index. cbn [table_index index].
  destruct (find _ _) as [e|] eqn:Ef.
  - split; [eauto|]. intros Hn. exfalso. apply Hn.
    apply List.find_some in Ef. destruct Ef as [Hin He].
    apply label_eqb_VStr in He.
    apply in_map_iff in Hin. destruct Hin as (p & <- & Hp).
    cbn [fst] in He. rewrite <- He. apply in_map_iff. eauto.
  - split; [|reflexivity]. intros Hin. exfalso.
    apply in_map_iff in Hin. destruct Hin as (p & Hp1 & Hp2).
    assert (Hm : In (VStr (fst p), VStr (snd p))
                   (map (fun p => (VStr (fst p), VStr (snd p))) pairs))
      by (apply in_map_iff; eauto).
    pose proof (List.find_none _ _ Ef _ Hm) as Hf.
    cbn [fst] in Hf. rewrite Hp1 in Hf.
    rewrite (proj2 (label_eqb_VStr (VStr name) name) eq_refl) in Hf.
    discriminate Hf.
Qed.

End Resolver.

Lemma resolver_on_plain_url_witness :
  occurs_last_only (String slash "R2.htm") statement_folder /\
  get_table_info twin_filing (statement_folder ++ String slash "R2.htm") email
  = ([], Return (table_index
                   (map (fun p => (fst p, statement_folder ++ String slash (snd p))%string)
                      [("Cover Page", "R1.htm"); (operations, "R4.htm");
                       (operations, "R5.htm")]))).
Proof.
  assert (Ho : occurs_last_only (String slash "R2.htm") statement_folder)
    by (apply occurs_last_only_b_sound; vm_compute; reflexivity).
  split; [exact Ho|].
  apply (resolver_on_plain_url twin_filing statement_folder "R2.htm" email
           (index_page twin_reports) twin_reports).
  - discriminate.
  - reflexivity.
  - exact Ho.
  - vm_compute. reflexivity.
  - reflexivity.
  - reflexivity.
  - discriminate.
Defined.

Lemma last_entry_is_not_read_witness :
  get_table_info (serve [(summary_url, index_page ragged_reports)])
    statement_url email
  = get_table_info (serve [(summary_url,
                            index_page [mkReport (Some "Cover Page") (Some "R1.htm");
                                        mkReport (Some operations) (Some "R4.htm");
                                        mkReport (Some "All Reports") (Some "Rall.htm")])])
      statement_url email.
Proof.
  apply (last_entry_is_not_read _ _ statement_url email "/R2.htm"
           (index_page ragged_reports)
           (index_page [mkReport (Some "Cover Page") (Some "R1.htm");
                        mkReport (Some operations) (Some "R4.htm");
                        mkReport (Some "All Reports") (Some "Rall.htm")])
           [mkReport (Some "Cover Page") (Some "R1.htm");
            mkReport (Some operations) (Some "R4.htm")]
           (mkReport None None)
           (mkReport (Some "All Reports") (Some "Rall.htm")));
    vm_compute; reflexivity.
Defined.

Lemma resolver_failures_witness :
  last_segment statement_url = Return "/R2.htm" /\
  get_table_info (serve []) statement_url email = ([], Raise RequestException) /\
  get_table_info (serve [(summary_url, table_page [])]) statement_url email
  = ([], Raise AttributeError) /\
  get_table_info (serve [(summary_url, index_page nameless_reports)])
    statement_url email
  = ([], Raise AttributeError).
Proof.
  assert (Hl : last_segment statement_url = Return "/R2.htm")
    by (vm_compute; reflexivity).
  split; [exact Hl|]. split; [|split].
  - apply (proj1 (resolver_failures (serve []) statement_url email "/R2.htm" Hl)).
    reflexivity.
  - apply (proj1 (proj2 (resolver_failures
                           (serve [(summary_url, table_page [])])
                           statement_url email "/R2.htm" Hl))
             (table_page [])).
    + vm_compute. reflexivity.
    + reflexivity.
  - apply (proj2 (proj2 (resolver_failures
                           (serve [(summary_url, index_page nameless_reports)])
                           statement_url email "/R2.htm" Hl))
             (index_page nameless_reports) nameless_reports
             (mkReport (Some operations) None)).
    + vm_compute. reflexivity.
    + reflexivity.
    + cbn. auto.
    + right. reflexivity.
Defined.

Lemma listed_names_are_found_witness :
  display_table_name twin_filing statement_url email
  = ([], Return [VStr "Cover Page"; VStr operations; VStr operations]) /\
  (exists u, get_table_url twin_filing statement_url email "Cover Page"
             = ([], Return (Some u))) /\
  get_table_url twin_filing statement_url email "BALANCE SHEETS"
  = ([] ++ ["ERROR! Please double check the input table name!"], Return None).
Proof.
  assert (H : display_table_name twin_filing statement_url email
              = ([], Return [VStr "Cover Page"; VStr operations; VStr operations]))
    by (vm_compute; reflexivity).
  split; [exact H|]. split.
  - apply (proj1 (listed_names_are_found _ _ _ _ _ H "Cover Page")).
    left. reflexivity.
  - apply (proj2 (listed_names_are_found _ _ _ _ _ H "BALANCE SHEETS")).
    intros [E|[E|[E|[]]]]; vm_compute in E; discriminate E.
Defined.


(** ** The list of filings *)

Import FilingList Filings.

Section FilingFrames.

Variable comparable : nat * nat * nat -> bool.

Lemma lookup_assign (n name : string) (values : list cell) (cs : list (string * list cell)) :
  lookup n (assign name values cs)
  = if String.eqb name n then Some values else lookup n cs.
Proof.
  induction cs as [|[m v] cs IH]; cbn [assign lookup].
  - reflexivity.
  - destruct (String.eqb m name) eqn:E; cbn [lookup].
    + apply String.eqb_eq in E. subst m.
      destruct (String.eqb name n); reflexivity.
    + rewrite IH. destruct (String.eqb m n) eqn:E'; [|reflexivity].
      apply String.eqb_eq in E'. subst m. rewrite String.eqb_sym, E.
      reflexivity.
Qed.

Lemma lookup_map (f : list cell -> list cell) (n : string) (cs : list (string * list cell)) :
  lookup n (map (fun c => (fst c, f (snd c))) cs) = option_map f (lookup n cs).
Proof.
  induction cs as [|[m v] cs IH]; [reflexivity|]. cbn [map lookup fst snd].
  destruct (String.eqb m n); [reflexivity | exact IH].
Qed.

Lemma lookup_removelast (n : string) (v : list cell) (cs : list (string * list cell)) :
  lookup n (removelast cs) = Some v -> lookup n cs = Some v.
Proof.
  induction cs as [|[m w] [|c cs] IH]; cbn [removelast lookup]; try discriminate.
  change (removelast ((m, w) :: c :: cs)) with ((m, w) :: removelast (c :: cs)).
  cbn [lookup]. destruct (String.eqb m n); [auto|]. exact IH.
Qed.

Lemma pick_names (wanted : list string) (cs cs' : list (string * list cell)) :
  pick wanted cs = Some cs' -> map fst cs' = wanted.
Proof.
  revert cs'. induction wanted as [|n r IH]; cbn [pick]; intros cs' H.
  - inversion H. reflexivity.
  - destruct (lookup n cs); [|discriminate H].
    destruct (pick r cs) as [cs''|]; [|discriminate H].
    inversion H. cbn [map fst]. f_equal. apply IH. reflexivity.
Qed.

Lemma pick_lookup (wanted : list string) (cs cs' : list (string * list cell)) (n : string) :
  pick wanted cs = Some cs' -> In n wanted ->
  exists v, lookup n cs' = Some v /\ lookup n cs = Some v.
Proof.
  revert cs'. induction wanted as [|m r IH]; cbn [pick]; intros cs' H Hin.
  - contradiction.
  - destruct (lookup m cs) as [v|] eqn:El; [|discriminate H].
    destruct (pick r cs) as [cs''|] eqn:Ep; [|discriminate H].
    inversion H; subst cs'. cbn [lookup].
    destruct (String.eqb m n) eqn:E.
    + apply String.eqb_eq in E. subst m. eauto.
    + destruct Hin as [->|Hin]; [rewrite String.eqb_refl in E; discriminate|].
      apply (IH cs'' eq_refl Hin).
Qed.

Lemma keep_map_filter {A} (p : A -> bool) (l : list A) :
  keep (map p l) l = filter p l.
Proof.
  induction l as [|x l IH]; [reflexivity|]. cbn [map keep filter].
  rewrite IH. reflexivity.
Qed.

Lemma Forall_keep {A} (P : A -> Prop) (mask : list bool) (l : list A) :
  Forall P l -> Forall P (keep mask l).
Proof.
  intros H. revert mask. induction H as [|x l Hx Hl IH]; intros [|b mask];
    cbn [keep]; try constructor.
  destruct b; [constructor; auto | auto].
Qed.

Lemma not_before_mask (b : nat * nat * nat) (dates : list cell) (mask : list bool) :
  not_before b dates = Some mask ->
  mask = map (fun c => date_leb b (date_of c)) dates /\ Forall is_date dates.
Proof.
  revert mask. induction dates as [|c dates IH]; cbn [not_before]; intros mask H.
  - inversion H. split; [reflexivity | constructor].
  - destruct c as [s|y m d|f|]; try discriminate H.
    destruct (not_before b dates) as [mask'|]; [|discriminate H].
    inversion H. destruct (IH mask' eq_refl) as [-> Hd].
    split; [reflexivity|]. constructor; [exact I | exact Hd].
Qed.

Lemma not_before_dates (b : nat * nat * nat) (dates : list cell) :
  Forall is_date dates ->
  not_before b dates = Some (map (fun c => date_leb b (date_of c)) dates).
Proof.
  induction 1 as [|c dates Hc Hd IH]; [reflexivity|]. cbn [not_before].
  destruct c as [s|y m d|f|]; try contradiction. rewrite IH. reflexivity.
Qed.

Lemma on_or_after_filter (b : nat * nat * nat) (dates : list cell) :
  Forall is_date dates ->
  Forall (on_or_after b) (filter (fun c => date_leb b (date_of c)) dates).
Proof.
  intros Hd. apply Forall_forall. intros c Hin. apply filter_In in Hin.
  destruct Hin as [Hin Hb]. rewrite Forall_forall in Hd. specialize (Hd c Hin).
  destruct c; try contradiction. exact Hb.
Qed.

Lemma map_cells_dates (l dates : list cell) :
  map_cells parse_date l = Return dates -> Forall is_date dates.
Proof.
  revert dates. induction l as [|x l IH]; cbn [map_cells]; intros dates H.
  - inversion H. constructor.
  - destruct (parse_date x) as [y|e] eqn:Ex; [|discriminate H].
    destruct (map_cells parse_date l) as [ys|e]; [|discriminate H].
    inversion H. constructor; [|apply IH; reflexivity].
    unfold parse_date in Ex. destruct x; try discriminate Ex.
    destruct (strptime _) as [[[yy mm] dd]|]; [|discriminate Ex].
    inversion Ex. exact I.
Qed.

Lemma select_rows_dates (P : cell -> Prop) (mask : list bool) (df : frame) :
  dates_satisfy P df -> dates_satisfy P (select_rows mask df).
Proof.
  intros H dates. cbn [select_rows cols]. rewrite lookup_map.
  destruct (lookup "Date" (cols df)) as [v|] eqn:El; [|discriminate].
  intros E. inversion E. apply Forall_keep, H, El.
Qed.

Lemma filter_from_dates (P : cell -> Prop) (bound : option string) (df : frame) :
  dates_satisfy P df -> dates_satisfy P (filter_from comparable bound df).
Proof.
  intros H. unfold filter_from.
  destruct bound as [s|]; [|exact H].
  destruct (strptime s) as [b|]; [|exact H].
  destruct (getitem df "Date"); [|exact H].
  destruct (comparable b); [|exact H].
  destruct (not_before b a); [|exact H].
  apply select_rows_dates, H.
Qed.

Lemma filter_from_bound (s : string) (b : nat * nat * nat) (df : frame) :
  strptime s = Some b ->
  comparable b = true ->
  dates_satisfy is_date df ->
  dates_satisfy (on_or_after b) (filter_from comparable (Some s) df).
Proof.
  intros Hs Hc Hd. unfold filter_from, getitem. rewrite Hs, Hc.
  destruct (lookup "Date" (cols df)) as [dates|] eqn:El.
  - pose proof (Hd dates El) as Hdates.
    rewrite (not_before_dates b dates Hdates).
    intros dates'. cbn [select_rows cols]. rewrite lookup_map, El.
    cbn [option_map]. intros E. inversion E.
    rewrite keep_map_filter. apply on_or_after_filter, Hdates.
  - intros dates' E. rewrite El in E. discriminate E.
Qed.

Lemma filter_forms_dates (P : cell -> Prop) (forms : option (list string)) (df : frame) :
  dates_satisfy P df -> dates_satisfy P (filter_forms forms df).
Proof.
  intros H. unfold filter_forms.
  destruct (getitem df "formType") as [cells|]; [|exact H].
  destruct (tags forms cells) as [flags|]; [|exact H].
  assert (H' : dates_satisfy P (setitem df "Type_tag" flags)).
  { intros dates. cbn [setitem cols]. rewrite lookup_assign.
    cbn [String.eqb Ascii.eqb Bool.eqb]. apply H. }
  destruct (getitem (setitem df "Type_tag" flags) "Type_tag"); [|exact H'].
  intros dates E. cbn [drop_last_column cols] in E.
  apply lookup_removelast in E. revert dates E.
  apply select_rows_dates, H'.
Qed.

Lemma on_or_after_is_date (b : nat * nat * nat) (c : cell) :
  on_or_after b c -> is_date c.
Proof. destruct c; cbn; auto. Qed.

End FilingFrames.


Section GetUrls.

Variable requests_get : string -> string -> outcome response.
Variable comparable : nat * nat * nat -> bool.

(** What [get_urls] went through when it returns. *)
Lemma get_urls_Return
  (ids : list string) (key : string) (start_date end_date : option string)
  (forms : option (list string)) (out : list string) (df : frame) :
  get_urls requests_get comparable ids key start_date end_date forms = (out, Return df) ->
  exists fetched filing dates,
    fetch_all requests_get key ids empty = (out, Return fetched) /\
    lookup "filingDate" (cols fetched) = Some filing /\
    map_cells parse_date filing = Return dates /\
    select_columns
      (filter_forms forms
         (filter_from comparable end_date
            (filter_from comparable start_date (setitem fetched "Date" dates))))
      wanted_columns = Return df.
Proof.
  unfold get_urls, lift, getitem.
  destruct (fetch_all requests_get key ids empty) as [o [fetched|e]];
    cbn [bind]; [|discriminate].
  destruct (lookup "filingDate" (cols fetched)) as [filing|] eqn:El;
    cbn [bind]; [|discriminate].
  destruct (map_cells parse_date filing) as [dates|e] eqn:Em;
    cbn [bind]; [|discriminate].
  destruct (select_columns _ wanted_columns) as [df'|e] eqn:Es;
    [|discriminate].
  rewrite !app_nil_r. intros H. inversion H; subst.
  exists fetched, filing, dates. repeat split; assumption.
Qed.

Lemma select_columns_lookup (df df' : frame) (n : string) :
  select_columns df wanted_columns = Return df' ->
  In n wanted_columns ->
  exists v, lookup n (cols df') = Some v /\ lookup n (cols df) = Some v.
Proof.
  unfold select_columns.
  destruct (pick wanted_columns (cols df)) as [cs|] eqn:Ep; [|discriminate].
  intros H Hin. inversion H. cbn [cols].
  apply (pick_lookup wanted_columns (cols df) cs n Ep Hin).
Qed.

(** Both dates are lower bounds.  The frame [get_urls] returns has a
    column of dates, and none of them is before the start date that was
    given, nor before the end date that was given, when pandas compares
    dates to it: the end date is tested like the start date. *)
Theorem bounds_are_lower_bounds
  (ids : list string) (key : string) (start_date end_date : option string)
  (forms : option (list string)) (out : list string) (df : frame) :
  get_urls requests_get comparable ids key start_date end_date forms = (out, Return df) ->
  exists dates,
    lookup "Date" (cols df) = Some dates /\
    Forall is_date dates /\
    (forall s b, start_date = Some s -> strptime s = Some b ->
                 comparable b = true -> Forall (on_or_after b) dates) /\
    (forall s b, end_date = Some s -> strptime s = Some b ->
                 comparable b = true -> Forall (on_or_after b) dates).
Proof.
  intros H.
  destruct (get_urls_Return _ _ _ _ _ _ _ H)
    as (fetched & filing & dates0 & _ & _ & Hm & Hs).
  destruct (select_columns_lookup _ _ "Date" Hs) as (dates & Hd & Hd').
  { cbn. auto. }
  assert (H0 : dates_satisfy is_date (setitem fetched "Date" dates0)).
  { intros l. cbn [setitem cols]. rewrite lookup_assign, String.eqb_refl.
    intros E. inversion E; subst. eapply map_cells_dates. exact Hm. }
  exists dates. split; [exact Hd|]. clear Hd. repeat split.
  - revert dates Hd'. apply filter_forms_dates with (P := is_date).
    apply filter_from_dates, filter_from_dates, H0.
  - intros s b -> Hb Hc. revert dates Hd'.
    apply filter_forms_dates, filter_from_dates.
    apply (filter_from_bound comparable s b _ Hb Hc H0).
  - intros s b -> Hb Hc. revert dates Hd'.
    apply filter_forms_dates.
    apply (filter_from_bound comparable s b _ Hb Hc).
    apply filter_from_dates, H0.
Qed.

Lemma listed_one_of (forms : list string) (c : cell) :
  listed forms c = true -> one_of forms c.
Proof.
  destruct c as [s| | |]; cbn [listed]; try discriminate.
  unfold has. intros H. apply existsb_exists in H.
  destruct H as (x & Hin & Hx). apply String.eqb_eq in Hx. subst x.
  exists s. auto.
Qed.

Lemma filter_forms_listed (forms : list string) (df : frame) (cells : list cell) :
  lookup "formType" (cols df) <> None ->
  lookup "formType" (cols (filter_forms (Some forms) df)) = Some cells ->
  Forall (one_of forms) cells.
Proof.
  intros Hsome. unfold filter_forms, getitem.
  destruct (lookup "formType" (cols df)) as [cells0|] eqn:El; [|contradiction].
  cbn [tags setitem cols]. rewrite lookup_assign, String.eqb_refl.
  cbn [drop_last_column cols select_rows]. intros E. apply lookup_removelast in E.
  cbn [select_rows setitem cols] in E. rewrite lookup_map in E.
  cbn [select_rows setitem cols] in E. rewrite lookup_assign in E.
  cbn [String.eqb Ascii.eqb Bool.eqb] in E. rewrite El in E.
  cbn [option_map] in E. inversion E.
  rewrite map_map.
  rewrite (map_ext _ (listed forms)) by reflexivity.
  rewrite keep_map_filter.
  apply Forall_forall. intros c Hin. apply filter_In in Hin.
  apply listed_one_of, Hin.
Qed.

(** The frame [get_urls] returns has the six columns identifier, Date,
    formType, name, url and accessionNumber, in this order; and when a list
    of forms was given, every form in it is one of the list. *)
Theorem columns_and_forms
  (ids : list string) (key : string) (start_date end_date : option string)
  (l_file_form : option (list string)) (out : list string) (df : frame) :
  get_urls requests_get comparable ids key start_date end_date l_file_form = (out, Return df) ->
  map fst (cols df) = wanted_columns /\
  forall forms,
    l_file_form = Some forms ->
    exists cells,
      lookup "formType" (cols df) = Some cells /\ Forall (one_of forms) cells.
Proof.
  intros H.
  destruct (get_urls_Return _ _ _ _ _ _ _ H)
    as (fetched & filing & dates0 & _ & _ & _ & Hs).
  split.
  - unfold select_columns in Hs.
    destruct (pick wanted_columns _) as [cs|] eqn:Ep; [|discriminate Hs].
    inversion Hs. cbn [cols]. eapply pick_names. exact Ep.
  - intros forms ->.
    destruct (select_columns_lookup _ _ "formType" Hs) as (cells & Hc & Hc').
    { cbn. auto. }
    exists cells. split; [exact Hc|].
    eapply filter_forms_listed; [|exact Hc'].
    intros Hnone.
    unfold filter_forms, getitem in Hc'. rewrite Hnone in Hc'.
    rewrite Hnone in Hc'. discriminate Hc'.
Qed.

Lemma fetch_filings_refused (key id : string) (df : frame) :
  refused requests_get key id ->
  fetch_filings requests_get key id df
  = ([(id ++ " getting url FAILED!")%string], Return df).
Proof.
  intros (r & Hr & Hs). unfold fetch_filings, lift. rewrite Hr, bind_pure.
  apply Nat.eqb_neq in Hs. rewrite Hs. apply bind_print.
Qed.

Lemma fetch_all_refused (key : string) (ids : list string) (df : frame) :
  (forall id, In id ids -> refused requests_get key id) ->
  fetch_all requests_get key ids df
  = (map (fun id => (id ++ " getting url FAILED!")%string) ids, Return df).
Proof.
  induction ids as [|id ids IH]; intros H; [reflexivity|].
  cbn [fetch_all]. rewrite fetch_filings_refused by (apply H; left; reflexivity).
  cbn [bind]. rewrite IH by (intros x Hx; apply H; right; exact Hx).
  reflexivity.
Qed.

(** When no identifier is given, or the API refuses every one of them,
    [get_urls] returns no empty frame: it prints one line per identifier and
    raises a [KeyError], for the column of the filing dates the empty frame
    has not. *)
Theorem nothing_fetched_raises
  (ids : list string) (key : string) (start_date end_date : option string)
  (forms : option (list string)) :
  (forall id, In id ids -> refused requests_get key id) ->
  get_urls requests_get comparable ids key start_date end_date forms
  = (map (fun id => (id ++ " getting url FAILED!")%string) ids, Raise KeyError).
Proof.
  intros H. unfold get_urls. rewrite (fetch_all_refused key ids empty H).
  cbn [bind lift getitem empty cols lookup]. rewrite app_nil_r. reflexivity.
Qed.

Lemma snd_bind {A B} (m m' : Py A) (k : A -> Py B) :
  snd m = snd m' -> snd (bind m k) = snd (bind m' k).
Proof.
  destruct m as [o [a|e]], m' as [o' [a'|e']]; cbn [snd]; intros H;
    inversion H; subst; cbn [bind]; try reflexivity.
  destruct (k a'). reflexivity.
Qed.

Lemma snd_bind_Return {A B} (o : list string) (a : A) (k : A -> Py B) :
  snd (bind (o, Return a) k) = snd (k a).
Proof. cbn [bind]. destruct (k a). reflexivity. Qed.

Lemma fetch_all_skips (key bad : string) (before after : list string) :
  refused requests_get key bad ->
  forall df,
    snd (fetch_all requests_get key (before ++ bad :: after) df)
    = snd (fetch_all requests_get key (before ++ after) df).
Proof.
  intros Hbad. induction before as [|id before IH]; intros df.
  - cbn [app fetch_all]. rewrite (fetch_filings_refused key bad df Hbad).
    apply snd_bind_Return.
  - cbn [app fetch_all].
    destruct (fetch_filings requests_get key id df) as [o [df'|e]];
      [|reflexivity].
    rewrite !snd_bind_Return. apply IH.
Qed.

(** An identifier the API refuses costs a line and nothing else: what
    [get_urls] returns or raises is what it returns or raises for the list
    without that identifier. *)
Theorem refused_identifier_is_skipped
  (key bad : string) (before after : list string)
  (start_date end_date : option string) (forms : option (list string)) :
  refused requests_get key bad ->
  snd (get_urls requests_get comparable (before ++ bad :: after) key start_date end_date forms)
  = snd (get_urls requests_get comparable (before ++ after) key start_date end_date forms).
Proof.
  intros Hbad. unfold get_urls. apply snd_bind.
  apply fetch_all_skips, Hbad.
Qed.

Lemma fetch_filings_unreadable (key id : string) (df : frame) :
  unreadable requests_get key id ->
  exists e, snd (fetch_filings requests_get key id df) = Raise e.
Proof.
  unfold fetch_filings, lift.
  intros [[e He] | (r & e & Hr & Hs & He)].
  - rewrite He. exists e. reflexivity.
  - rewrite Hr, bind_pure, Hs. cbn [Nat.eqb].
    rewrite bind_print, He. exists e. reflexivity.
Qed.

Lemma fetch_all_unreadable (key id : string) (ids : list string) :
  In id ids -> unreadable requests_get key id ->
  forall df, exists e, snd (fetch_all requests_get key ids df) = Raise e.
Proof.
  intros Hin Hu. induction ids as [|x ids IH]; [contradiction|]. intros df.
  cbn [fetch_all].
  destruct (fetch_filings requests_get key x df) as [o [df'|e]] eqn:Ef.
  - rewrite snd_bind_Return. destruct Hin as [->|Hin]; [|apply IH, Hin].
    destruct (fetch_filings_unreadable key id df Hu) as [e He].
    rewrite Ef in He. discriminate He.
  - exists e. reflexivity.
Qed.

(** One request that raises, or one answer of status 200 that cannot be
    read, is the end of the call: [get_urls] raises, and the filings of the
    other identifiers are not returned. *)
Theorem unreadable_answer_raises
  (key id : string) (ids : list string)
  (start_date end_date : option string) (forms : option (list string)) :
  In id ids -> unreadable requests_get key id ->
  exists e,
    snd (get_urls requests_get comparable ids key start_date end_date forms) = Raise e.
Proof.
  intros Hin Hu. unfold get_urls.
  destruct (fetch_all_unreadable key id ids Hin Hu empty) as [e He].
  destruct (fetch_all requests_get key ids empty) as [o [df|e']];
    cbn [snd] in He; [discriminate He|].
  exists e'. reflexivity.
Qed.

End GetUrls.


Section Bounds.

Variable requests_get : string -> string -> outcome response.
Variable comparable : nat * nat * nat -> bool.

Lemma keep_nil {A} (mask : list bool) : keep mask (@nil A) = [].
Proof. destruct mask; reflexivity. Qed.

Lemma keep_keep {A} (p q : cell -> bool) (d : list cell) (c : list A) :
  keep (map p (filter q d)) (keep (map q d) c)
  = keep (map (fun x => q x && p x) d) c.
Proof.
  revert c. induction d as [|x d IH]; intros [|y c]; cbn [map filter keep];
    try reflexivity.
  - apply keep_nil.
  - destruct (q x); cbn [map keep andb].
    + rewrite IH. reflexivity.
    + apply IH.
Qed.

Lemma filter_filter {A} (p q : A -> bool) (l : list A) :
  filter p (filter q l) = filter (fun x => q x && p x) l.
Proof.
  induction l as [|x l IH]; [reflexivity|]. cbn [filter].
  destruct (q x); cbn [filter andb]; rewrite IH; reflexivity.
Qed.

Lemma filter_id_map {A} (p : A -> bool) (l : list A) :
  List.length (filter (fun b : bool => b) (map p l)) = List.length (filter p l).
Proof.
  induction l as [|x l IH]; [reflexivity|]. cbn [map filter].
  destruct (p x); cbn [List.length]; rewrite IH; reflexivity.
Qed.

Lemma Forall_filter {A} (P : A -> Prop) (p : A -> bool) (l : list A) :
  Forall P l -> Forall P (filter p l).
Proof.
  intros H. apply Forall_forall. intros x Hx. apply filter_In in Hx.
  rewrite Forall_forall in H. apply H, Hx.
Qed.

Lemma select_rows_twice (p q : cell -> bool) (dates : list cell) (df : frame) :
  select_rows (map p (filter q dates)) (select_rows (map q dates) df)
  = select_rows (map (fun x => q x && p x) dates) df.
Proof.
  unfold select_rows. cbn [cols]. f_equal.
  - rewrite !filter_id_map, filter_filter. reflexivity.
  - rewrite map_map. apply map_ext. intros [n v]. cbn [fst snd].
    rewrite keep_keep. reflexivity.
Qed.

(** With a column of dates, a bound that can be read selects the rows. *)
Lemma filter_from_parsed (s : string) (b : nat * nat * nat) (df : frame)
  (dates : list cell) :
  strptime s = Some b ->
  comparable b = true ->
  lookup "Date" (cols df) = Some dates ->
  Forall is_date dates ->
  filter_from comparable (Some s) df
  = select_rows (map (fun c => date_leb b (date_of c)) dates) df.
Proof.
  intros Hs Hc Hl Hd. unfold filter_from, getitem.
  rewrite Hs, Hc, Hl, (not_before_dates b dates Hd). reflexivity.
Qed.

Lemma filter_from_unread (s : string) (df : frame) :
  strptime s = None -> filter_from comparable (Some s) df = df.
Proof. intros Hs. unfold filter_from. rewrite Hs. reflexivity. Qed.

Lemma filter_from_incomparable (s : string) (b : nat * nat * nat) (df : frame) :
  strptime s = Some b -> comparable b = false ->
  filter_from comparable (Some s) df = df.
Proof.
  intros Hs Hc. unfold filter_from. rewrite Hs, Hc.
  destruct (getitem df "Date"); reflexivity.
Qed.

Lemma select_rows_Date (p : cell -> bool) (dates : list cell) (df : frame) :
  lookup "Date" (cols df) = Some dates ->
  lookup "Date" (cols (select_rows (map p dates) df)) = Some (filter p dates).
Proof.
  intros Hl. cbn [select_rows cols]. rewrite lookup_map, Hl. cbn [option_map].
  rewrite keep_map_filter. reflexivity.
Qed.

(** Two bounds that can be read select the rows that are before neither. *)
Lemma filter_from_twice (s e : string) (b1 b2 : nat * nat * nat) (df : frame)
  (dates : list cell) :
  strptime s = Some b1 -> strptime e = Some b2 ->
  comparable b1 = true -> comparable b2 = true ->
  lookup "Date" (cols df) = Some dates ->
  Forall is_date dates ->
  filter_from comparable (Some e) (filter_from comparable (Some s) df)
  = select_rows
      (map (fun c => date_leb b1 (date_of c) && date_leb b2 (date_of c)) dates) df.
Proof.
  intros Hs He Hc1 Hc2 Hl Hd.
  rewrite (filter_from_parsed s b1 df dates Hs Hc1 Hl Hd).
  rewrite (filter_from_parsed e b2 _
             (filter (fun c => date_leb b1 (date_of c)) dates) He Hc2).
  - apply (select_rows_twice (fun c => date_leb b2 (date_of c))
             (fun c => date_leb b1 (date_of c))).
  - apply select_rows_Date, Hl.
  - apply Forall_filter, Hd.
Qed.

Lemma filter_from_comm (s e : option string) (df : frame) (dates : list cell) :
  lookup "Date" (cols df) = Some dates ->
  Forall is_date dates ->
  filter_from comparable e (filter_from comparable s df)
  = filter_from comparable s (filter_from comparable e df).
Proof.
  intros Hl Hd. destruct s as [s|], e as [e|]; try reflexivity.
  destruct (strptime s) as [b1|] eqn:Hs;
    [|rewrite !(filter_from_unread s) by exact Hs; reflexivity].
  destruct (strptime e) as [b2|] eqn:He;
    [|rewrite !(filter_from_unread e) by exact He; reflexivity].
  destruct (comparable b1) eqn:Hc1;
    [|rewrite !(filter_from_incomparable s b1) by assumption; reflexivity].
  destruct (comparable b2) eqn:Hc2;
    [|rewrite !(filter_from_incomparable e b2) by assumption; reflexivity].
  rewrite (filter_from_twice s e b1 b2 df dates Hs He Hc1 Hc2 Hl Hd).
  rewrite (filter_from_twice e s b2 b1 df dates He Hs Hc2 Hc1 Hl Hd).
  f_equal. apply map_ext. intros c. apply andb_comm.
Qed.

Lemma date_leb_spec (y m d y' m' d' : nat) :
  date_leb (y, m, d) (y', m', d') = true
  <-> y < y' \/ (y = y' /\ (m < m' \/ (m = m' /\ d <= d'))).
Proof.
  unfold date_leb.
  repeat (rewrite orb_true_iff || rewrite andb_true_iff).
  rewrite !Nat.ltb_lt, !Nat.eqb_eq, Nat.leb_le. reflexivity.
Qed.

(** No date is before both of two dates unless it is before the later. *)
Lemma date_leb_both (b1 b2 c : nat * nat * nat) :
  date_leb b1 c && date_leb b2 c
  = date_leb (if date_leb b1 b2 then b2 else b1) c.
Proof.
  destruct b1 as [[y1 m1] d1], b2 as [[y2 m2] d2], c as [[y m] d].
  apply eq_iff_eq_true. rewrite andb_true_iff.
  destruct (date_leb (y1, m1, d1) (y2, m2, d2)) eqn:E.
  - apply date_leb_spec in E. rewrite !date_leb_spec. lia.
  - apply not_true_iff_false in E. rewrite date_leb_spec in E.
    rewrite !date_leb_spec. lia.
Qed.

Lemma dates_assigned (fetched : frame) (filing dates : list cell) :
  map_cells parse_date filing = Return dates ->
  lookup "Date" (cols (setitem fetched "Date" dates)) = Some dates /\
  Forall is_date dates.
Proof.
  intros Hm. split.
  - cbn [setitem cols]. rewrite lookup_assign, String.eqb_refl. reflexivity.
  - eapply map_cells_dates, Hm.
Qed.

(** The start date and the end date can be given in the place of one
    another: the result is the same, whatever the two are. *)
Theorem bounds_can_be_swapped
  (ids : list string) (key : string) (start_date end_date : option string)
  (forms : option (list string)) :
  get_urls requests_get comparable ids key start_date end_date forms
  = get_urls requests_get comparable ids key end_date start_date forms.
Proof.
  unfold get_urls, lift, getitem.
  destruct (fetch_all requests_get key ids empty) as [o [fetched|e]];
    cbn [bind]; [|reflexivity].
  destruct (lookup "filingDate" (cols fetched)) as [filing|];
    cbn [bind]; [|reflexivity].
  destruct (map_cells parse_date filing) as [dates|e] eqn:Em;
    cbn [bind]; [|reflexivity].
  destruct (dates_assigned fetched filing dates Em) as [Hl Hd].
  rewrite (filter_from_comm start_date end_date _ dates Hl Hd). reflexivity.
Qed.

(** Two dates select no period.  When both can be read and compared to,
    [get_urls] returns what it returns for the later of the two as the
    start date, and no end date: the filings from the later date on. *)
Theorem two_dates_are_the_later_one
  (ids : list string) (key s e : string) (b1 b2 : nat * nat * nat)
  (forms : option (list string)) :
  strptime s = Some b1 -> strptime e = Some b2 ->
  comparable b1 = true -> comparable b2 = true ->
  get_urls requests_get comparable ids key (Some s) (Some e) forms
  = get_urls requests_get comparable ids key
      (Some (if date_leb b1 b2 then e else s)) None forms.
Proof.
  intros Hs He Hc1 Hc2. unfold get_urls, lift, getitem.
  destruct (fetch_all requests_get key ids empty) as [o [fetched|x]];
    cbn [bind]; [|reflexivity].
  destruct (lookup "filingDate" (cols fetched)) as [filing|];
    cbn [bind]; [|reflexivity].
  destruct (map_cells parse_date filing) as [dates|x] eqn:Em;
    cbn [bind]; [|reflexivity].
  destruct (dates_assigned fetched filing dates Em) as [Hl Hd].
  rewrite (filter_from_twice s e b1 b2 _ dates Hs He Hc1 Hc2 Hl Hd).
  change (filter_from comparable None ?x) with x.
  rewrite (filter_from_parsed (if date_leb b1 b2 then e else s)
             (if date_leb b1 b2 then b2 else b1) _ dates);
    [| destruct (date_leb b1 b2); assumption
     | destruct (date_leb b1 b2); assumption | exact Hl | exact Hd].
  rewrite (map_ext _ _ (fun c => date_leb_both b1 b2 (date_of c))).
  reflexivity.
Qed.

Lemma keep_none {A} (l : list cell) (c : list A) :
  keep (map (fun _ => false) l) c = [].
Proof.
  revert c. induction l as [|x l IH]; intros [|y c]; cbn [map keep];
    try reflexivity.
  apply IH.
Qed.

Lemma pick_of_empty (wanted : list string) (cs cs' : list (string * list cell)) :
  (forall n v, lookup n cs = Some v -> v = []) ->
  pick wanted cs = Some cs' ->
  cs' = map (fun n => (n, [])) wanted.
Proof.
  intros Hcs. revert cs'. induction wanted as [|n r IH]; cbn [pick]; intros cs' H.
  - inversion H. reflexivity.
  - destruct (lookup n cs) as [v|] eqn:El; [|discriminate H].
    destruct (pick r cs) as [cs''|]; [|discriminate H].
    inversion H. cbn [map]. rewrite (Hcs n v El), (IH cs'' eq_refl).
    reflexivity.
Qed.

(** An empty list of forms is a list: no form is one of it, and [get_urls]
    returns the six columns without a row. *)
Theorem empty_list_of_forms_selects_nothing
  (ids : list string) (key : string) (start_date end_date : option string)
  (out : list string) (df : frame) :
  get_urls requests_get comparable ids key start_date end_date (Some []) = (out, Return df) ->
  df = mkFrame 0 (map (fun n => (n, [])) wanted_columns).
Proof.
  intros H.
  destruct (get_urls_Return _ _ _ _ _ _ _ _ _ H)
    as (fetched & filing & dates & _ & _ & _ & Hs).
  destruct (select_columns_lookup _ _ "formType" Hs) as (cells & _ & Hc).
  { cbn. auto. }
  revert Hs Hc.
  set (d := filter_from comparable end_date _). clearbody d.
  unfold filter_forms, getitem.
  destruct (lookup "formType" (cols d)) as [forms|] eqn:El; [|congruence].
  cbn [tags setitem cols]. rewrite lookup_assign, String.eqb_refl.
  rewrite map_map.
  rewrite (map_ext _ (fun _ => false)) by (intros [s| | |]; reflexivity).
  intros Hs _. unfold select_columns in Hs.
  destruct (pick wanted_columns _) as [cs|] eqn:Ep; [|discriminate Hs].
  inversion Hs. f_equal.
  - cbn [drop_last_column select_rows nrows]. rewrite filter_id_map.
    clear. induction forms; [reflexivity | assumption].
  - refine (pick_of_empty _ _ _ _ Ep). intros n v Hv.
    cbn [drop_last_column cols select_rows] in Hv.
    apply lookup_removelast in Hv. rewrite lookup_map in Hv.
    destruct (lookup n _); [|discriminate Hv].
    cbn [option_map] in Hv. rewrite keep_none in Hv. congruence.
Qed.

End Bounds.


Section Rectangular.

Variable requests_get : string -> string -> outcome response.
Variable comparable : nat * nat * nat -> bool.

Lemma lookup_In (n : string) (v : list cell) (cs : list (string * list cell)) :
  lookup n cs = Some v -> In (n, v) cs.
Proof.
  induction cs as [|[m w] cs IH]; cbn [lookup]; [discriminate|].
  destruct (String.eqb m n) eqn:E.
  - apply String.eqb_eq in E. intros H. inversion H. subst. left. reflexivity.
  - intros H. right. apply IH, H.
Qed.

Lemma wf_lookup (df : frame) (n : string) (v : list cell) :
  wf df -> lookup n (cols df) = Some v -> List.length v = nrows df.
Proof.
  intros Hw Hl. apply lookup_In in Hl. unfold wf in Hw.
  rewrite Forall_forall in Hw. apply (Hw _ Hl).
Qed.

Lemma wf_setitem (df : frame) (n : string) (v : list cell) :
  wf df -> List.length v = nrows df -> wf (setitem df n v).
Proof.
  unfold wf. cbn [setitem cols nrows]. intros Hw Hv.
  induction Hw as [|[m w] cs Hc Hcs IH]; cbn [assign].
  - constructor; [exact Hv | constructor].
  - destruct (String.eqb m n); constructor; auto.
Qed.

Lemma length_column_or_missing (df : frame) (n : string) :
  wf df -> List.length (column_or_missing df n) = nrows df.
Proof.
  intros Hw. unfold column_or_missing.
  destruct (lookup n (cols df)) as [v|] eqn:El.
  - apply (wf_lookup df n v Hw El).
  - apply repeat_length.
Qed.

Lemma wf_concat (a b : frame) : wf a -> wf b -> wf (concat a b).
Proof.
  intros Ha Hb. unfold wf, concat. cbn [cols nrows].
  apply Forall_forall. intros c Hin. apply in_map_iff in Hin.
  destruct Hin as (n & <- & _). cbn [snd].
  rewrite length_app, !length_column_or_missing by assumption. reflexivity.
Qed.

Lemma length_keep {A} (mask : list bool) (l : list A) :
  List.length mask = List.length l ->
  List.length (keep mask l) = List.length (filter (fun b : bool => b) mask).
Proof.
  revert l. induction mask as [|b mask IH]; intros [|x l]; cbn [List.length];
    try discriminate; [reflexivity|].
  intros H. injection H as H. cbn [keep filter].
  destruct b; cbn [List.length]; rewrite (IH l H); reflexivity.
Qed.

Lemma wf_select_rows (mask : list bool) (df : frame) :
  wf df -> List.length mask = nrows df -> wf (select_rows mask df).
Proof.
  unfold wf. cbn [select_rows cols nrows]. intros Hw Hm.
  apply Forall_forall. intros c Hin. apply in_map_iff in Hin.
  destruct Hin as (c' & <- & Hin). cbn [snd].
  rewrite Forall_forall in Hw. apply length_keep.
  rewrite Hm. symmetry. apply Hw, Hin.
Qed.

Lemma Forall_removelast {A} (P : A -> Prop) (l : list A) :
  Forall P l -> Forall P (removelast l).
Proof.
  induction 1 as [|x [|y l] Hx Hl IH]; cbn [removelast]; constructor; auto.
Qed.

Lemma wf_drop_last_column (df : frame) : wf df -> wf (drop_last_column df).
Proof. apply Forall_removelast. Qed.

Lemma wf_filter_from (bound : option string) (df : frame) :
  wf df -> wf (filter_from comparable bound df).
Proof.
  intros Hw. unfold filter_from, getitem.
  destruct bound as [s|]; [|exact Hw].
  destruct (strptime s) as [b|]; [|exact Hw].
  destruct (lookup "Date" (cols df)) as [dates|] eqn:El; [|exact Hw].
  destruct (comparable b); [|exact Hw].
  destruct (not_before b dates) as [mask|] eqn:Em; [|exact Hw].
  apply wf_select_rows; [exact Hw|].
  destruct (not_before_mask b dates mask Em) as [-> _].
  rewrite length_map. apply (wf_lookup df _ _ Hw El).
Qed.

Lemma length_tags (forms : option (list string)) (cells flags : list cell) :
  tags forms cells = Some flags -> List.length flags = List.length cells.
Proof.
  destruct forms as [forms|]; cbn [tags].
  - intros H. inversion H. apply length_map.
  - destruct cells; [|discriminate]. intros H. inversion H. reflexivity.
Qed.

Lemma wf_filter_forms (forms : option (list string)) (df : frame) :
  wf df -> wf (filter_forms forms df).
Proof.
  intros Hw. unfold filter_forms, getitem.
  destruct (lookup "formType" (cols df)) as [cells|] eqn:El; [|exact Hw].
  destruct (tags forms cells) as [flags|] eqn:Et; [|exact Hw].
  assert (Hf : List.length flags = nrows df).
  { rewrite (length_tags forms cells flags Et). apply (wf_lookup df _ _ Hw El). }
  cbn [setitem cols]. rewrite lookup_assign, String.eqb_refl.
  apply wf_drop_last_column, wf_select_rows.
  - apply (wf_setitem df "Type_tag" flags Hw Hf).
  - rewrite length_map. exact Hf.
Qed.

Lemma pick_In (wanted : list string) (cs cs' : list (string * list cell)) :
  pick wanted cs = Some cs' -> forall c, In c cs' -> In c cs.
Proof.
  revert cs'. induction wanted as [|n r IH]; cbn [pick]; intros cs' H c Hc.
  - inversion H. subst. contradiction.
  - destruct (lookup n cs) as [v|] eqn:El; [|discriminate H].
    destruct (pick r cs) as [cs''|]; [|discriminate H].
    inversion H. subst. destruct Hc as [<-|Hc].
    + apply lookup_In, El.
    + apply (IH cs'' eq_refl c Hc).
Qed.

Lemma wf_select_columns (df df' : frame) (wanted : list string) :
  wf df -> select_columns df wanted = Return df' -> wf df'.
Proof.
  intros Hw. unfold select_columns.
  destruct (pick wanted (cols df)) as [cs|] eqn:Ep; [|discriminate].
  intros H. inversion H. unfold wf. cbn [cols nrows].
  apply Forall_forall. intros c Hc. unfold wf in Hw.
  rewrite Forall_forall in Hw. apply Hw, (pick_In wanted _ _ Ep c Hc).
Qed.

Lemma length_map_cells (f : cell -> outcome cell) (l l' : list cell) :
  map_cells f l = Return l' -> List.length l' = List.length l.
Proof.
  revert l'. induction l as [|x l IH]; cbn [map_cells]; intros l' H.
  - inversion H. reflexivity.
  - destruct (f x); [|discriminate H].
    destruct (map_cells f l) as [ys|]; [|discriminate H].
    inversion H. cbn [List.length]. rewrite (IH ys eq_refl). reflexivity.
Qed.

Lemma wf_fetch_filings (key id : string) (df df' : frame) (out : list string) :
  well_formed requests_get -> wf df ->
  fetch_filings requests_get key id df = (out, Return df') -> wf df'.
Proof.
  intros Hrq Hw. unfold fetch_filings, lift.
  destruct (requests_get (filings_url id) key) as [r|e] eqn:Er;
    [|discriminate].
  rewrite bind_pure. destruct (status_code r =? 200).
  - rewrite bind_print. destruct (result r) as [fs|e] eqn:Ef; [|discriminate].
    rewrite bind_pure. cbn [ret fst snd]. intros H. inversion H.
    pose proof (Hrq _ _ _ _ Er Ef) as Hfs.
    apply wf_concat; [exact Hw|]. apply wf_setitem; [exact Hfs|].
    apply repeat_length.
  - rewrite bind_print. cbn [ret fst snd]. intros H. inversion H. subst. exact Hw.
Qed.

Lemma wf_fetch_all (key : string) (ids : list string) :
  well_formed requests_get ->
  forall (df df' : frame) (out : list string),
    wf df -> fetch_all requests_get key ids df = (out, Return df') -> wf df'.
Proof.
  intros Hrq. induction ids as [|id ids IH]; intros df df' out Hw; cbn [fetch_all].
  - intros H. inversion H. subst. exact Hw.
  - destruct (fetch_filings requests_get key id df) as [o [df1|e]] eqn:Ef;
      [|discriminate].
    cbn [bind].
    destruct (fetch_all requests_get key ids df1) as [o' [df2|e]] eqn:Ea;
      [|discriminate].
    intros H. inversion H. subst.
    apply (IH df1 df' o' (wf_fetch_filings key id df df1 o Hrq Hw Ef) Ea).
Qed.

(** What [get_urls] selects its columns from is rectangular when what it
    fetched is. *)
Lemma wf_filtered (fetched : frame) (filing dates : list cell)
  (start_date end_date : option string) (forms : option (list string)) :
  wf fetched ->
  lookup "filingDate" (cols fetched) = Some filing ->
  map_cells parse_date filing = Return dates ->
  wf (filter_forms forms
        (filter_from comparable end_date
           (filter_from comparable start_date (setitem fetched "Date" dates)))).
Proof.
  intros Hw Hl Hm.
  apply wf_filter_forms, wf_filter_from, wf_filter_from, wf_setitem; [exact Hw|].
  rewrite (length_map_cells _ _ _ Hm). apply (wf_lookup fetched _ _ Hw Hl).
Qed.

(** The frame [get_urls] returns is rectangular when the frames of the API
    are: each of its columns has one cell for each of its rows. *)
Theorem listed_filings_are_rectangular
  (ids : list string) (key : string) (start_date end_date : option string)
  (forms : option (list string)) (out : list string) (df : frame) :
  well_formed requests_get ->
  get_urls requests_get comparable ids key start_date end_date forms = (out, Return df) ->
  wf df.
Proof.
  intros Hrq H.
  destruct (get_urls_Return _ _ _ _ _ _ _ _ _ H)
    as (fetched & filing & dates & Hf & Hl & Hm & Hs).
  assert (Hw : wf fetched).
  { apply (wf_fetch_all key ids Hrq empty fetched out); [constructor | exact Hf]. }
  apply (wf_select_columns _ df wanted_columns) in Hs; [exact Hs|].
  apply (wf_filtered fetched filing dates _ _ _ Hw Hl Hm).
Qed.

End Rectangular.


Section Latest.

Variable requests_get : string -> string -> outcome response.
Variable comparable : nat * nat * nat -> bool.
Variable latest_first : list cell -> list nat.

Local Notation "'later_or_equal'" :=
  (fun a b : cell => date_leb (date_of b) (date_of a) = true).

Lemma map_nth_seq_from (pre l : list cell) :
  map (fun i => nth i (pre ++ l) Missing) (seq (List.length pre) (List.length l)) = l.
Proof.
  revert pre. induction l as [|x l IH]; intros pre; [reflexivity|].
  cbn [List.length seq map]. f_equal.
  - rewrite app_nth2, Nat.sub_diag by lia. reflexivity.
  - specialize (IH (pre ++ [x])). rewrite <- app_assoc, length_app in IH.
    cbn [List.length app] in IH. rewrite Nat.add_1_r in IH. exact IH.
Qed.

Lemma map_nth_seq_all (l : list cell) :
  map (fun i => nth i l Missing) (seq 0 (List.length l)) = l.
Proof. apply (map_nth_seq_from [] l). Qed.

Lemma NoDup_firstn_of {A} (k : nat) (l : list A) : NoDup l -> NoDup (firstn k l).
Proof.
  intros H. rewrite <- (firstn_skipn k l) in H.
  apply NoDup_app_remove_r in H. exact H.
Qed.

Lemma In_firstn_of {A} (k : nat) (l : list A) (x : A) : In x (firstn k l) -> In x l.
Proof.
  intros H. rewrite <- (firstn_skipn k l). apply in_or_app. left. exact H.
Qed.

Lemma bind_ret {A} (m : Py A) : bind m ret = m.
Proof.
  destruct m as [o [a|e]]; cbn [bind ret]; [|reflexivity].
  rewrite app_nil_r. reflexivity.
Qed.

Lemma get_urls_given (ids : list string) (key : string) (forms : option (list string)) :
  (if given forms
   then get_urls requests_get comparable ids key None None forms
   else get_urls requests_get comparable ids key None None None)
  = get_urls requests_get comparable ids key None None (if given forms then forms else None).
Proof. destruct (given forms); reflexivity. Qed.

(** Zero is no number, and an empty list of forms is no list:
    [get_latest_files] without a number, or with the number 0, returns
    what [get_urls] returns, sorted or not, for the forms that were given
    if there is one, for every form if not. *)
Theorem no_number_returns_every_filing
  (ids : list string) (key : string) (number : option Z)
  (forms : option (list string)) :
  number = None \/ number = Some 0%Z ->
  get_latest_files requests_get comparable latest_first ids key number forms
  = get_urls requests_get comparable ids key None None
      (match forms with Some [] => None | _ => forms end).
Proof.
  intros Hn. unfold get_latest_files. rewrite get_urls_given.
  replace (if given forms then forms else None)
    with (match forms with Some [] => None | _ => forms end)
    by (destruct forms as [[|f l]|]; reflexivity).
  destruct Hn as [-> | ->]; cbn [Z.eqb]; apply bind_ret.
Qed.

(** With a number that is not 0, [get_latest_files] returns rows of the
    list of [get_urls], each one once and whole: the [number] latest when
    the number is positive, all but the [-number] earliest when it is
    negative.  The dates of the rows returned, followed by those of the
    rows left out, are in order, the latest first. *)
Theorem latest_files_are_the_latest
  (ids : list string) (key : string) (n : Z) (forms : option (list string))
  (out : list string) (df : frame) :
  well_formed requests_get ->
  sorts_latest_first latest_first ->
  n <> 0%Z ->
  get_latest_files requests_get comparable latest_first ids key (Some n) forms
  = (out, Return df) ->
  exists all dates positions rest,
    get_urls requests_get comparable ids key None None
      (match forms with Some [] => None | _ => forms end) = (out, Return all) /\
    lookup "Date" (cols all) = Some dates /\
    cols df = map (fun c => (fst c, map (fun i => nth i (snd c) Missing) positions))
                (cols all) /\
    nrows df = List.length positions /\
    NoDup positions /\
    Forall (fun i => i < List.length dates) positions /\
    List.length positions
    = match n with
      | Zneg p => List.length dates - Pos.to_nat p
      | _ => Nat.min (Z.to_nat n) (List.length dates)
      end /\
    Permutation (map (fun i => nth i dates Missing) positions ++ rest) dates /\
    StronglySorted later_or_equal
      (map (fun i => nth i dates Missing) positions ++ rest).
Proof.
  intros Hrq Hsort Hn. unfold get_latest_files. rewrite get_urls_given.
  replace (if given forms then forms else None)
    with (match forms with Some [] => None | _ => forms end)
    by (destruct forms as [[|f l]|]; reflexivity).
  destruct (get_urls requests_get comparable ids key None None _) as [o [all|e]] eqn:Eg;
    cbn [bind]; [|discriminate].
  apply Z.eqb_neq in Hn. rewrite Hn.
  unfold sort_by_date, lift, getitem.
  destruct (lookup "Date" (cols all)) as [dates|] eqn:El; cbn [bind ret];
    [|discriminate].
  rewrite !app_nil_r. intros H. inversion H. subst o df. clear H.
  assert (Hw : wf all).
  { destruct (get_urls_Return _ _ _ _ _ _ _ _ _ Eg)
      as (fetched & filing & dates0 & Hf & Hl0 & Hm & Hs).
    apply (wf_select_columns _ all wanted_columns) in Hs; [exact Hs|].
    apply (wf_filtered comparable fetched filing dates0 _ _ _);
      [|exact Hl0 | exact Hm].
    apply (wf_fetch_all requests_get key ids Hrq empty fetched out);
      [constructor | exact Hf]. }
  pose proof (wf_lookup all _ _ Hw El) as Hlen.
  destruct (Hsort dates) as [Hperm Hsorted].
  set (order := latest_first dates) in *.
  assert (Hlo : List.length order = List.length dates).
  { rewrite (Permutation_length Hperm). apply length_seq. }
  set (k := match n with
            | Zneg p => nrows all - Pos.to_nat p
            | _ => Nat.min (Z.to_nat n) (nrows all)
            end).
  exists all, dates, (firstn k order),
    (map (fun i => nth i dates Missing) (skipn k order)).
  split; [reflexivity|]. split; [exact El|].
  assert (Hk : List.length (firstn k order)
               = match n with
                 | Zneg p => List.length dates - Pos.to_nat p
                 | _ => Nat.min (Z.to_nat n) (List.length dates)
                 end).
  { rewrite length_firstn, Hlo. unfold k. rewrite <- Hlen.
    destruct n; lia. }
  split; [|split; [|split; [|split; [|split; [exact Hk|split]]]]].
  - cbn [head_rows reorder cols nrows]. fold k. rewrite map_map.
    apply map_ext. intros [name v]. cbn [fst snd].
    rewrite firstn_map. reflexivity.
  - cbn [head_rows reorder nrows]. fold k. rewrite Hk. unfold k.
    rewrite Hlen. reflexivity.
  - apply NoDup_firstn_of.
    apply (Permutation_NoDup (Permutation_sym Hperm)), seq_NoDup.
  - apply Forall_forall. intros i Hi. apply In_firstn_of in Hi.
    apply (Permutation_in _ Hperm), in_seq in Hi. lia.
  - rewrite <- map_app, firstn_skipn.
    apply (Permutation_trans (Permutation_map _ Hperm)).
    rewrite map_nth_seq_all. reflexivity.
  - rewrite <- map_app, firstn_skipn. exact Hsorted.
Qed.

End Latest.

Lemma date_leb_total (a b : nat * nat * nat) :
  date_leb a b = false -> date_leb b a = true.
Proof.
  destruct a as [[y m] d], b as [[y' m'] d']. intros H.
  apply not_true_iff_false in H. rewrite date_leb_spec in H.
  apply date_leb_spec. lia.
Qed.

Lemma date_leb_trans (a b c : nat * nat * nat) :
  date_leb a b = true -> date_leb b c = true -> date_leb a c = true.
Proof.
  destruct a as [[y m] d], b as [[y' m'] d'], c as [[y2 m2] d2].
  rewrite !date_leb_spec. lia.
Qed.

Lemma insert_latest_perm (dates : list cell) (i : nat) (l : list nat) :
  Permutation (insert_latest dates i l) (i :: l).
Proof.
  induction l as [|j l IH]; cbn [insert_latest]; [reflexivity|].
  destruct (date_leb _ _); [reflexivity|].
  rewrite IH. apply perm_swap.
Qed.

Lemma insert_latest_sorted (dates : list cell) (i : nat) (l : list nat) :
  StronglySorted (fun a b => date_leb (date_of b) (date_of a) = true)
    (map (fun i => nth i dates Missing) l) ->
  StronglySorted (fun a b => date_leb (date_of b) (date_of a) = true)
    (map (fun i => nth i dates Missing) (insert_latest dates i l)).
Proof.
  induction l as [|j l IH]; cbn [insert_latest map]; intros Hs.
  - constructor; constructor.
  - inversion Hs as [|x r Hr Hx]; subst.
    destruct (date_leb _ _) eqn:E; cbn [map].
    + constructor; [exact Hs|].
      constructor; [exact E|].
      eapply Forall_impl; [|exact Hx]. cbn beta. intros c Hc.
      eapply date_leb_trans; eassumption.
    + constructor; [apply IH, Hr|].
      apply (Permutation_Forall
               (Permutation_sym (Permutation_map _ (insert_latest_perm dates i l)))).
      cbn [map]. constructor; [|assumption].
      apply date_leb_total, E.
Qed.

(** Insertion gives an order as [get_latest_files] needs it. *)
Lemma stable_latest_first_sorts : sorts_latest_first stable_latest_first.
Proof.
  intros dates. unfold stable_latest_first.
  generalize (seq 0 (List.length dates)). intros l. split.
  - induction l as [|i l IH]; cbn [fold_right]; [reflexivity|].
    rewrite insert_latest_perm, IH. reflexivity.
  - induction l as [|i l IH]; cbn [fold_right]; [constructor|].
    apply insert_latest_sorted, IH.
Qed.


(** ** The functions on an API of two companies *)

Lemma api_well_formed : well_formed api.
Proof.
  intros url key r df. unfold api.
  repeat (destruct (String.eqb url _); [intros H; inversion H; subst; cbn [result];
                                         intros E; inversion E; subst;
                                         repeat constructor|]);
    try discriminate.
Qed.

Lemma tsla_is_refused : refused api "key" "TSLA".
Proof.
  exists (mkResponse 404 (Raise ValueError)). split; [reflexivity | discriminate].
Qed.

Lemma bounds_are_lower_bounds_witness :
  get_urls api nanoseconds ["AAPL"; "TSLA"; "MSFT"] "key"
    (Some "2021-07-01") (Some "2021-10-01") None
  = (["AAPL get"; "TSLA getting url FAILED!"; "MSFT get"], Return autumn_filings) /\
  exists dates,
    lookup "Date" (cols autumn_filings) = Some dates /\
    Forall is_date dates /\
    (forall s b, Some "2021-07-01" = Some s -> strptime s = Some b ->
                 nanoseconds b = true -> Forall (on_or_after b) dates) /\
    (forall s b, Some "2021-10-01" = Some s -> strptime s = Some b ->
                 nanoseconds b = true -> Forall (on_or_after b) dates).
Proof.
  assert (H : get_urls api nanoseconds ["AAPL"; "TSLA"; "MSFT"] "key"
                (Some "2021-07-01") (Some "2021-10-01") None
              = (["AAPL get"; "TSLA getting url FAILED!"; "MSFT get"],
                 Return autumn_filings))
    by (vm_compute; reflexivity).
  split; [exact H|].
  apply (bounds_are_lower_bounds api nanoseconds _ _ _ _ _ _ _ H).
Defined.

Lemma two_dates_are_the_later_one_witness :
  strptime "2021-10-01" = Some (2021, 10, 1) /\
  strptime "2021-12-31" = Some (2021, 12, 31) /\
  nanoseconds (2021, 10, 1) = true /\
  nanoseconds (2021, 12, 31) = true /\
  get_urls api nanoseconds ["AAPL"; "MSFT"] "key" (Some "2021-10-01") (Some "2021-12-31") None
  = get_urls api nanoseconds ["AAPL"; "MSFT"] "key"
      (Some (if date_leb (2021, 10, 1) (2021, 12, 31)
             then "2021-12-31" else "2021-10-01")) None None.
Proof.
  assert (Hs : strptime "2021-10-01" = Some (2021, 10, 1)) by reflexivity.
  assert (He : strptime "2021-12-31" = Some (2021, 12, 31)) by reflexivity.
  assert (Hc1 : nanoseconds (2021, 10, 1) = true) by reflexivity.
  assert (Hc2 : nanoseconds (2021, 12, 31) = true) by reflexivity.
  split; [exact Hs|]. split; [exact He|]. split; [exact Hc1|]. split; [exact Hc2|].
  apply (two_dates_are_the_later_one api nanoseconds ["AAPL"; "MSFT"] "key"
           "2021-10-01" "2021-12-31" (2021, 10, 1) (2021, 12, 31) None
           Hs He Hc1 Hc2).
Defined.

Lemma columns_and_forms_witness :
  get_urls api nanoseconds ["AAPL"; "MSFT"] "key" (Some "2021-07-29") None (Some ["10-K"])
  = (["AAPL get"; "MSFT get"], Return annual_reports) /\
  map fst (cols annual_reports) = wanted_columns /\
  forall forms,
    Some ["10-K"] = Some forms ->
    exists cells,
      lookup "formType" (cols annual_reports) = Some cells /\
      Forall (one_of forms) cells.
Proof.
  assert (H : get_urls api nanoseconds ["AAPL"; "MSFT"] "key" (Some "2021-07-29") None
                (Some ["10-K"])
              = (["AAPL get"; "MSFT get"], Return annual_reports))
    by (vm_compute; reflexivity).
  split; [exact H|].
  apply (columns_and_forms api nanoseconds _ _ _ _ _ _ _ H).
Defined.

Lemma empty_list_of_forms_selects_nothing_witness :
  get_urls api nanoseconds ["AAPL"; "MSFT"] "key" None None (Some [])
  = (["AAPL get"; "MSFT get"], Return (listing [])) /\
  listing [] = mkFrame 0 (map (fun n => (n, [])) wanted_columns).
Proof.
  assert (H : get_urls api nanoseconds ["AAPL"; "MSFT"] "key" None None (Some [])
              = (["AAPL get"; "MSFT get"], Return (listing [])))
    by (vm_compute; reflexivity).
  split; [exact H|].
  apply (empty_list_of_forms_selects_nothing api nanoseconds _ _ _ _ _ _ H).
Defined.

Lemma nothing_fetched_raises_witness :
  (forall id, In id ["TSLA"; "TSLA"] -> refused api "key" id) /\
  get_urls api nanoseconds ["TSLA"; "TSLA"] "key" None None None
  = (["TSLA getting url FAILED!"; "TSLA getting url FAILED!"], Raise KeyError).
Proof.
  assert (H : forall id, In id ["TSLA"; "TSLA"] -> refused api "key" id).
  { intros id [<-|[<-|[]]]; exact tsla_is_refused. }
  split; [exact H|].
  apply (nothing_fetched_raises api nanoseconds ["TSLA"; "TSLA"] "key" None None None H).
Defined.

Lemma refused_identifier_is_skipped_witness :
  refused api "key" "TSLA" /\
  snd (get_urls api nanoseconds (["AAPL"] ++ "TSLA" :: ["MSFT"]) "key" None None None)
  = snd (get_urls api nanoseconds (["AAPL"] ++ ["MSFT"]) "key" None None None).
Proof.
  split; [exact tsla_is_refused|].
  apply (refused_identifier_is_skipped api nanoseconds "key" "TSLA" ["AAPL"] ["MSFT"]
           None None None tsla_is_refused).
Defined.

Lemma unreadable_answer_raises_witness :
  In "IBM" ["AAPL"; "IBM"; "MSFT"] /\
  unreadable api "key" "IBM" /\
  exists e, snd (get_urls api nanoseconds ["AAPL"; "IBM"; "MSFT"] "key" None None None) = Raise e.
Proof.
  assert (Hin : In "IBM" ["AAPL"; "IBM"; "MSFT"]) by (right; left; reflexivity).
  assert (Hu : unreadable api "key" "IBM").
  { right. exists (mkResponse 200 (Raise ValueError)), ValueError.
    repeat split; reflexivity. }
  split; [exact Hin|]. split; [exact Hu|].
  apply (unreadable_answer_raises api nanoseconds "key" "IBM" _ None None None Hin Hu).
Defined.

Lemma listed_filings_are_rectangular_witness :
  well_formed api /\
  get_urls api nanoseconds ["AAPL"; "MSFT"] "key" (Some "2021-07-29") None (Some ["10-K"])
  = (["AAPL get"; "MSFT get"], Return annual_reports) /\
  wf annual_reports.
Proof.
  assert (H : get_urls api nanoseconds ["AAPL"; "MSFT"] "key" (Some "2021-07-29") None
                (Some ["10-K"])
              = (["AAPL get"; "MSFT get"], Return annual_reports))
    by (vm_compute; reflexivity).
  split; [exact api_well_formed|]. split; [exact H|].
  apply (listed_filings_are_rectangular api nanoseconds _ _ _ _ _ _ _ api_well_formed H).
Defined.

Lemma no_number_returns_every_filing_witness :
  (@None Z = None \/ None = Some 0%Z) /\
  (Some 0%Z = None \/ Some 0%Z = Some 0%Z) /\
  get_latest_files api nanoseconds stable_latest_first ["AAPL"; "MSFT"] "key" None (Some ["10-K"])
  = get_urls api nanoseconds ["AAPL"; "MSFT"] "key" None None (Some ["10-K"]) /\
  get_latest_files api nanoseconds stable_latest_first ["AAPL"; "MSFT"] "key" (Some 0%Z) (Some [])
  = get_urls api nanoseconds ["AAPL"; "MSFT"] "key" None None None.
Proof.
  assert (H1 : @None Z = None \/ None = Some 0%Z) by (left; reflexivity).
  assert (H2 : Some 0%Z = None \/ Some 0%Z = Some 0%Z) by (right; reflexivity).
  split; [exact H1|]. split; [exact H2|]. split.
  - apply (no_number_returns_every_filing api nanoseconds stable_latest_first
             ["AAPL"; "MSFT"] "key" None (Some ["10-K"]) H1).
  - apply (no_number_returns_every_filing api nanoseconds stable_latest_first
             ["AAPL"; "MSFT"] "key" (Some 0%Z) (Some []) H2).
Defined.

Lemma latest_files_are_the_latest_witness :
  well_formed api /\
  sorts_latest_first stable_latest_first /\
  2%Z <> 0%Z /\
  get_latest_files api nanoseconds stable_latest_first ["AAPL"; "MSFT"] "key" (Some 2%Z)
    (Some ["10-K"; "10-Q"])
  = (["AAPL get"; "MSFT get"], Return autumn_filings) /\
  exists all dates positions rest,
    get_urls api nanoseconds ["AAPL"; "MSFT"] "key" None None (Some ["10-K"; "10-Q"])
    = (["AAPL get"; "MSFT get"], Return all) /\
    lookup "Date" (cols all) = Some dates /\
    cols autumn_filings
    = map (fun c => (fst c, map (fun i => nth i (snd c) Missing) positions))
        (cols all) /\
    nrows autumn_filings = List.length positions /\
    NoDup positions /\
    Forall (fun i => i < List.length dates) positions /\
    List.length positions = Nat.min (Z.to_nat 2) (List.length dates) /\
    Permutation (map (fun i => nth i dates Missing) positions ++ rest) dates /\
    StronglySorted (fun a b => date_leb (date_of b) (date_of a) = true)
      (map (fun i => nth i dates Missing) positions ++ rest).
Proof.
  assert (Hn : 2%Z <> 0%Z) by discriminate.
  assert (H : get_latest_files api nanoseconds stable_latest_first ["AAPL"; "MSFT"] "key"
                (Some 2%Z) (Some ["10-K"; "10-Q"])
              = (["AAPL get"; "MSFT get"], Return autumn_filings))
    by (vm_compute; reflexivity).
  split; [exact api_well_formed|]. split; [exact stable_latest_first_sorts|].
  split; [exact Hn|]. split; [exact H|].
  apply (latest_files_are_the_latest api nanoseconds stable_latest_first
           ["AAPL"; "MSFT"] "key" 2%Z (Some ["10-K"; "10-Q"])
           ["AAPL get"; "MSFT get"] autumn_filings
           api_well_formed stable_latest_first_sorts Hn H).
Defined.

(** Equal dates keep the order of the frame. *)
Example ties_keep_the_frame_order :
  stable_latest_first
    [Date 2021 1 1; Date 2021 5 1; Date 2021 5 1; Date 2021 1 1;
     Date 2022 1 1; Date 2021 5 1]
  = [4; 1; 2; 5; 0; 3].
Proof. reflexivity. Qed.

